(** * The deploy worker of rise-server: [deployer.Work]

    A shallow embedding of [src/deployer/deployer/deployer.go].  [Work] is
    one long effectful function; it is embedded as a computation in a small
    state-and-error monad over a [World] made of the relational store and
    the chronological trace of the calls [Work] issues to its collaborators
    (object store, message bus, store, logger).  The outcome of every
    fallible collaborator call is read from an environment [Env], so that a
    run of [Work] is a function of the job, the store and the environment. *)

From Stdlib Require Import List String Ascii Bool Arith ZArith Lia.
From Stdlib Require Import DecimalString.
Import ListNotations.
Open Scope list_scope.
Open Scope string_scope.

Set Implicit Arguments.
Set Warnings "-register-all".

(** ** Strings: the helpers of Go's standard library that [Work] calls *)

Module GoString.

Definition TAB : string := String (ascii_of_nat 9) EmptyString.
Definition NL : string := String (ascii_of_nat 10) EmptyString.
Definition DQ : string := String (ascii_of_nat 34) EmptyString.

(** [strings.Split(s, sep)] for a one-byte separator: always at least one
    piece, empty pieces are kept. *)
Fixpoint Split (sep : ascii) (s : string) : list string :=
  match s with
  | EmptyString => [EmptyString]
  | String c rest =>
      if Ascii.eqb c sep then EmptyString :: Split sep rest
      else match Split sep rest with
           | piece :: pieces => String c piece :: pieces
           | [] => [String c EmptyString]
           end
  end.

(** [strings.Join(elems, sep)]. *)
Fixpoint Join (sep : string) (elems : list string) : string :=
  match elems with
  | [] => EmptyString
  | [e] => e
  | e :: rest => e ++ sep ++ Join sep rest
  end.

(** [s[:i]] where [i = strings.Index(s, c)], and [s] itself when [c]
    does not occur ([Index] returns -1). *)
Fixpoint cut_at (c : ascii) (s : string) : string :=
  match s with
  | EmptyString => EmptyString
  | String a rest => if Ascii.eqb a c then EmptyString else String a (cut_at c rest)
  end.

(** [strconv.Itoa] on a non-negative integer. *)
Definition Itoa (n : nat) : string := NilZero.string_of_uint (Nat.to_uint n).

(** [fmt.Sprintf(format, arg)] for a format whose only verb is one [%s]
    and a string or byte-slice argument: the verb is replaced by the
    argument's bytes, everything else is copied. *)
Fixpoint Sprintf_s (format arg : string) : string :=
  match format with
  | String "%" (String "s" rest) => arg ++ rest
  | String c rest => String c (Sprintf_s rest arg)
  | EmptyString => EmptyString
  end.

End GoString.

(** ** [path.Clean] and [filepath.Ext] *)

Module GoPath.
Import GoString.

(** The state of [path.Clean]'s output buffer, component by component:
    [out] holds the components written so far, most recent first, and
    [dotdot] counts the leading [..] components that may not be removed
    (in the source, the index [dotdot] below which [out.w] cannot
    backtrack). *)
Record buf := { out : list string; dotdot : nat }.

Definition clean_step (rooted : bool) (b : buf) (elem : string) : buf :=
  if String.eqb elem "" then b                       (* empty path element *)
  else if String.eqb elem "." then b                 (* . element *)
  else if String.eqb elem ".." then                  (* .. element *)
    if Nat.ltb (dotdot b) (List.length (out b))
    then {| out := List.tl (out b); dotdot := dotdot b |}      (* can backtrack *)
    else if negb rooted
         then {| out := ".." :: out b; dotdot := S (List.length (out b)) |}
         else b
  else {| out := elem :: out b; dotdot := dotdot b |}.  (* real path element *)

(** [path.Clean]. *)
Definition Clean (p : string) : string :=
  match p with
  | EmptyString => "."
  | String c _ =>
      let rooted := Ascii.eqb c "/" in
      let b := fold_left (clean_step rooted) (Split "/" p) {| out := []; dotdot := 0 |} in
      let body := Join "/" (rev (out b)) in
      if rooted then "/" ++ body
      else match out b with
           | [] => "."
           | _ => body
           end
  end.

(** [filepath.Ext]: the suffix beginning at the final dot in the final
    slash-separated element, empty if there is no dot.  [ext_scan] reads
    the path from its last byte backwards, [acc] being the bytes already
    passed. *)
Fixpoint ext_scan (rev_path : list ascii) (acc : string) : string :=
  match rev_path with
  | [] => ""
  | c :: before =>
      if Ascii.eqb c "/" then ""
      else if Ascii.eqb c "." then String c acc
      else ext_scan before (String c acc)
  end.

Definition Ext (p : string) : string :=
  ext_scan (rev (list_ascii_of_string p)) "".

End GoPath.

(** ** Errors and JSON values *)

(** An error value made by a collaborator of [Work] (the object store, the
    relational store, the message bus, a library). *)
Inductive failure : Type :=
| Failure (msg : string).

(** Go's [error] values that [Work] can return.  The package-level
    sentinels of the deployer are values of their own: no collaborator
    returns them. *)
Inductive error : Type :=
| ErrProjectLocked                      (* "project is locked" *)
| ErrTimeout                            (* "failed to upload files due to timeout on uploading to s3" *)
| errUnexpectedState                    (* "deployment is in unexpected state" *)
| ErrRecordNotFound                     (* gorm: no row matched *)
| SyntaxError                           (* encoding/json: input is not JSON *)
| UnmarshalTypeError (value : string)   (* encoding/json: JSON value of the wrong kind *)
| NilDereference                        (* run-time panic *)
| External (f : failure).               (* an error of a collaborator *)

(** A parsed JSON text, as [encoding/json] scans it. *)
Inductive json : Type :=
| JNull
| JBool (b : bool)
| JNumber (literal : string)
| JString (s : string)
| JArray (elems : list json)
| JObject (members : list (string * json)).

Module GoJSON.

(** The [Value] field of the [UnmarshalTypeError] reported for a JSON
    value that cannot be stored in a Go [string]. *)
Definition describe (v : json) : string :=
  match v with
  | JNull => "null"
  | JBool _ => "bool"
  | JNumber _ => "number"
  | JString _ => "string"
  | JArray _ => "array"
  | JObject _ => "object"
  end.

(** Is the value storable in a Go [string]?  A string literal is, and
    [null] is too (it leaves the zero value in place). *)
Definition fits_string (v : json) : bool :=
  match v with
  | JString _ | JNull => true
  | _ => false
  end.

Definition string_of (v : json) : string :=
  match v with
  | JString s => s
  | _ => ""
  end.

(** Decoding the members of an object into a [map[string]string]: every
    member is stored (the zero string when its value does not fit), the
    first type error is remembered and decoding goes on. *)
Fixpoint decode_members (members : list (string * json)) (saved : option error)
  : list (string * string) * option error :=
  match members with
  | [] => ([], saved)
  | (k, v) :: rest =>
      let saved' :=
        match saved with
        | Some e => Some e
        | None => if fits_string v then None else Some (UnmarshalTypeError (describe v))
        end in
      let (m, err) := decode_members rest saved' in
      ((k, string_of v) :: m, err)
  end.

(** [json.Unmarshal(data, &m)] for [m] of type [map[string]string], on
    the parse of [data] ([None] when [data] is not valid JSON). *)
Definition Unmarshal_string_map (parsed : option json) : error + list (string * string) :=
  match parsed with
  | None => inl SyntaxError
  | Some JNull => inr []
  | Some (JObject members) =>
      match decode_members members None with
      | (m, None) => inr m
      | (_, Some e) => inl e
      end
  | Some v => inl (UnmarshalTypeError (describe v))
  end.

End GoJSON.

(** ** Data model *)

(** Wall-clock instants and durations, in nanoseconds. *)
Definition Time := Z.
Definition Second : Z := 1000000000.

(** Modelled from the spec: the state constants of the [deployment]
    package, which is not among the sources; the five states of the
    deployment state machine. *)
Inductive State : Type :=
| StatePendingUpload
| StateUploaded
| StatePendingDeploy
| StateDeployed
| StateDeployFailed.

Definition State_eqb (a b : State) : bool :=
  match a, b with
  | StatePendingUpload, StatePendingUpload
  | StateUploaded, StateUploaded
  | StatePendingDeploy, StatePendingDeploy
  | StateDeployed, StateDeployed
  | StateDeployFailed, StateDeployFailed => true
  | _, _ => false
  end.

Module deployment.
(** Modelled from the spec: the [Deployment] row of the [deployment]
    package, with the attributes of the data model that [Work] reads or
    writes. *)
Record Deployment := {
  ID : nat;
  State_ : State;
  Prefix : string;
  Version : Z;
  ProjectID : nat;
  UserID : nat;
  RawBundleID : option nat;
  JsEnvVars : string;
  ErrorMessage : option string;
  CreatedAt : Time;
  DeployedAt : option Time;
  DeletedAt : option Time
}.

Definition with_State (s : State) (d : Deployment) : Deployment :=
  {| ID := ID d; State_ := s; Prefix := Prefix d; Version := Version d;
     ProjectID := ProjectID d; UserID := UserID d; RawBundleID := RawBundleID d;
     JsEnvVars := JsEnvVars d; ErrorMessage := ErrorMessage d;
     CreatedAt := CreatedAt d; DeployedAt := DeployedAt d; DeletedAt := DeletedAt d |}.

Definition with_ErrorMessage (m : option string) (d : Deployment) : Deployment :=
  {| ID := ID d; State_ := State_ d; Prefix := Prefix d; Version := Version d;
     ProjectID := ProjectID d; UserID := UserID d; RawBundleID := RawBundleID d;
     JsEnvVars := JsEnvVars d; ErrorMessage := m;
     CreatedAt := CreatedAt d; DeployedAt := DeployedAt d; DeletedAt := DeletedAt d |}.

Definition with_DeployedAt (t : option Time) (d : Deployment) : Deployment :=
  {| ID := ID d; State_ := State_ d; Prefix := Prefix d; Version := Version d;
     ProjectID := ProjectID d; UserID := UserID d; RawBundleID := RawBundleID d;
     JsEnvVars := JsEnvVars d; ErrorMessage := ErrorMessage d;
     CreatedAt := CreatedAt d; DeployedAt := t; DeletedAt := DeletedAt d |}.

Definition with_DeletedAt (t : option Time) (d : Deployment) : Deployment :=
  {| ID := ID d; State_ := State_ d; Prefix := Prefix d; Version := Version d;
     ProjectID := ProjectID d; UserID := UserID d; RawBundleID := RawBundleID d;
     JsEnvVars := JsEnvVars d; ErrorMessage := ErrorMessage d;
     CreatedAt := CreatedAt d; DeployedAt := DeployedAt d; DeletedAt := t |}.

(** Modelled from the spec: [PrefixID], absent from the sources;
    [PrefixID = prefix + "-" + id]. *)
Definition PrefixID (d : Deployment) : string :=
  Prefix d ++ "-" ++ GoString.Itoa (ID d).
End deployment.

Module project.
(** Modelled from the spec: the [Project] row of the [project] package.
    [Locked] is the advisory lock bound to the project's identity. *)
Record Project := {
  ID : nat;
  Name : string;
  Watermark : bool;
  ForceHTTPS : bool;
  BasicAuthUsername : option string;
  EncryptedBasicAuthPassword : option string;
  MaxDeploysKept : nat;
  ActiveDeploymentID : option nat;
  Locked : bool
}.

Definition with_Locked (b : bool) (p : Project) : Project :=
  {| ID := ID p; Name := Name p; Watermark := Watermark p; ForceHTTPS := ForceHTTPS p;
     BasicAuthUsername := BasicAuthUsername p;
     EncryptedBasicAuthPassword := EncryptedBasicAuthPassword p;
     MaxDeploysKept := MaxDeploysKept p; ActiveDeploymentID := ActiveDeploymentID p;
     Locked := b |}.

Definition with_ActiveDeploymentID (a : option nat) (p : Project) : Project :=
  {| ID := ID p; Name := Name p; Watermark := Watermark p; ForceHTTPS := ForceHTTPS p;
     BasicAuthUsername := BasicAuthUsername p;
     EncryptedBasicAuthPassword := EncryptedBasicAuthPassword p;
     MaxDeploysKept := MaxDeploysKept p; ActiveDeploymentID := a;
     Locked := Locked p |}.
End project.

Module rawbundle.
Record RawBundle := { ID : nat; UploadedPath : string }.
End rawbundle.

Module messages.
(** The job payload, [messages.DeployJobData]. *)
Record DeployJobData := {
  DeploymentID : nat;
  SkipWebrootUpload : bool;
  SkipInvalidation : bool;
  UseRawBundle : bool
}.
End messages.

Module exchanges.
Definition Edges : string := "edges".
Definition RouteV1Invalidation : string := "v1.invalidation".
End exchanges.

(** The relational store: its tables as lists of rows. *)
Record DB := {
  deployments : list deployment.Deployment;
  projects : list project.Project;
  rawbundles : list rawbundle.RawBundle;
  users : list nat
}.

Definition with_deployments (ds : list deployment.Deployment) (db : DB) : DB :=
  {| deployments := ds; projects := projects db; rawbundles := rawbundles db; users := users db |}.

Definition with_projects (ps : list project.Project) (db : DB) : DB :=
  {| deployments := deployments db; projects := ps; rawbundles := rawbundles db; users := users db |}.

(** One header of the tar stream, with what [Work] reads of it. *)
Record Header := {
  Name : string;
  IsDir : bool;         (* hdr.FileInfo().IsDir() *)
  Size : Z              (* hdr.Size, an int64 *)
}.

(** What successive calls of [tr.Next()] yield: entries with their content,
    ended by [io.EOF] or by a read error. *)
Inductive TarStream : Type :=
| TarEOF
| TarError (e : failure)
| TarEntry (hdr : Header) (content : string) (rest : TarStream).

(** A downloaded bundle: what [gzip.NewReader] and the tar reader make of
    the file. *)
Record Bundle := {
  gzip_err : option failure;
  tar : TarStream
}.

(** The anonymous struct marshalled into [meta.json]. *)
Record Meta := {
  meta_prefix : string;
  meta_force_https : bool;
  meta_basic_auth_username : option string;
  meta_basic_auth_password : option string
}.

(** ** Observable calls *)

(** The lines [Work] writes to the log. *)
Inductive LogLine : Type :=
| LogUnlockFailed (projectID : nat) (e : error)
| LogInvalidFilename (fileName : string)
| LogWatermarkFailed (name : string) (e : error)
| LogUpdateStateFailed (prefixID : string) (e : error)
| LogTrackFailed (event : string) (userID : nat) (e : error).

(** Which handle a store call goes through: the connection [db] or the
    open transaction [tx]. *)
Inductive Handle : Type := OnDB | OnTx.

(** The calls [Work] issues, whether or not they succeed. *)
Inductive Event : Type :=
| EvLock (projectID : nat)
| EvUnlock (projectID : nat)
| EvTempFile (pattern : string)
| EvRemoveTemp
| EvDownload (key : string)
| EvInject (name : string)
| EvUpload (key body contentType acl : string)
| EvPublish (exchange route : string) (domains : list string)
| EvUpdateState (h : Handle) (deploymentID : nat) (s : State)
| EvBegin
| EvUpdateActive (projectID deploymentID : nat)
| EvDeleteExceptLastN (projectID n : nat)
| EvCommit
| EvRollback
| EvTrack (userID : nat) (event projectName : string) (deploymentID : nat)
          (deploymentPrefix : string) (deploymentVersion timeTakenInSeconds : Z)
| EvLog (line : LogLine).

(** The world [Work] runs in: the committed store, the view of the open
    transaction if there is one, and the calls issued so far, oldest
    first. *)
Record World := {
  db : DB;
  tx : option DB;
  trace : list Event
}.

(** ** Environment *)

(** Everything [Work] depends on that lies outside [deployer.go]: library
    functions whose tables are set at start-up, helpers of the repository
    that are not among the sources, and the outcome of each fallible call
    ([None] is Go's [nil] error). *)
Record Env := {
  (* encoding/json *)
  json_Unmarshal_job : string -> failure + messages.DeployJobData;
  json_parse : string -> option json;
  json_Marshal_meta : Meta -> failure + string;
  (* mime.TypeByExtension, after mimetypes.Register() *)
  mime_TypeByExtension : string -> string;
  (* the watermark injector of the deployer package *)
  injectWatermark : string -> failure + string;
  (* deployment.DeleteExceptLastN on the deployments table, at a given time *)
  DeleteExceptLastN_rows :
    nat -> nat -> Time -> list deployment.Deployment -> failure + list deployment.Deployment;
  (* proj.DomainNames(db) *)
  DomainNames_result : failure + list string;
  (* outcomes of the fallible calls *)
  dbconn_err : option failure;
  lock_err : option failure;
  unlock_err : option failure;
  tempfile_err : option failure;
  S3_Download_result : string -> failure + Bundle;
  S3_Upload_err : string -> option failure;
  UpdateState_err : Handle -> State -> option failure;
  new_message_err : option failure;
  publish_err : option failure;
  begin_err : option failure;
  update_active_err : option failure;
  commit_err : option failure;
  track_err : option failure;
  (* the select on (done, errCh, time.After(UploadTimeout)): [Some k] when
     the timer wins after the upload goroutine has gone through at most [k]
     iterations, [None] when the goroutine's own signal wins *)
  upload_timer : option nat;
  (* the store's clock, now() *)
  now : Time
}.

(** ** The monad *)

Definition M (A : Type) : Type := World -> (error + A) * World.

Definition ret {A} (a : A) : M A := fun w => (inr a, w).

Definition fail {A} (e : error) : M A := fun w => (inl e, w).

Definition bind {A B} (m : M A) (k : A -> M B) : M B :=
  fun w =>
    match m w with
    | (inl e, w') => (inl e, w')
    | (inr a, w') => k a w'
    end.

Notation "x <- m ;; k" := (bind m (fun x => k))
  (at level 61, m at next level, right associativity).
Notation "m ;;; k" := (bind m (fun _ => k))
  (at level 61, right associativity).

(** Lifting a Go [(value, err)] result and a lone [err]: of the code
    modelled here ([lift]), and of a collaborator ([call], [check]). *)
Definition lift {A} (r : error + A) : M A :=
  match r with
  | inl e => fail e
  | inr a => ret a
  end.

Definition call {A} (r : failure + A) : M A :=
  match r with
  | inl f => fail (External f)
  | inr a => ret a
  end.

Definition check (e : option failure) : M unit :=
  match e with
  | Some f => fail (External f)
  | None => ret tt
  end.

Definition emit (e : Event) : M unit :=
  fun w => (inr tt, {| db := db w; tx := tx w; trace := (trace w ++ [e])%list |}).

Definition log (l : LogLine) : M unit := emit (EvLog l).

Definition get_db : M DB := fun w => (inr (db w), w).

Definition put_db (d : DB) : M unit :=
  fun w => (inr tt, {| db := d; tx := tx w; trace := trace w |}).

Definition get_tx : M (option DB) := fun w => (inr (tx w), w).

Definition put_tx (t : option DB) : M unit :=
  fun w => (inr tt, {| db := db w; tx := t; trace := trace w |}).

(** Go's [defer]: [cleanup] runs when the rest of the function, [body],
    returns, whatever it returns; what [cleanup] itself returns is
    dropped. *)
Definition defer {A} (cleanup : M unit) (body : M A) : M A :=
  fun w =>
    match body w with
    | (r, w') => (r, snd (cleanup w'))
    end.

(** [m], with an error of [m] handed to [handler] instead of returned. *)
Definition catch {A} (m : M A) (handler : error -> M A) : M A :=
  fun w =>
    match m w with
    | (inl e, w') => handler e w'
    | (inr a, w') => (inr a, w')
    end.

(** ** Constants of the deployer package *)

Module deployer.
Import GoString.

Definition MaxFileSizeToWatermark : Z := 5 * 1000 * 1000.

Definition jsenvFormat : string :=
  "(function(global, env) {" ++ NL ++
  TAB ++ "if (typeof module === " ++ DQ ++ "object" ++ DQ
      ++ " && typeof module.exports === " ++ DQ ++ "object" ++ DQ ++ ") {" ++ NL ++
  TAB ++ TAB ++ "module.exports = env;" ++ NL ++
  TAB ++ "} else {" ++ NL ++
  TAB ++ TAB ++ "global.JSENV = env;" ++ NL ++
  TAB ++ "}" ++ NL ++
  "}(this, %s));" ++ NL.

(** The character class of the regexp
    [[^0-9A-Za-z,!_'()\.\*\-]+], complemented: the bytes that are allowed
    in a path element.  (The regexp reads runes; a rune of several bytes
    is made of bytes above 127, none of which is in the class, so the
    test can be made byte by byte.) *)
Definition key_safe (c : ascii) : bool :=
  let n := nat_of_ascii c in
  ((48 <=? n)%nat && (n <=? 57)%nat)          (* 0-9 *)
  || ((65 <=? n)%nat && (n <=? 90)%nat)       (* A-Z *)
  || ((97 <=? n)%nat && (n <=? 122)%nat)      (* a-z *)
  || existsb (Ascii.eqb c) [","; "!"; "_"; "'"; "("; ")"; "."; "*"; "-"]%char.

(** [r.MatchString(s)]: some run of one or more bytes outside the class
    occurs in [s]. *)
Definition MatchString (s : string) : bool :=
  existsb (fun c => negb (key_safe c)) (list_ascii_of_string s).

(** The loop over [pathElements] that computes [isValidFileName]. *)
Definition isValidFileName (fileName : string) : bool :=
  forallb (fun pathElement => negb (MatchString pathElement)) (Split "/" fileName).

(** The condition under which an entry goes through the injector. *)
Definition watermarked (proj : project.Project) (contentType : string) (hdr : Header) : bool :=
  project.Watermark proj
  && String.eqb contentType "text/html"
  && (Size hdr <=? MaxFileSizeToWatermark)%Z.

End deployer.

(** ** Store operations *)

Definition is_none {A} (o : option A) : bool :=
  match o with
  | None => true
  | Some _ => false
  end.

(** gorm's [First] by primary key: soft-deleted rows are not seen. *)
Definition find_deployment (id : nat) (rows : list deployment.Deployment)
  : option deployment.Deployment :=
  find (fun r => Nat.eqb (deployment.ID r) id && is_none (deployment.DeletedAt r)) rows.

Definition find_project (id : nat) (rows : list project.Project) : option project.Project :=
  find (fun r => Nat.eqb (project.ID r) id) rows.

Definition find_rawbundle (id : nat) (rows : list rawbundle.RawBundle) : option rawbundle.RawBundle :=
  find (fun r => Nat.eqb (rawbundle.ID r) id) rows.

Definition update_deployment (id : nat) (f : deployment.Deployment -> deployment.Deployment)
    (rows : list deployment.Deployment) : list deployment.Deployment :=
  map (fun r => if Nat.eqb (deployment.ID r) id then f r else r) rows.

Definition update_project (id : nat) (f : project.Project -> project.Project)
    (rows : list project.Project) : list project.Project :=
  map (fun r => if Nat.eqb (project.ID r) id then f r else r) rows.

Definition First_deployment (id : nat) : M deployment.Deployment :=
  d <- get_db ;;
  match find_deployment id (deployments d) with
  | Some r => ret r
  | None => fail ErrRecordNotFound
  end.

Definition First_project (id : nat) : M project.Project :=
  d <- get_db ;;
  match find_project id (projects d) with
  | Some r => ret r
  | None => fail ErrRecordNotFound
  end.

(** database/sql's error for a transaction that is over. *)
Definition ErrTxDone : failure :=
  Failure "sql: transaction has already been committed or rolled back".

(** A write through a handle: on the connection it is committed at once,
    on the transaction it stays in the transaction's view. *)
Definition write (h : Handle) (f : DB -> DB) : M unit :=
  match h with
  | OnDB => d <- get_db ;; put_db (f d)
  | OnTx =>
      t <- get_tx ;;
      match t with
      | Some d => put_tx (Some (f d))
      | None => fail (External ErrTxDone)
      end
  end.

(** ** [Work] *)

Inductive LoopSignal : Type :=
| LoopDone                  (* close(done) *)
| LoopError (e : error)     (* errCh <- err *)
| LoopRunning.              (* neither yet *)

(** The case the select takes when it does not return an error. *)
Inductive Selected : Type :=
| SelDone                   (* case <-done *)
| SelTimeout.               (* case <-time.After(UploadTimeout) *)

Section Worker.
Import GoString GoPath GoJSON deployer.

Variable env : Env.

(** Modelled from the spec: [proj.Lock(db)], absent from the sources.  A
    non-blocking attempt at the project's exclusive lock: [(false, nil)]
    when the lock is held, [(true, nil)] when it was free and is now
    taken, an error when the store fails. *)
Definition Lock (proj : project.Project) : M bool :=
  emit (EvLock (project.ID proj)) ;;;
  check (lock_err env) ;;;
  d <- get_db ;;
  match find_project (project.ID proj) (projects d) with
  | Some row =>
      if project.Locked row then ret false
      else put_db (with_projects
                     (update_project (project.ID proj) (project.with_Locked true) (projects d)) d) ;;;
           ret true
  | None => ret false
  end.

(** Modelled from the spec: [proj.Unlock(db)], absent from the sources;
    releases the lock. *)
Definition Unlock (proj : project.Project) : M unit :=
  emit (EvUnlock (project.ID proj)) ;;;
  check (unlock_err env) ;;;
  write OnDB (fun d =>
    with_projects (update_project (project.ID proj) (project.with_Locked false) (projects d)) d).

(** Modelled from the spec: [depl.UpdateState(db, state)], absent from
    the sources.  It stores the new state together with the row's
    [error_message], and [deployed_at] when the new state is
    [deployed]; the in-memory deployment is updated alike. *)
Definition UpdateState (h : Handle) (depl : deployment.Deployment) (s : State)
  : M deployment.Deployment :=
  emit (EvUpdateState h (deployment.ID depl) s) ;;;
  check (UpdateState_err env h s) ;;;
  let stamp (r : deployment.Deployment) :=
    if State_eqb s StateDeployed then Some (now env) else deployment.DeployedAt r in
  let save (r : deployment.Deployment) :=
    deployment.with_State s
      (deployment.with_ErrorMessage (deployment.ErrorMessage depl)
         (deployment.with_DeployedAt (stamp r) r)) in
  write h (fun d => with_deployments (update_deployment (deployment.ID depl) save (deployments d)) d) ;;;
  ret (save depl).

(** [db.Begin()], [tx.Commit()], [tx.Rollback()]. *)
Definition Begin : M unit :=
  emit EvBegin ;;;
  check (begin_err env) ;;;
  d <- get_db ;;
  put_tx (Some d).

Definition Commit : M unit :=
  emit EvCommit ;;;
  check (commit_err env) ;;;
  t <- get_tx ;;
  match t with
  | Some d => put_db d ;;; put_tx None
  | None => fail (External ErrTxDone)
  end.

Definition Rollback : M unit :=
  emit EvRollback ;;;
  put_tx None.

(** [tx.Model(project.Project{}).Where("id = ?", id).Update("active_deployment_id", &deplID)]. *)
Definition UpdateActive (projectID deploymentID : nat) : M unit :=
  emit (EvUpdateActive projectID deploymentID) ;;;
  check (update_active_err env) ;;;
  write OnTx (fun d =>
    with_projects
      (update_project projectID (project.with_ActiveDeploymentID (Some deploymentID)) (projects d)) d).

(** [deployment.DeleteExceptLastN(tx, projectID, n)]. *)
Definition DeleteExceptLastN (projectID n : nat) : M unit :=
  emit (EvDeleteExceptLastN projectID n) ;;;
  t <- get_tx ;;
  match t with
  | Some d =>
      rows <- call (DeleteExceptLastN_rows env projectID n (now env) (deployments d)) ;;
      put_tx (Some (with_deployments rows d))
  | None => fail (External ErrTxDone)
  end.

(** [S3.Download] and [S3.Upload] on the deployment bucket. *)
Definition S3_Download (key : string) : M Bundle :=
  emit (EvDownload key) ;;;
  call (S3_Download_result env key).

Definition S3_Upload (key body contentType acl : string) : M unit :=
  emit (EvUpload key body contentType acl) ;;;
  check (S3_Upload_err env key).

(** [pubsub.NewMessageWithJSON] followed by [m.Publish()]. *)
Definition Publish (exchange route : string) (domains : list string) : M unit :=
  check (new_message_err env) ;;;
  emit (EvPublish exchange route domains) ;;;
  check (publish_err env).

(** Lines 105-109: the deferred unlock, whose error is only logged. *)
Definition unlock_logged (proj : project.Project) : M unit :=
  catch (Unlock proj) (fun e => log (LogUnlockFailed (project.ID proj) e)).

(** Lines 124-135: which bundle to download. *)
Definition bundle_path (d : messages.DeployJobData) (depl : deployment.Deployment)
    (prefixID : string) (store : DB) : string :=
  let bundlePath := "deployments/" ++ prefixID ++ "/optimized-bundle.tar.gz" in
  if messages.UseRawBundle d then
    match deployment.RawBundleID depl with
    | Some id =>
        match find_rawbundle id (rawbundles store) with
        | Some bun => rawbundle.UploadedPath bun
        | None => bundlePath
        end
    | None => "deployments/" ++ prefixID ++ "/raw-bundle.tar.gz"
    end
  else bundlePath.

(** Lines 175-223: the body of the loop, for the entry [hdr] whose
    content is [content].  An error is what the goroutine sends on
    [errCh]; [continue] is a plain return. *)
Definition upload_entry (proj : project.Project) (webroot : string)
    (hdr : Header) (content : string) : M unit :=
  if IsDir hdr then ret tt
  else
    let fileName := Clean (Name hdr) in
    let remotePath := webroot ++ "/" ++ fileName in
    if negb (isValidFileName fileName) then log (LogInvalidFilename fileName)
    else
      let contentType := cut_at ";" (mime_TypeByExtension env (Ext fileName)) in
      if watermarked proj contentType hdr then
        emit (EvInject (Name hdr)) ;;;
        match injectWatermark env content with
        | inl e => log (LogWatermarkFailed (Name hdr) (External e))
        | inr rdr => S3_Upload remotePath rdr contentType "public-read"
        end
      else S3_Upload remotePath content contentType "public-read".

(** Lines 164-227: the goroutine.  [budget] bounds the iterations it gets
    through before the select is decided ([None]: no bound). *)
Fixpoint upload_loop (proj : project.Project) (webroot : string)
    (budget : option nat) (tr : TarStream) (w : World) : LoopSignal * World :=
  match budget with
  | Some O => (LoopRunning, w)
  | _ =>
      match tr with
      | TarEOF => (LoopDone, w)
      | TarError e => (LoopError (External e), w)
      | TarEntry hdr content rest =>
          match upload_entry proj webroot hdr content w with
          | (inl e, w') => (LoopError e, w')
          | (inr _, w') => upload_loop proj webroot (option_map Nat.pred budget) rest w'
          end
      end
  end.

(** Lines 229-233: the select.  The case [err := <-errCh] returns the
    error.  When the timer wins, the goroutine is abandoned where it
    stands; what it may still do afterwards is not part of what [Work]
    does before it returns. *)
Definition select_upload (proj : project.Project) (webroot : string) (tr : TarStream)
  : M Selected :=
  fun w =>
    match upload_timer env with
    | Some k => (inr SelTimeout, snd (upload_loop proj webroot (Some k) tr w))
    | None =>
        match upload_loop proj webroot None tr w with
        | (LoopDone, w') => (inr SelDone, w')
        | (LoopError e, w') => (inl e, w')
        | (LoopRunning, w') => (inr SelTimeout, w')
        end
    end.

(** Lines 281-287: one [meta.json] per domain. *)
Fixpoint upload_meta (metaJson : string) (domainNames : list string) : M unit :=
  match domainNames with
  | [] => ret tt
  | domain :: rest =>
      S3_Upload ("domains/" ++ domain ++ "/meta.json") metaJson "application/json" "public-read" ;;;
      upload_meta metaJson rest
  end.

(** Lines 328-348: the analytics event, whose failure is only logged. *)
Definition track (depl : deployment.Deployment) (proj : project.Project) : M unit :=
  store <- get_db ;;
  if existsb (Nat.eqb (deployment.UserID depl)) (users store) then
    match deployment.DeployedAt depl with
    | None => fail NilDereference
    | Some deployedAt =>
        let timeTaken := (deployedAt - deployment.CreatedAt depl)%Z in
        emit (EvTrack (deployment.UserID depl) "Project Deployed" (project.Name proj)
                (deployment.ID depl) (deployment.Prefix depl) (deployment.Version depl)
                (Z.quot timeTaken Second)) ;;;
        match track_err env with
        | Some e => log (LogTrackFailed "Project Deployed" (deployment.UserID depl) (External e))
        | None => ret tt
        end
    end
  else ret tt.

(** Lines 302-350: the commit transaction and what follows it. *)
Definition commit (depl : deployment.Deployment) (proj : project.Project) : M unit :=
  Begin ;;;
  defer Rollback (
    depl' <- UpdateState OnTx depl StateDeployed ;;
    UpdateActive (project.ID proj) (deployment.ID depl') ;;;
    (if (0 <? project.MaxDeploysKept proj)%nat
     then DeleteExceptLastN (project.ID proj) (project.MaxDeploysKept proj)
     else ret tt) ;;;
    Commit ;;;
    track depl' proj).

(** Lines 258-300, then the commit: metadata, invalidation. *)
Definition publish (d : messages.DeployJobData) (depl : deployment.Deployment)
    (proj : project.Project) (prefixID : string) : M unit :=
  metaJson <- call (json_Marshal_meta env
                      {| meta_prefix := prefixID;
                         meta_force_https := project.ForceHTTPS proj;
                         meta_basic_auth_username := project.BasicAuthUsername proj;
                         meta_basic_auth_password := project.EncryptedBasicAuthPassword proj |}) ;;
  domainNames <- call (DomainNames_result env) ;;
  upload_meta metaJson domainNames ;;;
  (if negb (messages.SkipInvalidation d)
   then Publish exchanges.Edges exchanges.RouteV1Invalidation domainNames
   else ret tt) ;;;
  commit depl proj.

(** Lines 230-255: after the select.  On [done], the js-env file is
    written and [Work] goes on with [rest]; on the timer, the deployment
    is marked as failed and [ErrTimeout] is returned. *)
Definition after_select (depl : deployment.Deployment) (prefixID webroot : string)
    (rest : M unit) (sel : Selected) : M unit :=
  match sel with
  | SelTimeout =>
      let depl := deployment.with_ErrorMessage (Some "Timed out due to too many files") depl in
      catch (UpdateState OnDB depl StateDeployFailed ;;; ret tt)
            (fun e => log (LogUpdateStateFailed prefixID e)) ;;;
      fail ErrTimeout
  | SelDone =>
      lift (Unmarshal_string_map (json_parse env (deployment.JsEnvVars depl))) ;;;
      S3_Upload (webroot ++ "/jsenv.js")
                (Sprintf_s jsenvFormat (deployment.JsEnvVars depl))
                "application/javascript" "public-read" ;;;
      rest
  end.

(** Lines 118-256: the webroot upload; [rest] is the remainder of
    [Work], which runs inside the block's deferred calls since Go runs
    them when the function returns. *)
Definition upload_webroot (d : messages.DeployJobData) (depl : deployment.Deployment)
    (proj : project.Project) (prefixID : string) (rest : M unit) : M unit :=
  if State_eqb (deployment.State_ depl) StateDeployed then fail errUnexpectedState
  else
    store <- get_db ;;
    let bundlePath := bundle_path d depl prefixID store in
    emit (EvTempFile (prefixID ++ "-optimized-bundle.tar.gz")) ;;;
    check (tempfile_err env) ;;;
    defer (emit EvRemoveTemp) (
      f <- S3_Download bundlePath ;;
      check (gzip_err f) ;;;
      let webroot := "deployments/" ++ prefixID ++ "/webroot" in
      sel <- select_upload proj webroot (tar f) ;;
      after_select depl prefixID webroot rest sel).

(** Lines 111-350: what [Work] does while it holds the project lock. *)
Definition locked (d : messages.DeployJobData) (depl : deployment.Deployment)
    (proj : project.Project) : M unit :=
  if State_eqb (deployment.State_ depl) StateUploaded
     || State_eqb (deployment.State_ depl) StatePendingUpload
  then fail errUnexpectedState
  else
    let prefixID := deployment.PrefixID depl in
    if negb (messages.SkipWebrootUpload d)
    then upload_webroot d depl proj prefixID (publish d depl proj prefixID)
    else publish d depl proj prefixID.

(** [Work]: [inl e] is the returned error, [inr tt] is [nil]. *)
Definition Work (data : string) : M unit :=
  d <- call (json_Unmarshal_job env data) ;;
  check (dbconn_err env) ;;;
  depl <- First_deployment (messages.DeploymentID d) ;;
  proj <- First_project (deployment.ProjectID depl) ;;
  acquired <- Lock proj ;;
  if negb acquired then fail ErrProjectLocked
  else defer (unlock_logged proj) (locked d depl proj).

End Worker.

(** ** The template of [jsenv.js] as the specification prints it *)

Module Spec.
Import GoString.

(** The spec's words: the template of section 4.6, indented by two
    spaces, with [<JSON>] standing for the value of [js_env_vars]. *)
Definition jsenv_template (JSON : string) : string :=
  "(function(global, env) {" ++ NL ++
  "  if (typeof module === " ++ DQ ++ "object" ++ DQ
      ++ " && typeof module.exports === " ++ DQ ++ "object" ++ DQ ++ ") {" ++ NL ++
  "    module.exports = env;" ++ NL ++
  "  } else {" ++ NL ++
  "    global.JSENV = env;" ++ NL ++
  "  }" ++ NL ++
  "}(this, " ++ JSON ++ "));".
End Spec.

(** ** Classes of events *)

Definition is_upload (e : Event) : bool :=
  match e with
  | EvUpload _ _ _ _ => true
  | _ => false
  end.

Definition is_publish (e : Event) : bool :=
  match e with
  | EvPublish _ _ _ => true
  | _ => false
  end.

Definition is_unlock (e : Event) : bool :=
  match e with
  | EvUnlock _ => true
  | _ => false
  end.

Definition is_log (e : Event) : bool :=
  match e with
  | EvLog _ => true
  | _ => false
  end.

(** Calls that write to the store or delimit a transaction. *)
Definition is_store_write (e : Event) : bool :=
  match e with
  | EvUpdateState _ _ _ | EvBegin | EvUpdateActive _ _
  | EvDeleteExceptLastN _ _ | EvCommit | EvRollback => true
  | _ => false
  end.

(** The calls of the upload goroutine. *)
Definition is_loop_event (e : Event) : bool :=
  match e with
  | EvInject _ | EvUpload _ _ _ _ | EvLog _ => true
  | _ => false
  end.

(** The key of an upload. *)
Definition upload_key (e : Event) : option string :=
  match e with
  | EvUpload key _ _ _ => Some key
  | _ => None
  end.

(** [avoids c evs]: no event of [evs] is in the class [c]. *)
Definition avoids (c : Event -> bool) (evs : list Event) : Prop :=
  Forall (fun e => c e = false) evs.

(** ** Concrete jobs, used to run the model *)

Module Fixture.
Import GoString.

(** Modelled from the spec: [deployment.DeleteExceptLastN], absent
    from the sources; soft-deletes the project's live rows in state
    [deployed] that are older than its [n] most recent ones. *)
Definition candidate (projectID : nat) (r : deployment.Deployment) : bool :=
  Nat.eqb (deployment.ProjectID r) projectID
  && State_eqb (deployment.State_ r) StateDeployed
  && is_none (deployment.DeletedAt r).

Definition newer (a b : deployment.Deployment) : bool :=
  match deployment.DeployedAt a, deployment.DeployedAt b with
  | Some ta, Some tb => (tb <? ta)%Z || ((tb =? ta)%Z && (deployment.ID b <? deployment.ID a)%nat)
  | Some _, None => true
  | None, _ => false
  end.

Definition softDeleteExceptLastN (projectID n : nat) (at_ : Time)
    (rows : list deployment.Deployment) : failure + list deployment.Deployment :=
  let live := filter (candidate projectID) rows in
  inr (map (fun r =>
              if candidate projectID r
                 && (n <=? List.length (filter (fun o => newer o r) live))%nat
              then deployment.with_DeletedAt (Some at_) r
              else r) rows).

(** Extensions registered in the mime table. *)
Definition TypeByExtension (ext : string) : string :=
  if String.eqb ext ".html" then "text/html; charset=utf-8"
  else if String.eqb ext ".css" then "text/css; charset=utf-8"
  else if String.eqb ext ".js" then "application/javascript"
  else "".

(** The JSON texts of the examples, parsed. *)
Definition object_a_1 : string := "{" ++ DQ ++ "a" ++ DQ ++ ":1}".
Definition object_a_b : string := "{" ++ DQ ++ "a" ++ DQ ++ ":" ++ DQ ++ "b" ++ DQ ++ "}".

Definition parse (text : string) : option json :=
  if String.eqb text "{}" then Some (JObject [])
  else if String.eqb text object_a_1 then Some (JObject [("a", JNumber "1")])
  else if String.eqb text object_a_b then Some (JObject [("a", JString "b")])
  else if String.eqb text "null" then Some JNull
  else None.

Definition marker : string := "<!-- watermark -->".

Definition inject_ok (content : string) : failure + string := inr (content ++ marker).

Definition marshal (m : Meta) : failure + string :=
  inr ("{" ++ DQ ++ "prefix" ++ DQ ++ ":" ++ DQ ++ meta_prefix m ++ DQ ++ "}").

Definition the_job (skip_webroot skip_invalidation : bool) : messages.DeployJobData :=
  {| messages.DeploymentID := 7;
     messages.SkipWebrootUpload := skip_webroot;
     messages.SkipInvalidation := skip_invalidation;
     messages.UseRawBundle := false |}.

Definition the_deployment (s : State) (js : string) : deployment.Deployment :=
  {| deployment.ID := 7; deployment.State_ := s; deployment.Prefix := "a1b2c3";
     deployment.Version := 2%Z; deployment.ProjectID := 1; deployment.UserID := 3;
     deployment.RawBundleID := None; deployment.JsEnvVars := js;
     deployment.ErrorMessage := None; deployment.CreatedAt := 1000000000%Z;
     deployment.DeployedAt := None; deployment.DeletedAt := None |}.

(** An earlier deployment of the same project, already published. *)
Definition older_deployment : deployment.Deployment :=
  {| deployment.ID := 5; deployment.State_ := StateDeployed; deployment.Prefix := "z9y8x7";
     deployment.Version := 1%Z; deployment.ProjectID := 1; deployment.UserID := 3;
     deployment.RawBundleID := None; deployment.JsEnvVars := "{}";
     deployment.ErrorMessage := None; deployment.CreatedAt := 10%Z;
     deployment.DeployedAt := Some 20%Z; deployment.DeletedAt := None |}.

Definition the_project (watermark locked : bool) (max_kept : nat) : project.Project :=
  {| project.ID := 1; project.Name := "foo-bar-express"; project.Watermark := watermark;
     project.ForceHTTPS := false; project.BasicAuthUsername := None;
     project.EncryptedBasicAuthPassword := None; project.MaxDeploysKept := max_kept;
     project.ActiveDeploymentID := Some 5; project.Locked := locked |}.

Definition world (depl : deployment.Deployment) (proj : project.Project) : World :=
  {| db := {| deployments := [older_deployment; depl]; projects := [proj];
              rawbundles := []; users := [3] |};
     tx := None;
     trace := [] |}.

Definition html : string := "<html><body>hi</body></html>".

Definition entry (name : string) (content : string) : TarStream -> TarStream :=
  TarEntry {| Name := name; IsDir := false; Size := Z.of_nat (String.length content) |} content.

(** The archive of the happy path: [index.html] and [css/app.css]. *)
Definition site : Bundle :=
  {| gzip_err := None;
     tar := TarEntry {| Name := "css/"; IsDir := true; Size := 0%Z |} ""
              (entry "index.html" html (entry "css/app.css" "" TarEOF)) |}.

Definition bundle_of (t : TarStream) : Bundle := {| gzip_err := None; tar := t |}.

(** An environment in which every call succeeds, but for the knobs. *)
Definition environment (job : messages.DeployJobData) (bundle : Bundle)
    (inject : string -> failure + string) (timer : option nat)
    (update_state_e : Handle -> State -> option failure)
    (publish_e commit_e : option failure) : Env :=
  {| json_Unmarshal_job := fun _ => inr job;
     json_parse := parse;
     json_Marshal_meta := marshal;
     mime_TypeByExtension := TypeByExtension;
     injectWatermark := inject;
     DeleteExceptLastN_rows := softDeleteExceptLastN;
     DomainNames_result := inr ["foo-bar-express.rise.cloud"];
     dbconn_err := None;
     lock_err := None;
     unlock_err := None;
     tempfile_err := None;
     S3_Download_result := fun _ => inr bundle;
     S3_Upload_err := fun _ => None;
     UpdateState_err := update_state_e;
     new_message_err := None;
     publish_err := publish_e;
     begin_err := None;
     update_active_err := None;
     commit_err := commit_e;
     track_err := None;
     upload_timer := timer;
     now := 61000000000%Z |}.

Definition healthy (job : messages.DeployJobData) (bundle : Bundle) : Env :=
  environment job bundle inject_ok None (fun _ _ => None) None None.

Definition payload : string := "{" ++ DQ ++ "deployment_id" ++ DQ ++ ":7}".

End Fixture.
(** ** Runs: what a computation does to the world and what it returns *)

(** The store part of a world. *)
Definition store (w : World) : DB * option DB := (db w, tx w).

(** [moves R m]: every run of [m] takes the world to an [R]-related one. *)
Definition moves (R : World -> World -> Prop) {A} (m : M A) : Prop :=
  forall w, R w (snd (m w)).

(** [raises E m]: every error [m] returns is in [E]. *)
Definition raises (E : error -> Prop) {A} (m : M A) : Prop :=
  forall w e, fst (m w) = inl e -> E e.

(** [steps P K]: the trace grows by events in [P] and the store moves
    along [K]. *)
Definition steps (P : Event -> Prop) (K : DB * option DB -> DB * option DB -> Prop)
    (w w' : World) : Prop :=
  (exists evs, trace w' = (trace w ++ evs)%list /\ Forall P evs) /\ K (store w) (store w').

(** Store relations: nothing changes; the deployments table and the
    transaction do not change; anything. *)
Definition K_same : DB * option DB -> DB * option DB -> Prop := fun a b => b = a.

Definition K_depl : DB * option DB -> DB * option DB -> Prop :=
  fun a b => deployments (fst b) = deployments (fst a) /\ snd b = snd a.

Definition K_top : DB * option DB -> DB * option DB -> Prop := fun _ _ => True.

(** The events [Work] added to the trace of [w] to reach [w']. *)
Definition added (w w' : World) (evs : list Event) : Prop :=
  trace w' = (trace w ++ evs)%list.

(** ** Vocabulary of the statements *)




(** The key of a webroot object. *)
Definition webroot_key (prefixID cleaned : string) : string :=
  "deployments/" ++ prefixID ++ "/webroot/" ++ cleaned.

(** The content type [Work] gives an entry. *)
Definition content_type_of (env : Env) (fileName : string) : string :=
  GoString.cut_at ";" (mime_TypeByExtension env (GoPath.Ext fileName)).

(** Calls made inside the commit transaction, and its bounds. *)
Definition is_tx_event (e : Event) : bool :=
  match e with
  | EvBegin | EvUpdateState OnTx _ _ | EvUpdateActive _ _
  | EvDeleteExceptLastN _ _ | EvCommit => true
  | _ => false
  end.

(** Calls that neither write to the store, nor publish, nor unlock. *)
Definition is_quiet (e : Event) : bool :=
  match e with
  | EvTempFile _ | EvRemoveTemp | EvDownload _ | EvInject _
  | EvUpload _ _ _ _ | EvLog _ => true
  | _ => false
  end.

(** The job was decoded and its deployment and project were loaded. *)
Definition loaded (env : Env) (data : string) (w : World)
    (d : messages.DeployJobData) (depl : deployment.Deployment) (proj : project.Project) : Prop :=
  json_Unmarshal_job env data = inr d
  /\ dbconn_err env = None
  /\ find_deployment (messages.DeploymentID d) (deployments (db w)) = Some depl
  /\ find_project (deployment.ProjectID depl) (projects (db w)) = Some proj.

(** The job uploads the webroot and gets as far as the upload loop: the
    state is accepted, the temporary file is created, the bundle [f] is
    downloaded and is a gzip stream. *)
Definition uploading (env : Env) (w : World) (d : messages.DeployJobData)
    (depl : deployment.Deployment) (f : Bundle) : Prop :=
  messages.SkipWebrootUpload d = false
  /\ (deployment.State_ depl = StatePendingDeploy \/ deployment.State_ depl = StateDeployFailed)
  /\ tempfile_err env = None
  /\ S3_Download_result env (bundle_path d depl (deployment.PrefixID depl) (db w)) = inr f
  /\ gzip_err f = None.

(** The upload loop runs to its end and the select takes its signal. *)
Definition loop_passes (env : Env) (w : World) (depl : deployment.Deployment)
    (proj : project.Project) (f : Bundle) : Prop :=
  upload_timer env = None
  /\ fst (upload_loop env proj ("deployments/" ++ deployment.PrefixID depl ++ "/webroot")
            None (tar f) w) = LoopDone.

(** The two ends of the [jsenv.js] template of the source, around the
    verb. *)
Definition jsenv_head : string :=
  Eval cbv in
    (let NL := GoString.NL in
     let TAB := GoString.TAB in
     let DQ := GoString.DQ in
     "(function(global, env) {" ++ NL ++
     TAB ++ "if (typeof module === " ++ DQ ++ "object" ++ DQ
         ++ " && typeof module.exports === " ++ DQ ++ "object" ++ DQ ++ ") {" ++ NL ++
     TAB ++ TAB ++ "module.exports = env;" ++ NL ++
     TAB ++ "} else {" ++ NL ++
     TAB ++ TAB ++ "global.JSENV = env;" ++ NL ++
     TAB ++ "}" ++ NL ++
     "}(this, ").

Definition jsenv_tail : string := "));" ++ GoString.NL.

(** A JSON value that is a number, a boolean, an array or an object. *)
Definition non_string (v : json) : Prop :=
  match v with
  | JNumber _ | JBool _ | JArray _ | JObject _ => True
  | JString _ | JNull => False
  end.

(** The message of the timeout. *)
Definition timeout_message : string := "Timed out due to too many files".

(** The calls of the transaction of a successful job, in order. *)
Definition tx_calls (depl : deployment.Deployment) (proj : project.Project) : list Event :=
  [EvBegin;
   EvUpdateState OnTx (deployment.ID depl) StateDeployed;
   EvUpdateActive (project.ID proj) (deployment.ID depl)]
  ++ (if (0 <? project.MaxDeploysKept proj)%nat
      then [EvDeleteExceptLastN (project.ID proj) (project.MaxDeploysKept proj)]
      else [])
  ++ [EvCommit].

(** The deployment row as the transition to [deployed] stores it. *)
Definition deployed_row (env : Env) (depl r : deployment.Deployment) : deployment.Deployment :=
  deployment.with_State StateDeployed
    (deployment.with_ErrorMessage (deployment.ErrorMessage depl)
       (deployment.with_DeployedAt (Some (now env)) r)).

(** The deployment row as the transition to [deploy_failed] on a timeout
    stores it. *)
Definition timed_out_row (r : deployment.Deployment) : deployment.Deployment :=
  deployment.with_State StateDeployFailed
    (deployment.with_ErrorMessage (Some timeout_message)
       (deployment.with_DeployedAt (deployment.DeployedAt r) r)).

(** ** Concrete runs *)

Module Cases.
Import Fixture.

Definition webroot : string := "deployments/a1b2c3-7/webroot".

Definition index_hdr : Header :=
  {| Name := "index.html"; IsDir := false; Size := 28%Z |}.


(** A pending deployment of a project, watermarked or not. *)
Definition pending (watermark : bool) : World :=
  world (the_deployment StatePendingDeploy "{}") (the_project watermark false 1).


(** Every call succeeds, but the timer wins the select at once and the
    store refuses the write of the state. *)
Definition refused (h : Handle) (s : State) : option failure :=
  match h, s with
  | OnDB, StateDeployFailed => Some (Failure "pq: connection reset")
  | _, _ => None
  end.

Definition timeout_and_refusal : Env :=
  environment (the_job false false) site inject_ok (Some 1) refused None None.

Definition timeout_only : Env :=
  environment (the_job false false) site inject_ok (Some 1) (fun _ _ => None) None None.

(** The project is locked by another worker. *)
Definition held : World :=
  world (the_deployment StatePendingDeploy "{}") (the_project false true 1).

(** The deployment's [js_env_vars] holds a number. *)
Definition numeric_env_var : World :=
  world (the_deployment StatePendingDeploy object_a_1) (the_project false false 1).

Definition string_env_var : World :=
  world (the_deployment StatePendingDeploy object_a_b) (the_project false false 1).

(** A republish of metadata for a deployment that is already deployed. *)
Definition republish : Env := healthy (the_job true false) site.

Definition already_deployed : World :=
  world (the_deployment StateDeployed "{}") (the_project false false 0).

(** The bus refuses the invalidation. *)
Definition bus_down : Env :=
  environment (the_job false false) site inject_ok None (fun _ _ => None)
              (Some (Failure "amqp: channel closed")) None.

(** The store refuses the commit. *)
Definition commit_refused : Env :=
  environment (the_job false false) site inject_ok None (fun _ _ => None)
              None (Some (Failure "pq: deadlock detected")).

End Cases.

(** Uploads and publications. *)
Definition is_transfer (e : Event) : bool := is_upload e || is_publish e.

(** Errors other than the unexpected-state sentinel; errors of
    collaborators. *)
Definition other_error (e : error) : Prop := e <> errUnexpectedState.

Definition is_external (e : error) : Prop := exists f, e = External f.

(** The states the gate rejects for a job. *)
Definition rejected (d : messages.DeployJobData) (depl : deployment.Deployment) : Prop :=
  deployment.State_ depl = StateUploaded
  \/ deployment.State_ depl = StatePendingUpload
  \/ (messages.SkipWebrootUpload d = false /\ deployment.State_ depl = StateDeployed).

(** The webroot of a deployment, and the two calls that precede the upload
    loop. *)
Definition webroot_of (depl : deployment.Deployment) : string :=
  "deployments/" ++ deployment.PrefixID depl ++ "/webroot".

Definition fetch_calls (d : messages.DeployJobData) (depl : deployment.Deployment)
    (store : DB) : list Event :=
  [EvTempFile (deployment.PrefixID depl ++ "-optimized-bundle.tar.gz");
   EvDownload (bundle_path d depl (deployment.PrefixID depl) store)].

(** The world with more calls in its trace. *)
Definition after_calls (w : World) (evs : list Event) : World :=
  {| db := db w; tx := tx w; trace := (trace w ++ evs)%list |}.

(** A run that stopped before the metadata: it returned an error, and the
    calls it made include no publication and nothing of a transaction. *)
Definition stopped (w : World) (run : (error + unit) * World) : Prop :=
  fst run <> inr tt
  /\ exists evs,
      trace (snd run) = (trace w ++ evs)%list
      /\ avoids is_publish evs
      /\ avoids is_tx_event evs.

(** ** More of [Work]: vocabulary *)

Definition is_download (e : Event) : bool :=
  match e with
  | EvDownload _ => true
  | _ => false
  end.


(** A byte that is in the class of the regexp, or the separator. *)
Definition safe_or_slash (c : ascii) : bool :=
  deployer.key_safe c || Ascii.eqb c "/".

(** The upload of the metadata of one domain (lines 282-287). *)
Definition meta_key (domain : string) : string := "domains/" ++ domain ++ "/meta.json".

Definition meta_upload (metaJson domain : string) : Event :=
  EvUpload (meta_key domain) metaJson "application/json" "public-read".


(** A world in which nothing is stored and nothing was called. *)
Definition blank : World :=
  {| db := {| deployments := []; projects := []; rawbundles := []; users := [] |};
     tx := None;
     trace := [] |}.


(** The three keys a bundle is downloaded from (lines 124-135). *)
Definition optimized_bundle (prefixID : string) : string :=
  "deployments/" ++ prefixID ++ "/optimized-bundle.tar.gz".

Definition raw_bundle (prefixID : string) : string :=
  "deployments/" ++ prefixID ++ "/raw-bundle.tar.gz".

Module MoreCases.
Import Fixture.

(** The object store refuses the metadata of [b.example]. *)
Definition second_domain_refused : Env :=
  {| json_Unmarshal_job := fun _ => inr (the_job false false);
     json_parse := parse;
     json_Marshal_meta := marshal;
     mime_TypeByExtension := TypeByExtension;
     injectWatermark := inject_ok;
     DeleteExceptLastN_rows := softDeleteExceptLastN;
     DomainNames_result := inr ["a.example"; "b.example"; "c.example"];
     dbconn_err := None;
     lock_err := None;
     unlock_err := None;
     tempfile_err := None;
     S3_Download_result := fun _ => inr site;
     S3_Upload_err := fun key =>
       if String.eqb key "domains/b.example/meta.json"
       then Some (Failure "s3: access denied") else None;
     UpdateState_err := fun _ _ => None;
     new_message_err := None;
     publish_err := None;
     begin_err := None;
     update_active_err := None;
     commit_err := None;
     track_err := None;
     upload_timer := None;
     now := 61000000000%Z |}.

(** The store fails when the lock is asked for. *)
Definition lock_fails : Env :=
  {| json_Unmarshal_job := fun _ => inr (the_job false false);
     json_parse := parse;
     json_Marshal_meta := marshal;
     mime_TypeByExtension := TypeByExtension;
     injectWatermark := inject_ok;
     DeleteExceptLastN_rows := softDeleteExceptLastN;
     DomainNames_result := inr ["foo-bar-express.rise.cloud"];
     dbconn_err := None;
     lock_err := Some (Failure "pq: connection refused");
     unlock_err := None;
     tempfile_err := None;
     S3_Download_result := fun _ => inr site;
     S3_Upload_err := fun _ => None;
     UpdateState_err := fun _ _ => None;
     new_message_err := None;
     publish_err := None;
     begin_err := None;
     update_active_err := None;
     commit_err := None;
     track_err := Some (Failure "segment: timeout");
     upload_timer := None;
     now := 61000000000%Z |}.

(** A job that deploys from the raw bundle of an earlier deployment. *)
Definition raw_job : messages.DeployJobData :=
  {| messages.DeploymentID := 7;
     messages.SkipWebrootUpload := false;
     messages.SkipInvalidation := false;
     messages.UseRawBundle := true |}.

Definition raw_deployment : deployment.Deployment :=
  {| deployment.ID := 7; deployment.State_ := StatePendingDeploy;
     deployment.Prefix := "a1b2c3";
     deployment.Version := 2%Z; deployment.ProjectID := 1; deployment.UserID := 3;
     deployment.RawBundleID := Some 4; deployment.JsEnvVars := "{}";
     deployment.ErrorMessage := None; deployment.CreatedAt := 1000000000%Z;
     deployment.DeployedAt := None; deployment.DeletedAt := None |}.

Definition raw_world : World :=
  {| db := {| deployments := [older_deployment; raw_deployment];
              projects := [the_project false false 1];
              rawbundles := [{| rawbundle.ID := 4;
                                rawbundle.UploadedPath := "raw-bundles/1f3870be.tar.gz" |}];
              users := [3] |};
     tx := None;
     trace := [] |}.

End MoreCases.

(** Calls other than those on the lock, the temporary file and the
    bundle. *)
Definition is_late (e : Event) : bool :=
  match e with
  | EvLock _ | EvUnlock _ | EvTempFile _ | EvRemoveTemp | EvDownload _ => false
  | _ => true
  end.

(** The document [Work] writes for the domains of a project (lines
    259-269). *)
Definition meta_of (depl : deployment.Deployment) (proj : project.Project) : Meta :=
  {| meta_prefix := deployment.PrefixID depl;
     meta_force_https := project.ForceHTTPS proj;
     meta_basic_auth_username := project.BasicAuthUsername proj;
     meta_basic_auth_password := project.EncryptedBasicAuthPassword proj |}.

(** Errors other than the timeout of the upload. *)
Definition not_timeout (e : error) : Prop := e <> ErrTimeout.

(** The active deployment of each project. *)
Definition active_deployments (store : DB) : list (option nat) :=
  map project.ActiveDeploymentID (projects store).

(** * Start-up: the [init] functions

    [src/deployer/deployer/deployer.go], lines 53-67, and the [init] of
    package [common].  Both read the environment of the process. *)

Module os.

(** The environment of the process: the variables that are set. *)
Definition Environ : Type := string -> option string.

(** [os.Getenv]: the value of the variable, empty when it is not set. *)
Definition Getenv (environ : Environ) (key : string) : string :=
  match environ key with
  | Some value => value
  | None => ""
  end.

(** [os.Setenv]. *)
Definition Setenv (key value : string) (environ : Environ) : Environ :=
  fun k => if String.eqb k key then Some value else environ k.

End os.

(** How [init] of package [deployer] ends: [log.Fatal] prints its message
    and exits the process, so that [mimetypes.Register] is not reached;
    otherwise the mime types are registered. *)
Inductive Startup : Type :=
| Fatal (message : string)
| Registered.

(** [init] of package [deployer] (lines 53-67). *)
Definition deployer_init (environ : os.Environ) : os.Environ * Startup :=
  let riseEnv := os.Getenv environ "RISE_ENV" in
  let '(riseEnv, environ) :=
    if String.eqb riseEnv ""
    then ("development", os.Setenv "RISE_ENV" "development" environ)
    else (riseEnv, environ) in
  if negb (String.eqb riseEnv "test")
     && (String.eqb (os.Getenv environ "AWS_ACCESS_KEY_ID") ""
         || String.eqb (os.Getenv environ "AWS_SECRET_ACCESS_KEY") "")
  then (environ,
        Fatal "AWS_ACCESS_KEY_ID and AWS_SECRET_ACCESS_KEY environment variables are required!")
  else (environ, Registered).

Module logrus.

Inductive Level : Type :=
| PanicLevel | FatalLevel | ErrorLevel | WarnLevel | InfoLevel | DebugLevel.

(** The two outputs [init] chooses between: [os.Stderr] and
    [ioutil.Discard]. *)
Inductive Output : Type :=
| Stderr
| Discard.

(** The standard logger: what [SetLevel] and [SetOutput] set. *)
Record Logger : Type := { Level_ : Level; Out : Output }.

Definition SetLevel (l : Level) (logger : Logger) : Logger :=
  {| Level_ := l; Out := Out logger |}.

Definition SetOutput (o : Output) (logger : Logger) : Logger :=
  {| Level_ := Level_ logger; Out := o |}.

End logrus.

Module common.
Import logrus.

Section Init.
(** [log.ParseLevel]: the level a name stands for, if it is one. *)
Variable ParseLevel : string -> option Level.

(** [var MailerEmail = os.Getenv("MAILER_EMAIL")], then [init]: the
    result is [MailerEmail] and the standard logger. *)
Definition init (environ : os.Environ) (logger : Logger) : string * Logger :=
  let MailerEmail := os.Getenv environ "MAILER_EMAIL" in
  let riseEnv := os.Getenv environ "RISE_ENV" in
  let riseEnv := if String.eqb riseEnv "" then "development" else riseEnv in
  let MailerEmail :=
    if String.eqb MailerEmail "" then "Rise.sh <support@rise.sh>" else MailerEmail in
  let logLevelEnv := os.Getenv environ "RISE_LOG_LEVEL" in
  match ParseLevel logLevelEnv with
  | None =>
      if String.eqb riseEnv "production"
      then (MailerEmail, SetOutput Stderr (SetLevel InfoLevel logger))
      else if String.eqb riseEnv "test"
      then (MailerEmail, SetOutput Discard (SetLevel PanicLevel logger))
      else (MailerEmail, SetOutput Stderr (SetLevel DebugLevel logger))
  | Some logLevel => (MailerEmail, SetLevel logLevel logger)
  end.
End Init.

End common.

(** * The helpers of the controllers

    [src/controllers/controllers.go]. *)

Module gin.

(** [gin.H] and [logrus.Fields]: maps from names to values.  A map is a
    list of bindings of which the first for a key counts. *)
Definition H : Type := list (string * string).

Fixpoint get {V : Type} (key : string) (m : list (string * V)) : option V :=
  match m with
  | [] => None
  | (k, v) :: rest => if String.eqb k key then Some v else get key rest
  end.

(** [m[key] = value]. *)
Definition set {V : Type} (key : string) (value : V) (m : list (string * V))
  : list (string * V) :=
  (key, value) :: m.

(** The request of a context, as far as the helpers read it:
    [req.Method], [req.URL.String()], and what [req.ParseForm()] returns
    with the encoding of [req.PostForm]. *)
Record Request : Type := {
  Method : string;
  URL : string;
  ParseForm : failure + string
}.

Section Context.
Variables OauthToken User : Type.

(** A value of type [interface{}] in the keys of a context: the nil
    interface, a pointer to a token or to a user (which may be a nil
    pointer), or a value of another type. *)
Inductive any : Type :=
| Nil
| TokenPtr (t : option OauthToken)
| UserPtr (u : option User)
| Other (description : string).

Record Context : Type := {
  Keys : list (string * any);
  Request_ : Request;
  ClientIP : string;
  ContentType : string
}.

(** [c.Get(key)]. *)
Definition Get (c : Context) (key : string) : any * bool :=
  match get key (Keys c) with
  | Some value => (value, true)
  | None => (Nil, false)
  end.

(** [c.Set(key, value)]. *)
Definition Set_ (key : string) (value : any) (c : Context) : Context :=
  {| Keys := set key value (Keys c);
     Request_ := Request_ c;
     ClientIP := ClientIP c;
     ContentType := ContentType c |}.

End Context.
End gin.

Module controllers.
Import gin.

Definition CurrentTokenKey : string := "current_token".
Definition CurrentUserKey : string := "current_user".

Section Helpers.
Variables OauthToken User : Type.

Definition is_nil (v : any OauthToken User) : bool :=
  match v with
  | Nil _ _ => true
  | _ => false
  end.

(** [CurrentToken] (lines 22-33); [None] is the nil pointer. *)
Definition CurrentToken (c : Context OauthToken User) : option OauthToken :=
  let '(ti, exists_) := Get c CurrentTokenKey in
  if is_nil ti || negb exists_ then None
  else match ti with
       | TokenPtr _ t => t
       | _ => None
       end.

(** [CurrentUser] (lines 35-46). *)
Definition CurrentUser (c : Context OauthToken User) : option User :=
  let '(ui, exists_) := Get c CurrentUserKey in
  if is_nil ui || negb exists_ then None
  else match ui with
       | UserPtr _ u => u
       | _ => None
       end.

(** [crypto/sha1.Sum]: twenty bytes. *)
Definition Digest : Type := { sum : list ascii | List.length sum = 20 }.

Variable sha1_Sum : string -> Digest.

(** [fmt.Sprintf("%x", sum)]: two lower-case hexadecimal digits per
    byte. *)
Definition hex_digit (n : nat) : ascii :=
  if (n <? 10)%nat then ascii_of_nat (48 + n) else ascii_of_nat (87 + n).

Definition hex_byte (b : ascii) : list ascii :=
  [hex_digit (nat_of_ascii b / 16); hex_digit (nat_of_ascii b mod 16)].

Definition Sprintf_x (sum : Digest) : string :=
  string_of_list_ascii (List.concat (map hex_byte (proj1_sig sum))).

(** [strings.Contains]. *)
Fixpoint Contains (s substr : string) : bool :=
  String.prefix substr s
  || match s with
     | EmptyString => false
     | String _ rest => Contains rest substr
     end.

(** What [log.WithFields(fields).Error(msg)] logs and what
    [c.JSON(code, obj)] answers. *)
Record LogEntry : Type := { entry_fields : H; entry_message : string }.

Record Response : Type := { status : nat; body : H }.

Definition StatusInternalServerError : nat := 500.

(** [InternalServerError] (lines 48-83); [err] is [None] for a nil
    error and the text of [err.Error()] otherwise. *)
Definition InternalServerError (c : Context OauthToken User) (err : option string)
  : LogEntry * Response :=
  let errMsg := match err with Some msg => msg | None => "internal server error" end in
  let errHash := match err with Some msg => Sprintf_x (sha1_Sum msg) | None => "" end in
  let req := Request_ c in
  let fields := [("req", Method req ++ " " ++ URL req); ("ip", ClientIP c)] in
  let j := [("error", "internal_server_error")] in
  let '(fields, j) :=
    if negb (String.eqb errHash "")
    then (set "hash" errHash fields, set "error_hash" errHash j)
    else (fields, j) in
  let fields :=
    if (String.eqb (Method req) "POST" || String.eqb (Method req) "PUT"
        || String.eqb (Method req) "PATCH")
       && Contains (ContentType c) "application/x-www-form-urlencoded"
    then match ParseForm req with
         | inr form => set "form" form fields
         | inl _ => fields
         end
    else fields in
  ({| entry_fields := fields; entry_message := errMsg |},
   {| status := StatusInternalServerError; body := j |}).

End Helpers.
End controllers.

Module StartCases.

(** A process started with nothing but the credentials. *)
Definition credentials_only : os.Environ :=
  fun k =>
    if String.eqb k "AWS_ACCESS_KEY_ID" then Some "AKIAEXAMPLE"
    else if String.eqb k "AWS_SECRET_ACCESS_KEY" then Some "secret"
    else None.

(** The level names of logrus. *)
Definition ParseLevel (name : string) : option logrus.Level :=
  if String.eqb name "panic" then Some logrus.PanicLevel
  else if String.eqb name "fatal" then Some logrus.FatalLevel
  else if String.eqb name "error" then Some logrus.ErrorLevel
  else if String.eqb name "warn" then Some logrus.WarnLevel
  else if String.eqb name "warning" then Some logrus.WarnLevel
  else if String.eqb name "info" then Some logrus.InfoLevel
  else if String.eqb name "debug" then Some logrus.DebugLevel
  else None.

(** The test suite run with an explicit log level. *)
Definition verbose_test : os.Environ :=
  fun k =>
    if String.eqb k "RISE_ENV" then Some "test"
    else if String.eqb k "RISE_LOG_LEVEL" then Some "debug"
    else None.

Definition standard : logrus.Logger :=
  {| logrus.Level_ := logrus.InfoLevel; logrus.Out := logrus.Stderr |}.

(** A digest function for the examples: twenty times the first byte of
    the message. *)
Definition first_byte (msg : string) : ascii :=
  match msg with
  | EmptyString => "000"%char
  | String c _ => c
  end.

Definition twenty (c : ascii) : List.length (repeat c 20) = 20 := eq_refl.

Definition digest (msg : string) : controllers.Digest :=
  exist _ (repeat (first_byte msg) 20) (twenty (first_byte msg)).

(** A form posted to [/projects]. *)
Definition posted_form : gin.Context nat nat :=
  {| gin.Keys := [];
     gin.Request_ := {| gin.Method := "POST"; gin.URL := "/projects";
                        gin.ParseForm := inr "name=foo" |};
     gin.ClientIP := "203.0.113.7";
     gin.ContentType := "application/x-www-form-urlencoded" |}.

End StartCases.
(** ** The model, run *)

Module PathTests.
Import GoString GoPath.

Example clean_plain : Clean "css/app.css" = "css/app.css".
Proof. reflexivity. Qed.
Example clean_dots : Clean "./a//b/../c/" = "a/c".
Proof. reflexivity. Qed.
Example clean_up : Clean "a/../../b" = "../b".
Proof. reflexivity. Qed.
Example clean_upup : Clean "../../a/.." = "../..".
Proof. reflexivity. Qed.
Example clean_rooted : Clean "/../a/b/../../.." = "/".
Proof. reflexivity. Qed.
Example clean_empty : Clean "" = "." /\ Clean "a/.." = "." /\ Clean "./" = ".".
Proof. repeat split. Qed.
Example ext_html :
  Ext "a.b/index.html" = ".html" /\ Ext "a.b/index" = "" /\ Ext "x.tar.gz" = ".gz".
Proof. repeat split. Qed.
Example split_ex : Split "/" "a//b" = ["a"; ""; "b"] /\ Split "/" "" = [""].
Proof. repeat split. Qed.
Example itoa_ex : Itoa 0 = "0" /\ Itoa 1203 = "1203".
Proof. repeat split. Qed.
Example sprintf_ex : Sprintf_s "a(%s)b" "{}" = "a({})b".
Proof. reflexivity. Qed.
Example valid_bang : deployer.isValidFileName "weird!.html" = true.
Proof. reflexivity. Qed.
Example invalid_space : deployer.isValidFileName "weird file!.html" = false.
Proof. reflexivity. Qed.
End PathTests.

Module RunTests.
Import Fixture Cases.

(** The happy path of the spec: three webroot uploads, one [meta.json],
    one invalidation, the transaction, the deferred calls. *)
Example happy_path :
  let run := Work (healthy (the_job false false) site) payload (pending false) in
  fst run = inr tt
  /\ map upload_key (filter is_upload (trace (snd run)))
     = [Some "deployments/a1b2c3-7/webroot/index.html";
        Some "deployments/a1b2c3-7/webroot/css/app.css";
        Some "deployments/a1b2c3-7/webroot/jsenv.js";
        Some "domains/foo-bar-express.rise.cloud/meta.json"]
  /\ filter is_publish (trace (snd run))
     = [EvPublish "edges" "v1.invalidation" ["foo-bar-express.rise.cloud"]]
  /\ option_map deployment.State_ (find_deployment 7 (deployments (db (snd run))))
     = Some StateDeployed.
Proof. repeat split. Qed.

(** A file with a space in its name is skipped and the job succeeds. *)
Example forbidden_path :
  let run := Work (healthy (the_job false false)
                     (bundle_of (entry "weird file!.html" html TarEOF)))
               payload (pending false) in
  fst run = inr tt
  /\ map upload_key (filter is_upload (trace (snd run)))
     = [Some "deployments/a1b2c3-7/webroot/jsenv.js";
        Some "domains/foo-bar-express.rise.cloud/meta.json"]
  /\ filter is_log (trace (snd run)) = [EvLog (LogInvalidFilename "weird file!.html")].
Proof. repeat split. Qed.

(** An HTML file of 6,000,000 bytes is uploaded as it is. *)
Example oversize_html :
  upload_entry (healthy (the_job false false) site) (the_project true false 1) webroot
    {| Name := "big.html"; IsDir := false; Size := 6000000%Z |} html (pending true)
  = (inr tt,
     after_calls (pending true)
       [EvUpload "deployments/a1b2c3-7/webroot/big.html" html "text/html" "public-read"]).
Proof. reflexivity. Qed.

(** The timeout of the spec: the state is [deploy_failed], the message
    is set, nothing is published. *)
Example timeout :
  let run := Work timeout_only payload (pending false) in
  fst run = inl ErrTimeout
  /\ option_map deployment.State_ (find_deployment 7 (deployments (db (snd run))))
     = Some StateDeployFailed
  /\ option_map deployment.ErrorMessage (find_deployment 7 (deployments (db (snd run))))
     = Some (Some "Timed out due to too many files")
  /\ filter is_publish (trace (snd run)) = [].
Proof. repeat split. Qed.

(** A metadata-only republish of a deployed deployment succeeds. *)
Example republish_deployed :
  fst (Work republish payload already_deployed) = inr tt.
Proof. reflexivity. Qed.

(** The bus refuses the invalidation: the deployment stays as it was. *)
Example bus_refusal :
  let run := Work bus_down payload (pending false) in
  fst run = inl (External (Failure "amqp: channel closed"))
  /\ deployments (db (snd run)) = deployments (db (pending false)).
Proof. repeat split. Qed.

(** The store refuses the commit: nothing of the transaction is kept. *)
Example commit_refusal :
  let run := Work commit_refused payload (pending false) in
  fst run = inl (External (Failure "pq: deadlock detected"))
  /\ deployments (db (snd run)) = deployments (db (pending false))
  /\ map project.ActiveDeploymentID (projects (db (snd run))) = [Some 5].
Proof. repeat split. Qed.
End RunTests.

(** ** Combinators *)

Section Combinators.
Variable R : World -> World -> Prop.
Hypothesis R_refl : forall w, R w w.
Hypothesis R_trans : forall a b c, R a b -> R b c -> R a c.

Lemma moves_ret A (a : A) : moves R (ret a).
Proof. intros w; apply R_refl. Qed.

Lemma moves_fail A (e : error) : moves R (@fail A e).
Proof. intros w; apply R_refl. Qed.

Lemma moves_bind A B (m : M A) (k : A -> M B) :
  moves R m -> (forall a, moves R (k a)) -> moves R (bind m k).
Proof.
  intros Hm Hk w. unfold bind. specialize (Hm w).
  destruct (m w) as [[e | a] w1]; simpl in *; [assumption |].
  eapply R_trans; [eassumption | apply Hk].
Qed.

Lemma moves_defer A (cleanup : M unit) (body : M A) :
  moves R cleanup -> moves R body -> moves R (defer cleanup body).
Proof.
  intros Hc Hb w. unfold defer. specialize (Hb w).
  destruct (body w) as [r w1]; simpl in *.
  eapply R_trans; [eassumption | apply Hc].
Qed.

Lemma moves_catch A (m : M A) (handler : error -> M A) :
  moves R m -> (forall e, moves R (handler e)) -> moves R (catch m handler).
Proof.
  intros Hm Hh w. unfold catch. specialize (Hm w).
  destruct (m w) as [[e | a] w1]; simpl in *; [| assumption].
  eapply R_trans; [eassumption | apply Hh].
Qed.

Lemma moves_lift A (r : error + A) : moves R (lift r).
Proof. destruct r; [apply moves_fail | apply moves_ret]. Qed.

Lemma moves_call A (r : failure + A) : moves R (call r).
Proof. destruct r; [apply moves_fail | apply moves_ret]. Qed.

Lemma moves_check (e : option failure) : moves R (check e).
Proof. destruct e; [apply moves_fail | apply moves_ret]. Qed.

Lemma moves_get_db : moves R get_db.
Proof. intros w; apply R_refl. Qed.

Lemma moves_get_tx : moves R get_tx.
Proof. intros w; apply R_refl. Qed.
End Combinators.

Section Raising.
Variable E : error -> Prop.

Lemma raises_ret A (a : A) : raises E (ret a).
Proof. intros w e H; discriminate H. Qed.

Lemma raises_fail A (e : error) : E e -> raises E (@fail A e).
Proof. intros He w e' H; simpl in H; injection H as <-; exact He. Qed.

Lemma raises_bind A B (m : M A) (k : A -> M B) :
  raises E m -> (forall a, raises E (k a)) -> raises E (bind m k).
Proof.
  intros Hm Hk w e. unfold bind. specialize (Hm w).
  destruct (m w) as [[e1 | a] w1]; simpl in *.
  - intros H; apply Hm; injection H as <-; reflexivity.
  - apply Hk.
Qed.

Lemma raises_defer A (cleanup : M unit) (body : M A) :
  raises E body -> raises E (defer cleanup body).
Proof.
  intros Hb w e. unfold defer. specialize (Hb w).
  destruct (body w) as [r w1]; simpl in *. apply Hb.
Qed.

Lemma raises_catch A (m : M A) (handler : error -> M A) :
  (forall e, raises E (handler e)) -> raises E (catch m handler).
Proof.
  intros Hh w e. unfold catch.
  destruct (m w) as [[e1 | a] w1]; simpl.
  - apply Hh.
  - discriminate.
Qed.

Lemma raises_call A (r : failure + A) :
  (forall f, E (External f)) -> raises E (call r).
Proof. intros H; destruct r; [apply raises_fail, H | apply raises_ret]. Qed.

Lemma raises_check (e : option failure) :
  (forall f, E (External f)) -> raises E (check e).
Proof. intros H; destruct e; [apply raises_fail, H | apply raises_ret]. Qed.

Lemma raises_emit (ev : Event) : raises E (emit ev).
Proof. intros w e H; discriminate H. Qed.

Lemma raises_get_db : raises E get_db.
Proof. intros w e H; discriminate H. Qed.

Lemma raises_get_tx : raises E get_tx.
Proof. intros w e H; discriminate H. Qed.

Lemma raises_put_db (d : DB) : raises E (put_db d).
Proof. intros w e H; discriminate H. Qed.

Lemma raises_put_tx (t : option DB) : raises E (put_tx t).
Proof. intros w e H; discriminate H. Qed.
End Raising.

(** ** [steps] is a preorder, and what the primitives do *)

Section Steps.
Variable P : Event -> Prop.
Variable K : DB * option DB -> DB * option DB -> Prop.
Hypothesis K_refl : forall a, K a a.
Hypothesis K_trans : forall a b c, K a b -> K b c -> K a c.

Lemma steps_refl w : steps P K w w.
Proof.
  split; [| apply K_refl].
  exists []; split; [symmetry; apply app_nil_r | constructor].
Qed.

Lemma steps_trans a b c : steps P K a b -> steps P K b c -> steps P K a c.
Proof.
  intros [[e1 [T1 F1]] K1] [[e2 [T2 F2]] K2]. split.
  - exists (e1 ++ e2)%list. split.
    + rewrite T2, T1. symmetry; apply app_assoc.
    + apply Forall_app; split; assumption.
  - eapply K_trans; eassumption.
Qed.

Lemma moves_emit (ev : Event) : P ev -> moves (steps P K) (emit ev).
Proof.
  intros Hev w. split; simpl; [| apply K_refl].
  exists [ev]; split; [reflexivity | repeat constructor; exact Hev].
Qed.

Lemma moves_put_tx (t : option DB) :
  (forall d t0, K (d, t0) (d, t)) -> moves (steps P K) (put_tx t).
Proof.
  intros Ht w. split; simpl; [| apply Ht].
  exists []; split; [symmetry; apply app_nil_r | constructor].
Qed.

Lemma moves_put_db (d : DB) :
  (forall d0 t, K (d0, t) (d, t)) -> moves (steps P K) (put_db d).
Proof.
  intros Hd w. split; simpl; [| apply Hd].
  exists []; split; [symmetry; apply app_nil_r | constructor].
Qed.
End Steps.

Lemma K_same_refl a : K_same a a.
Proof. reflexivity. Qed.

Lemma K_same_trans a b c : K_same a b -> K_same b c -> K_same a c.
Proof. unfold K_same; congruence. Qed.

Lemma K_depl_refl a : K_depl a a.
Proof. split; reflexivity. Qed.

Lemma K_depl_trans a b c : K_depl a b -> K_depl b c -> K_depl a c.
Proof. unfold K_depl; intros [H1 H2] [H3 H4]; split; congruence. Qed.

Lemma K_top_refl a : K_top a a.
Proof. exact I. Qed.

Lemma K_top_trans a b c : K_top a b -> K_top b c -> K_top a c.
Proof. intros _ _; exact I. Qed.

Create HintDb store_rel.
#[export] Hint Resolve K_same_refl K_same_trans K_depl_refl K_depl_trans
  K_top_refl K_top_trans : store_rel.

(** Side conditions: the store relation is a preorder; an event is
    allowed. *)
Ltac side :=
  first
    [ assumption
    | solve [eauto with store_rel]
    | solve [intros; exact I]
    | solve [intros; unfold K_depl; simpl; split; reflexivity]
    | solve [repeat split; reflexivity]
    | match goal with
      | HP : _ |- _ => solve [apply HP; reflexivity]
      end ].

(** One step of a proof of [moves (steps P K) m], by the shape of [m]. *)
Ltac moves_step :=
  match goal with
  | |- moves _ (bind _ _) =>
      apply moves_bind; [apply steps_trans; side | | intros]
  | |- moves _ (ret _) => apply moves_ret; apply steps_refl; side
  | |- moves _ (fail _) => apply moves_fail; apply steps_refl; side
  | |- moves _ (defer _ _) => apply moves_defer; [apply steps_trans; side | |]
  | |- moves _ (catch _ _) =>
      apply moves_catch; [apply steps_trans; side | | intros]
  | |- moves _ (lift _) => apply moves_lift; apply steps_refl; side
  | |- moves _ (call _) => apply moves_call; apply steps_refl; side
  | |- moves _ (check _) => apply moves_check; apply steps_refl; side
  | |- moves _ get_db => apply moves_get_db; apply steps_refl; side
  | |- moves _ get_tx => apply moves_get_tx; apply steps_refl; side
  | |- moves _ (emit _) => apply moves_emit; side
  | |- moves _ (log _) => unfold log
  | |- moves _ (put_tx _) => apply moves_put_tx; side
  | |- moves _ (put_db _) => apply moves_put_db; side
  | |- moves _ (write _ _) => unfold write
  | |- moves _ (if ?b then _ else _) => destruct b
  | |- moves _ (match ?x with _ => _ end) => destruct x
  | |- moves _ (let _ := _ in _) => cbv zeta
  end.

(** The same for [raises E m]. *)
Ltac raises_step :=
  match goal with
  | |- raises _ (bind _ _) => apply raises_bind; [| intros]
  | |- raises _ (ret _) => apply raises_ret
  | |- raises _ (fail _) => apply raises_fail; cbv beta; try discriminate
  | |- raises _ (defer _ _) => apply raises_defer
  | |- raises _ (catch _ _) => apply raises_catch; intros
  | |- raises _ (call _) => apply raises_call; intros; cbv beta; try discriminate
  | |- raises _ (check _) => apply raises_check; intros; cbv beta; try discriminate
  | |- raises _ get_db => apply raises_get_db
  | |- raises _ get_tx => apply raises_get_tx
  | |- raises _ (emit _) => apply raises_emit
  | |- raises _ (log _) => unfold log
  | |- raises _ (put_tx _) => apply raises_put_tx
  | |- raises _ (put_db _) => apply raises_put_db
  | |- raises _ (write _ _) => unfold write
  | |- raises _ (if ?b then _ else _) => destruct b
  | |- raises _ (match ?x with _ => _ end) => destruct x
  | |- raises _ (let _ := _ in _) => cbv zeta
  end.

(** ** The upload goroutine and the metadata loop *)

Section Loops.
Variable env : Env.
Variable P : Event -> Prop.
Variable K : DB * option DB -> DB * option DB -> Prop.
Hypothesis K_refl : forall a, K a a.
Hypothesis K_trans : forall a b c, K a b -> K b c -> K a c.

Lemma moves_S3_Upload key body contentType acl :
  P (EvUpload key body contentType acl) ->
  moves (steps P K) (S3_Upload env key body contentType acl).
Proof. intros HP. unfold S3_Upload. repeat moves_step. Qed.

Lemma moves_upload_entry proj webroot hdr content :
  (forall e, is_loop_event e = true -> P e) ->
  moves (steps P K) (upload_entry env proj webroot hdr content).
Proof.
  intros HP. unfold upload_entry, S3_Upload. repeat moves_step.
Qed.

Lemma steps_upload_loop proj webroot tr :
  (forall e, is_loop_event e = true -> P e) ->
  forall budget w, steps P K w (snd (upload_loop env proj webroot budget tr w)).
Proof.
  intros HP. induction tr as [| e | hdr content rest IH]; intros budget w.
  - destruct budget as [[| k] |]; simpl; apply steps_refl; side.
  - destruct budget as [[| k] |]; simpl; apply steps_refl; side.
  - assert (Hstep : forall b,
               steps P K w
                 (snd (match upload_entry env proj webroot hdr content w with
                       | (inl e, w') => (LoopError e, w')
                       | (inr _, w') => upload_loop env proj webroot b rest w'
                       end))).
    { intros b.
      pose proof (moves_upload_entry proj webroot hdr content HP w) as Hent.
      destruct (upload_entry env proj webroot hdr content w) as [[e | u] w1]; simpl in *.
      - exact Hent.
      - eapply steps_trans; [side | exact Hent | apply IH]. }
    destruct budget as [[| k] |]; simpl.
    + apply steps_refl; side.
    + apply Hstep.
    + apply Hstep.
Qed.

Lemma moves_select_upload proj webroot tr :
  (forall e, is_loop_event e = true -> P e) ->
  moves (steps P K) (select_upload env proj webroot tr).
Proof.
  intros HP w. unfold select_upload.
  destruct (upload_timer env) as [k |].
  - simpl. apply steps_upload_loop; exact HP.
  - pose proof (steps_upload_loop proj webroot tr HP None w) as H.
    destruct (upload_loop env proj webroot None tr w) as [[| e |] w1]; exact H.
Qed.

Lemma moves_upload_meta metaJson domainNames :
  (forall e, is_upload e = true -> P e) ->
  moves (steps P K) (upload_meta env metaJson domainNames).
Proof.
  intros HP. induction domainNames as [| domain rest IH]; simpl.
  - repeat moves_step.
  - unfold S3_Upload. repeat moves_step. exact IH.
Qed.
End Loops.

(** ** Path elements and archive entries *)

Section Entries.
Import GoString GoPath deployer.

Variable env : Env.

Lemma string_append_assoc (a b c : string) : (a ++ b) ++ c = a ++ (b ++ c).
Proof. induction a as [| x a IH]; simpl; [reflexivity | rewrite IH; reflexivity]. Qed.





(** What [upload_entry] does, case by case. *)
Lemma upload_entry_dir proj webroot hdr content w :
  IsDir hdr = true ->
  upload_entry env proj webroot hdr content w = (inr tt, w).
Proof. intros H. unfold upload_entry. rewrite H. reflexivity. Qed.


Lemma upload_entry_plain proj webroot hdr content w :
  IsDir hdr = false ->
  isValidFileName (Clean (Name hdr)) = true ->
  watermarked proj (content_type_of env (Clean (Name hdr))) hdr = false ->
  snd (upload_entry env proj webroot hdr content w)
  = {| db := db w; tx := tx w;
       trace := (trace w ++ [EvUpload (webroot ++ "/" ++ Clean (Name hdr)) content
                               (content_type_of env (Clean (Name hdr))) "public-read"])%list |}.
Proof.
  intros H1 H2 H3. unfold upload_entry. unfold content_type_of in H3.
  rewrite H1, H2, H3. simpl. unfold S3_Upload, bind, emit, check. simpl.
  destruct (S3_Upload_err env _); reflexivity.
Qed.

Lemma upload_entry_injected proj webroot hdr content w body :
  IsDir hdr = false ->
  isValidFileName (Clean (Name hdr)) = true ->
  watermarked proj (content_type_of env (Clean (Name hdr))) hdr = true ->
  injectWatermark env content = inr body ->
  snd (upload_entry env proj webroot hdr content w)
  = {| db := db w; tx := tx w;
       trace := (trace w ++ [EvInject (Name hdr);
                             EvUpload (webroot ++ "/" ++ Clean (Name hdr)) body
                               (content_type_of env (Clean (Name hdr))) "public-read"])%list |}.
Proof.
  intros H1 H2 H3 H4. unfold upload_entry. unfold content_type_of in H3.
  rewrite H1, H2, H3. simpl. unfold S3_Upload, bind, emit, check. simpl.
  rewrite H4. simpl. rewrite <- app_assoc. simpl.
  destruct (S3_Upload_err env _); reflexivity.
Qed.

Lemma upload_entry_skipped proj webroot hdr content w f :
  IsDir hdr = false ->
  isValidFileName (Clean (Name hdr)) = true ->
  watermarked proj (content_type_of env (Clean (Name hdr))) hdr = true ->
  injectWatermark env content = inl f ->
  upload_entry env proj webroot hdr content w
  = (inr tt,
     {| db := db w; tx := tx w;
        trace := (trace w ++ [EvInject (Name hdr);
                              EvLog (LogWatermarkFailed (Name hdr) (External f))])%list |}).
Proof.
  intros H1 H2 H3 H4. unfold upload_entry. unfold content_type_of in H3.
  rewrite H1, H2, H3. simpl. unfold log, bind, emit. simpl.
  rewrite H4. simpl. rewrite <- app_assoc. reflexivity.
Qed.

(** The loop goes on after an entry that returned no error. *)
Lemma upload_loop_next proj webroot hdr content rest w w' :
  upload_entry env proj webroot hdr content w = (inr tt, w') ->
  upload_loop env proj webroot None (TarEntry hdr content rest) w
  = upload_loop env proj webroot None rest w'.
Proof. intros H. simpl. rewrite H. reflexivity. Qed.

Lemma watermarked_spec proj contentType hdr :
  watermarked proj contentType hdr = true <->
  project.Watermark proj = true
  /\ contentType = "text/html"
  /\ (Size hdr <= 5000000)%Z.
Proof.
  unfold watermarked, MaxFileSizeToWatermark.
  rewrite !andb_true_iff, String.eqb_eq, Z.leb_le.
  change (5 * 1000 * 1000)%Z with 5000000%Z. tauto.
Qed.
End Entries.

Section EntryClaims.
Import GoString GoPath deployer.

Variable env : Env.

(** C8.  A non-directory entry with a valid name goes through the
    watermark injector if and only if the project's watermark flag is
    set, its content type (from the extension, parameters after the
    first [;] dropped) is [text/html] and its size is at most 5,000,000
    bytes.  The object uploaded is then the injector's output, and the
    entry's own content otherwise.  When the injector fails the entry is
    logged and not uploaded, the entry returns no error and the loop
    goes on with the next entry. *)
Theorem C8_watermark_routing proj webroot hdr content w :
  IsDir hdr = false ->
  isValidFileName (Clean (Name hdr)) = true ->
  exists evs,
    added w (snd (upload_entry env proj webroot hdr content w)) evs
    /\ (In (EvInject (Name hdr)) evs <->
        project.Watermark proj = true
        /\ content_type_of env (Clean (Name hdr)) = "text/html"
        /\ (Size hdr <= 5000000)%Z)
    /\ (~ In (EvInject (Name hdr)) evs ->
        evs = [EvUpload (webroot ++ "/" ++ Clean (Name hdr)) content
                 (content_type_of env (Clean (Name hdr))) "public-read"])
    /\ (forall body,
          In (EvInject (Name hdr)) evs -> injectWatermark env content = inr body ->
          evs = [EvInject (Name hdr);
                 EvUpload (webroot ++ "/" ++ Clean (Name hdr)) body
                   (content_type_of env (Clean (Name hdr))) "public-read"])
    /\ (forall f,
          In (EvInject (Name hdr)) evs -> injectWatermark env content = inl f ->
          fst (upload_entry env proj webroot hdr content w) = inr tt
          /\ evs = [EvInject (Name hdr); EvLog (LogWatermarkFailed (Name hdr) (External f))]
          /\ forall rest,
              upload_loop env proj webroot None (TarEntry hdr content rest) w
              = upload_loop env proj webroot None rest
                  (snd (upload_entry env proj webroot hdr content w))).
Proof.
  intros Hdir Hvalid.
  destruct (watermarked proj (content_type_of env (Clean (Name hdr))) hdr) eqn:Hw.
  - destruct (injectWatermark env content) as [f | body] eqn:Hinj.
    + rewrite (upload_entry_skipped env proj webroot hdr content w Hdir Hvalid Hw Hinj).
      eexists. split; [reflexivity |]. split; [| split; [| split]].
      * split; [intros _; apply watermarked_spec, Hw | intros _; left; reflexivity].
      * intros Hn; exfalso; apply Hn; left; reflexivity.
      * intros body _ Hb; discriminate Hb.
      * intros f0 _ Hf; injection Hf as <-.
        split; [reflexivity | split; [reflexivity |]].
        intros rest. apply upload_loop_next.
        apply upload_entry_skipped; assumption.
    + rewrite (upload_entry_injected env proj webroot hdr content w Hdir Hvalid Hw Hinj).
      eexists. split; [reflexivity |]. split; [| split; [| split]].
      * split; [intros _; apply watermarked_spec, Hw | intros _; left; reflexivity].
      * intros Hn; exfalso; apply Hn; left; reflexivity.
      * intros b _ Hb; injection Hb as <-; reflexivity.
      * intros f0 _ Hf; discriminate Hf.
  - rewrite (upload_entry_plain env proj webroot hdr content w Hdir Hvalid Hw).
    assert (Hnot : ~ In (EvInject (Name hdr))
                     [EvUpload (webroot ++ "/" ++ Clean (Name hdr)) content
                        (content_type_of env (Clean (Name hdr))) "public-read"]).
    { intros [H | []]; discriminate H. }
    eexists. split; [reflexivity |]. split; [| split; [| split]].
    + split; [intros H; destruct (Hnot H) |].
      intros H. apply watermarked_spec in H. rewrite Hw in H. discriminate H.
    + intros _; reflexivity.
    + intros body H; destruct (Hnot H).
    + intros f H; destruct (Hnot H).
Qed.


End EntryClaims.

(** C8 at the watermarked [index.html] of the happy path. *)
Lemma C8_witness :
  exists evs,
    added (Cases.pending true)
      (snd (upload_entry (Fixture.healthy (Fixture.the_job false false) Fixture.site)
              (Fixture.the_project true false 1) Cases.webroot Cases.index_hdr
              Fixture.html (Cases.pending true))) evs
    /\ In (EvInject "index.html") evs.
Proof.
  destruct (C8_watermark_routing
              (Fixture.healthy (Fixture.the_job false false) Fixture.site)
              (Fixture.the_project true false 1) Cases.webroot Cases.index_hdr
              Fixture.html (Cases.pending true) eq_refl eq_refl)
    as [evs [Hadd [Hiff _]]].
  exists evs. split; [exact Hadd |].
  apply Hiff. split; [reflexivity | split; [reflexivity | simpl; lia]].
Defined.




(** ** Stages of [Work]: which events, which errors *)

Section Stages.
Variable env : Env.
Variable P : Event -> Prop.

Lemma moves_unlock_logged proj :
  (forall e, is_store_write e = false -> is_transfer e = false -> P e) ->
  moves (steps P K_top) (unlock_logged env proj).
Proof.
  intros HP. unfold unlock_logged, Unlock. repeat moves_step.
Qed.

Lemma moves_commit depl proj :
  (forall e, is_transfer e = false -> is_unlock e = false -> P e) ->
  moves (steps P K_top) (commit env depl proj).
Proof.
  intros HP.
  unfold commit, Begin, Rollback, UpdateState, UpdateActive, DeleteExceptLastN,
    Commit, track.
  repeat moves_step.
Qed.

Lemma moves_publish d depl proj prefixID :
  (forall e, is_unlock e = false -> P e) ->
  moves (steps P K_top) (publish env d depl proj prefixID).
Proof.
  intros HP. unfold publish, Publish.
  repeat moves_step.
  - apply moves_upload_meta; [side | side |].
    intros e He. apply HP. destruct e; try discriminate He; reflexivity.
  - apply moves_commit. intros e _ He. apply HP, He.
Qed.

Lemma moves_upload_webroot d depl proj prefixID rest :
  (forall e, is_unlock e = false -> P e) ->
  moves (steps P K_top) rest ->
  moves (steps P K_top) (upload_webroot env d depl proj prefixID rest).
Proof.
  intros HP Hrest. unfold upload_webroot, after_select, S3_Download, S3_Upload, UpdateState.
  repeat moves_step; try exact Hrest.
  apply moves_select_upload; [side | side |].
  intros e He. apply HP. destruct e; try discriminate He; reflexivity.
Qed.

Lemma moves_locked d depl proj :
  (forall e, is_unlock e = false -> P e) ->
  moves (steps P K_top) (locked env d depl proj).
Proof.
  intros HP. unfold locked. repeat moves_step.
  - apply moves_upload_webroot; [exact HP |]. apply moves_publish; exact HP.
  - apply moves_publish; exact HP.
Qed.
End Stages.

Section StageErrors.
Variable env : Env.


Lemma decode_members_error members :
  forall saved m e,
    GoJSON.decode_members members saved = (m, Some e) ->
    saved = Some e \/ exists what, e = UnmarshalTypeError what.
Proof.
  induction members as [| [k v] rest IH]; intros saved m e H; simpl in H.
  - injection H as _ ->. left; reflexivity.
  - destruct (GoJSON.decode_members rest _) as [m' err] eqn:Hrest.
    injection H as _ ->.
    apply IH in Hrest. destruct Hrest as [Hs | Hw]; [| right; exact Hw].
    destruct saved as [e0 |]; [left; exact Hs |].
    destruct (GoJSON.fits_string v); [discriminate Hs |].
    injection Hs as <-. right. eexists; reflexivity.
Qed.

(** The errors of unmarshalling into a map of strings. *)
Lemma Unmarshal_error parsed (w : World) e :
  fst (lift (GoJSON.Unmarshal_string_map parsed) w) = inl e ->
  e = SyntaxError \/ exists what, e = UnmarshalTypeError what.
Proof.
  unfold GoJSON.Unmarshal_string_map.
  destruct parsed as [[| b | n | s | l | members] |]; simpl; intros H;
    try discriminate H;
    try (injection H as <-; right; eexists; reflexivity);
    try (injection H as <-; left; reflexivity).
  destruct (GoJSON.decode_members members None) as [m [e0 |]] eqn:Hd;
    simpl in H; [| discriminate H].
  injection H as <-. apply decode_members_error in Hd.
  destruct Hd as [Hd | Hd]; [discriminate Hd | right; exact Hd].
Qed.

Lemma raises_upload_meta metaJson domainNames :
  raises other_error (upload_meta env metaJson domainNames).
Proof.
  induction domainNames as [| domain rest IH]; simpl.
  - apply raises_ret.
  - unfold S3_Upload. repeat raises_step. exact IH.
Qed.

Lemma raises_upload_entry proj webroot hdr content :
  raises is_external (upload_entry env proj webroot hdr content).
Proof.
  unfold upload_entry, S3_Upload.
  repeat raises_step; eexists; reflexivity.
Qed.

Lemma upload_loop_error proj webroot tr :
  forall budget w e,
    fst (upload_loop env proj webroot budget tr w) = LoopError e -> is_external e.
Proof.
  induction tr as [| f | hdr content rest IH]; intros budget w e H.
  - destruct budget as [[| k] |]; discriminate H.
  - destruct budget as [[| k] |]; simpl in H; try discriminate H;
      injection H as <-; eexists; reflexivity.
  - assert (Hstep : forall b,
               fst (match upload_entry env proj webroot hdr content w with
                    | (inl e, w') => (LoopError e, w')
                    | (inr _, w') => upload_loop env proj webroot b rest w'
                    end) = LoopError e -> is_external e).
    { intros b Hb.
      pose proof (@raises_upload_entry proj webroot hdr content w) as Hent.
      destruct (upload_entry env proj webroot hdr content w) as [[e0 | u] w1]; simpl in *.
      - injection Hb as <-. apply Hent; reflexivity.
      - eapply IH; exact Hb. }
    destruct budget as [[| k] |]; simpl in H.
    + discriminate H.
    + eapply Hstep; exact H.
    + eapply Hstep; exact H.
Qed.

Lemma raises_select_upload proj webroot tr :
  raises is_external (select_upload env proj webroot tr).
Proof.
  intros w e. unfold select_upload.
  destruct (upload_timer env); [discriminate |].
  destruct (upload_loop env proj webroot None tr w) as [[| e0 |] w1] eqn:Hl;
    simpl; try discriminate.
  intros H; injection H as <-.
  eapply upload_loop_error. rewrite Hl. reflexivity.
Qed.

Lemma raises_publish d depl proj prefixID :
  raises other_error (publish env d depl proj prefixID).
Proof.
  unfold publish, Publish, commit, Begin, Rollback, UpdateState, UpdateActive,
    DeleteExceptLastN, Commit, track, other_error.
  repeat raises_step; apply raises_upload_meta.
Qed.

Lemma raises_upload_webroot d depl proj prefixID rest :
  deployment.State_ depl <> StateDeployed ->
  raises other_error rest ->
  raises other_error (upload_webroot env d depl proj prefixID rest).
Proof.
  intros Hstate Hrest. unfold upload_webroot, after_select, S3_Download, S3_Upload, UpdateState.
  destruct (State_eqb (deployment.State_ depl) StateDeployed) eqn:Heq.
  - destruct (deployment.State_ depl); try discriminate Heq. destruct Hstate; reflexivity.
  - unfold other_error in *. repeat raises_step; try exact Hrest.
    + intros w e H. destruct (@raises_select_upload _ _ _ w e H) as [f ->]. discriminate.
    + intros w e H. destruct (@Unmarshal_error _ _ _ H) as [-> | [what ->]]; discriminate.
Qed.
End StageErrors.

(** ** The store *)

Lemma find_deployment_some id rows r :
  find_deployment id rows = Some r ->
  deployment.ID r = id /\ deployment.DeletedAt r = None.
Proof.
  intros H. apply find_some in H. destruct H as [_ H].
  apply andb_true_iff in H. destruct H as [Hid Hdel].
  apply Nat.eqb_eq in Hid. split; [exact Hid |].
  destruct (deployment.DeletedAt r); [discriminate Hdel | reflexivity].
Qed.

Lemma find_project_some id rows r :
  find_project id rows = Some r -> project.ID r = id.
Proof.
  intros H. apply find_some in H. destruct H as [_ H].
  apply Nat.eqb_eq in H. exact H.
Qed.

Lemma find_deployment_update id f rows r :
  (forall x, deployment.ID (f x) = deployment.ID x) ->
  (forall x, deployment.DeletedAt (f x) = deployment.DeletedAt x) ->
  find_deployment id rows = Some r ->
  find_deployment id (update_deployment id f rows) = Some (f r).
Proof.
  intros Hid Hdel. unfold find_deployment, update_deployment.
  induction rows as [| x rows IH]; simpl; [discriminate |].
  destruct (Nat.eqb (deployment.ID x) id) eqn:Hx; simpl.
  - rewrite Hid, Hdel, Hx. simpl.
    destruct (is_none (deployment.DeletedAt x)).
    + intros H; injection H as <-; reflexivity.
    + exact IH.
  - rewrite Hx. simpl. exact IH.
Qed.

Lemma find_project_update id f rows r :
  (forall x, project.ID (f x) = project.ID x) ->
  find_project id rows = Some r ->
  find_project id (update_project id f rows) = Some (f r).
Proof.
  intros Hid. unfold find_project, update_project.
  induction rows as [| x rows IH]; simpl; [discriminate |].
  destruct (Nat.eqb (project.ID x) id) eqn:Hx; simpl.
  - rewrite Hid, Hx. intros H; injection H as <-; reflexivity.
  - rewrite Hx. exact IH.
Qed.

(** ** The lock *)

Section LockFacts.
Variable env : Env.

Lemma Lock_acquired proj w w1 :
  Lock env proj w = (inr true, w1) ->
  w1 = {| db := with_projects
                 (update_project (project.ID proj) (project.with_Locked true)
                    (projects (db w))) (db w);
          tx := tx w;
          trace := (trace w ++ [EvLock (project.ID proj)])%list |}.
Proof.
  unfold Lock, bind, emit, check, get_db, put_db, ret, fail. simpl.
  destruct (lock_err env); [discriminate |]. simpl.
  destruct (find_project _ _) as [row |]; [| discriminate].
  destruct (project.Locked row); simpl; [discriminate |].
  intros H; injection H as <-; reflexivity.
Qed.

Lemma Lock_held proj w w1 :
  Lock env proj w = (inr false, w1) ->
  w1 = {| db := db w; tx := tx w;
          trace := (trace w ++ [EvLock (project.ID proj)])%list |}.
Proof.
  unfold Lock, bind, emit, check, get_db, put_db, ret, fail. simpl.
  destruct (lock_err env); [discriminate |]. simpl.
  destruct (find_project _ _) as [row |].
  - destruct (project.Locked row); simpl; [| discriminate].
    intros H; injection H as <-; reflexivity.
  - intros H; injection H as <-; reflexivity.
Qed.

(** The deferred unlock: one call of [Unlock], then at most a log
    line; the deployments are not touched. *)
Lemma unlock_logged_run proj w :
  exists tail,
    trace (snd (unlock_logged env proj w))
    = (trace w ++ EvUnlock (project.ID proj) :: tail)%list
    /\ Forall (fun e => is_log e = true) tail
    /\ deployments (db (snd (unlock_logged env proj w))) = deployments (db w)
    /\ tx (snd (unlock_logged env proj w)) = tx w.
Proof.
  unfold unlock_logged, catch, Unlock, bind, emit, check, write, get_db, put_db, log, emit.
  simpl. destruct (unlock_err env) as [f |]; simpl.
  - eexists. split; [rewrite <- app_assoc; reflexivity |].
    split; [repeat constructor | split; reflexivity].
  - exists []. split; [reflexivity |]. split; [constructor | split; reflexivity].
Qed.

Lemma Work_after_load data w d depl proj :
  loaded env data w d depl proj ->
  Work env data w
  = bind (Lock env proj)
      (fun acquired =>
         if negb acquired then fail ErrProjectLocked
         else defer (unlock_logged env proj) (locked env d depl proj)) w.
Proof.
  intros [Hjob [Hconn [Hdepl Hproj]]].
  unfold Work.
  unfold bind at 1. rewrite Hjob. simpl.
  unfold bind at 1. rewrite Hconn. simpl.
  unfold bind at 1. unfold First_deployment, bind at 1, get_db. rewrite Hdepl. simpl.
  unfold bind at 1. unfold First_project, bind at 1, get_db. rewrite Hproj. simpl.
  reflexivity.
Qed.

Lemma Work_locked data w d depl proj w1 :
  loaded env data w d depl proj ->
  Lock env proj w = (inr true, w1) ->
  Work env data w = defer (unlock_logged env proj) (locked env d depl proj) w1.
Proof.
  intros Hload Hlock. rewrite (Work_after_load Hload).
  unfold bind. rewrite Hlock. reflexivity.
Qed.
End LockFacts.

(** C4.  When [Lock] reports that the lock was not acquired, [Work]
    returns [ErrProjectLocked]; the only call it has made is the [Lock]
    itself (no upload, no publication, no [Unlock]) and the store is what
    it was.  When the lock is acquired, whatever [Work] then does and
    returns, it calls [Unlock] once, after everything else but for the log
    line of a failed unlock. *)
Theorem C4_lock_discipline env data w d depl proj acquired w1 :
  loaded env data w d depl proj ->
  Lock env proj w = (inr acquired, w1) ->
  (acquired = false ->
   Work env data w = (inl ErrProjectLocked, w1)
   /\ db w1 = db w
   /\ added w w1 [EvLock (project.ID proj)])
  /\ (acquired = true ->
      exists evs tail,
        added w1 (snd (Work env data w)) (evs ++ EvUnlock (project.ID proj) :: tail)
        /\ avoids is_unlock evs
        /\ Forall (fun e => is_log e = true) tail).
Proof.
  intros Hload Hlock. split; intros ->.
  - rewrite (Work_after_load Hload). unfold bind. rewrite Hlock. simpl.
    apply Lock_held in Hlock. subst w1. repeat split.
  - rewrite (Work_locked Hload Hlock). unfold defer.
    pose proof (@moves_locked env (fun e => is_unlock e = false) d depl proj
                  (fun e H => H) w1) as Hbody.
    destruct (locked env d depl proj w1) as [r w2]. simpl in *.
    destruct Hbody as [[evs [Htrace Hevs]] _].
    destruct (unlock_logged_run env proj w2) as [tail [Ht [Hlog _]]].
    exists evs, tail. split; [| split; [exact Hevs | exact Hlog]].
    unfold added. rewrite Ht, Htrace. rewrite <- app_assoc. reflexivity.
Qed.

(** C4 where the project is locked by another worker. *)
Lemma C4_witness :
  Work (Fixture.healthy (Fixture.the_job false false) Fixture.site) Fixture.payload Cases.held
  = (inl ErrProjectLocked,
     {| db := db Cases.held; tx := None; trace := [EvLock 1] |}).
Proof.
  refine (proj1 (proj1 (@C4_lock_discipline
            (Fixture.healthy (Fixture.the_job false false) Fixture.site)
            Fixture.payload Cases.held (Fixture.the_job false false)
            (Fixture.the_deployment StatePendingDeploy "{}")
            (Fixture.the_project false true 1) false
            {| db := db Cases.held; tx := None; trace := [EvLock 1] |} _ _) eq_refl)).
  - repeat split.
  - reflexivity.
Defined.

(** ** The state gate *)

Section Gate.
Variable env : Env.

Lemma locked_rejects d depl proj w :
  rejected d depl ->
  locked env d depl proj w = (inl errUnexpectedState, w).
Proof.
  unfold rejected, locked, upload_webroot.
  intros [H | [H | [Hs H]]]; rewrite H; simpl; try reflexivity.
  rewrite Hs. reflexivity.
Qed.

Lemma locked_accepts d depl proj w :
  ~ rejected d depl ->
  fst (locked env d depl proj w) <> inl errUnexpectedState.
Proof.
  intros Hn Herr.
  assert (Hr : raises other_error (locked env d depl proj)).
  { unfold locked.
    destruct (deployment.State_ depl) eqn:Hstate; simpl;
      try (exfalso; apply Hn; unfold rejected; rewrite Hstate; tauto);
      destruct (messages.SkipWebrootUpload d) eqn:Hskip; simpl;
      try apply raises_publish;
      try (apply raises_upload_webroot;
           [rewrite Hstate; discriminate | apply raises_publish]).
    exfalso; apply Hn; unfold rejected; rewrite Hstate; tauto. }
  exact (Hr w _ Herr eq_refl).
Qed.

Lemma rejected_dec d depl : rejected d depl \/ ~ rejected d depl.
Proof.
  unfold rejected.
  destruct (deployment.State_ depl); destruct (messages.SkipWebrootUpload d);
    try (left; tauto);
    right; intros [H | [H | [H1 H2]]]; discriminate.
Qed.
End Gate.

(** C2.  With the lock acquired, [Work] returns the unexpected-state
    error exactly when the deployment is in state [uploaded] or
    [pending_upload], or in state [deployed] with [skip_webroot_upload]
    false; so with [skip_webroot_upload] true a deployment in state
    [deployed] is accepted.  When it returns that error the deployments
    are what they were and the only call made after [Lock] is the
    deferred [Unlock] (with its log line if it fails). *)
Theorem C2_state_gate env data w d depl proj w1 :
  loaded env data w d depl proj ->
  Lock env proj w = (inr true, w1) ->
  (fst (Work env data w) = inl errUnexpectedState <->
   deployment.State_ depl = StateUploaded
   \/ deployment.State_ depl = StatePendingUpload
   \/ (messages.SkipWebrootUpload d = false /\ deployment.State_ depl = StateDeployed))
  /\ (fst (Work env data w) = inl errUnexpectedState ->
      deployments (db (snd (Work env data w))) = deployments (db w)
      /\ exists tail,
          added w1 (snd (Work env data w)) (EvUnlock (project.ID proj) :: tail)
          /\ Forall (fun e => is_log e = true) tail).
Proof.
  intros Hload Hlock. rewrite (Work_locked Hload Hlock).
  assert (Hiff : fst (defer (unlock_logged env proj) (locked env d depl proj) w1)
                 = inl errUnexpectedState <-> rejected d depl).
  { unfold defer. split.
    - intros H. destruct (rejected_dec d depl) as [Hr | Hn]; [exact Hr |].
      exfalso. apply (@locked_accepts env d depl proj w1 Hn).
      destruct (locked env d depl proj w1) as [r w2]. exact H.
    - intros Hr. rewrite (locked_rejects env proj w1 Hr). reflexivity. }
  split; [exact Hiff |].
  intros H. apply Hiff in H. unfold defer.
  rewrite (locked_rejects env proj w1 H). simpl.
  destruct (unlock_logged_run env proj w1) as [tail [Ht [Hlog [Hd _]]]].
  split.
  - rewrite Hd. apply Lock_acquired in Hlock. subst w1. reflexivity.
  - exists tail. split; [exact Ht | exact Hlog].
Qed.

(** C2 at a metadata-only republish of a deployment that is already
    deployed: the job is not rejected. *)
Lemma C2_witness :
  fst (Work Cases.republish Fixture.payload Cases.already_deployed) <> inl errUnexpectedState.
Proof.
  intros H.
  apply (proj1 (@C2_state_gate Cases.republish Fixture.payload Cases.already_deployed
                  (Fixture.the_job true false)
                  (Fixture.the_deployment StateDeployed "{}")
                  (Fixture.the_project false false 0)
                  (snd (Lock Cases.republish (Fixture.the_project false false 0)
                          Cases.already_deployed))
                  ltac:(repeat split) ltac:(reflexivity))) in H.
  simpl in H. destruct H as [H | [H | [H _]]]; discriminate H.
Defined.

(** ** The webroot upload *)

Section Webroot.
Variable env : Env.

Lemma upload_entry_result proj webroot hdr content w w' :
  fst (upload_entry env proj webroot hdr content w)
  = fst (upload_entry env proj webroot hdr content w').
Proof.
  unfold upload_entry, S3_Upload, log, bind, emit, check.
  destruct (IsDir hdr); [reflexivity |].
  destruct (negb _); [reflexivity |].
  destruct (deployer.watermarked _ _ _); simpl.
  - destruct (injectWatermark env content); simpl; [reflexivity |].
    destruct (S3_Upload_err env _); reflexivity.
  - destruct (S3_Upload_err env _); reflexivity.
Qed.

(** The signal of the goroutine does not depend on the world it runs in. *)
Lemma upload_loop_signal proj webroot tr :
  forall budget w w',
    fst (upload_loop env proj webroot budget tr w)
    = fst (upload_loop env proj webroot budget tr w').
Proof.
  induction tr as [| f | hdr content rest IH]; intros budget w w'.
  - destruct budget as [[| k] |]; reflexivity.
  - destruct budget as [[| k] |]; reflexivity.
  - assert (Hstep : forall b,
               fst (match upload_entry env proj webroot hdr content w with
                    | (inl e, w1) => (LoopError e, w1)
                    | (inr _, w1) => upload_loop env proj webroot b rest w1
                    end)
               = fst (match upload_entry env proj webroot hdr content w' with
                      | (inl e, w1) => (LoopError e, w1)
                      | (inr _, w1) => upload_loop env proj webroot b rest w1
                      end)).
    { intros b. pose proof (upload_entry_result proj webroot hdr content w w') as Hr.
      destruct (upload_entry env proj webroot hdr content w) as [[e | u] w1];
        destruct (upload_entry env proj webroot hdr content w') as [[e' | u'] w1'];
        simpl in Hr; try discriminate Hr.
      - injection Hr as <-. reflexivity.
      - apply IH. }
    destruct budget as [[| k] |]; simpl; [reflexivity | apply Hstep | apply Hstep].
Qed.

Lemma select_timeout proj webroot tr w k :
  upload_timer env = Some k ->
  select_upload env proj webroot tr w
  = (inr SelTimeout, snd (upload_loop env proj webroot (Some k) tr w)).
Proof. intros H. unfold select_upload. rewrite H. reflexivity. Qed.

Lemma select_done proj webroot tr w w0 :
  upload_timer env = None ->
  fst (upload_loop env proj webroot None tr w0) = LoopDone ->
  select_upload env proj webroot tr w
  = (inr SelDone, snd (upload_loop env proj webroot None tr w)).
Proof.
  intros H Hdone. unfold select_upload. rewrite H.
  rewrite (upload_loop_signal proj webroot tr None w0 w) in Hdone.
  destruct (upload_loop env proj webroot None tr w) as [sig w1].
  simpl in Hdone. subst sig. reflexivity.
Qed.

(** The events of the goroutine. *)
Lemma upload_loop_events proj webroot budget tr w :
  exists evs,
    snd (upload_loop env proj webroot budget tr w) = after_calls w evs
    /\ Forall (fun e => is_loop_event e = true) evs.
Proof.
  pose proof (@steps_upload_loop env (fun e => is_loop_event e = true) K_same
                K_same_refl K_same_trans proj webroot tr (fun e H => H) budget w) as H.
  destruct H as [[evs [Ht Hf]] Hk].
  exists evs. split; [| exact Hf].
  unfold K_same, store in Hk. injection Hk as Hdb Htx.
  destruct (snd (upload_loop env proj webroot budget tr w)) as [db1 tx1 trace1].
  simpl in *. subst. reflexivity.
Qed.

(** While the job is uploading, [locked] gets to the select. *)
Lemma locked_uploading d depl proj f w :
  uploading env w d depl f ->
  locked env d depl proj w
  = defer (emit EvRemoveTemp)
      (bind (select_upload env proj (webroot_of depl) (tar f))
         (after_select env depl (deployment.PrefixID depl) (webroot_of depl)
            (publish env d depl proj (deployment.PrefixID depl))))
      (after_calls w (fetch_calls d depl (db w))).
Proof.
  intros [Hskip [Hstate [Htemp [Hdl Hgz]]]].
  unfold locked, upload_webroot. rewrite Hskip.
  assert (Hs : State_eqb (deployment.State_ depl) StateUploaded = false
               /\ State_eqb (deployment.State_ depl) StatePendingUpload = false
               /\ State_eqb (deployment.State_ depl) StateDeployed = false)
    by (destruct Hstate as [-> | ->]; repeat split).
  destruct Hs as [-> [-> ->]]. simpl.
  unfold bind at 1. unfold get_db. simpl.
  unfold bind at 1. unfold emit at 1. simpl.
  unfold bind at 1. rewrite Htemp. simpl.
  unfold defer. unfold bind at 1. unfold S3_Download.
  unfold bind at 1. unfold emit at 1. simpl. rewrite Hdl. simpl.
  unfold bind at 1. rewrite Hgz. simpl.
  unfold after_calls, fetch_calls, webroot_of. simpl.
  rewrite <- app_assoc. reflexivity.
Qed.

Lemma after_timeout_stored depl prefixID webroot rest w :
  UpdateState_err env OnDB StateDeployFailed = None ->
  after_select env depl prefixID webroot rest SelTimeout w
  = (inl ErrTimeout,
     {| db := with_deployments
                (update_deployment (deployment.ID depl) timed_out_row (deployments (db w)))
                (db w);
        tx := tx w;
        trace := (trace w ++ [EvUpdateState OnDB (deployment.ID depl) StateDeployFailed])%list |}).
Proof.
  intros H. unfold after_select, UpdateState, catch, bind, emit, check, write, get_db, put_db.
  simpl. rewrite H. reflexivity.
Qed.

Lemma after_timeout_refused depl prefixID webroot rest w e :
  UpdateState_err env OnDB StateDeployFailed = Some e ->
  after_select env depl prefixID webroot rest SelTimeout w
  = (inl ErrTimeout,
     after_calls w [EvUpdateState OnDB (deployment.ID depl) StateDeployFailed;
                    EvLog (LogUpdateStateFailed prefixID (External e))]).
Proof.
  intros H. unfold after_select, UpdateState, catch, bind, emit, check, log, emit.
  simpl. rewrite H. simpl. unfold after_calls. rewrite <- app_assoc. reflexivity.
Qed.
End Webroot.

(** ** Classes of events, compared *)

Lemma loop_events_avoid (c : Event -> bool) evs :
  (forall e, is_loop_event e = true -> c e = false) ->
  Forall (fun e => is_loop_event e = true) evs -> avoids c evs.
Proof. intros Hc H. unfold avoids. eapply Forall_impl; [exact Hc | exact H]. Qed.

Lemma log_events_avoid (c : Event -> bool) evs :
  (forall e, is_log e = true -> c e = false) ->
  Forall (fun e => is_log e = true) evs -> avoids c evs.
Proof. intros Hc H. unfold avoids. eapply Forall_impl; [exact Hc | exact H]. Qed.

Lemma loop_not_publish e : is_loop_event e = true -> is_publish e = false.
Proof. destruct e; intros H; try discriminate H; reflexivity. Qed.

Lemma loop_not_tx e : is_loop_event e = true -> is_tx_event e = false.
Proof. destruct e; intros H; try discriminate H; reflexivity. Qed.

Lemma loop_not_write e : is_loop_event e = true -> is_store_write e = false.
Proof. destruct e; intros H; try discriminate H; reflexivity. Qed.

Lemma log_not_publish e : is_log e = true -> is_publish e = false.
Proof. destruct e; intros H; try discriminate H; reflexivity. Qed.

Lemma log_not_tx e : is_log e = true -> is_tx_event e = false.
Proof. destruct e; intros H; try discriminate H; reflexivity. Qed.

Lemma log_not_write e : is_log e = true -> is_store_write e = false.
Proof. destruct e; intros H; try discriminate H; reflexivity. Qed.

Lemma log_not_upload e : is_log e = true -> is_upload e = false.
Proof. destruct e; intros H; try discriminate H; reflexivity. Qed.

Lemma uploading_locked env w w1 d depl proj f :
  Lock env proj w = (inr true, w1) ->
  uploading env w d depl f ->
  uploading env w1 d depl f
  /\ deployments (db w1) = deployments (db w)
  /\ db (after_calls w1 (fetch_calls d depl (db w1)))
     = db w1
  /\ fetch_calls d depl (db w1) = fetch_calls d depl (db w).
Proof.
  intros Hlock Hup. apply Lock_acquired in Hlock. subst w1.
  split; [exact Hup |]. repeat split.
Qed.

(** ** Running binds and defers *)

Lemma defer_eq A (cleanup : M unit) (m : M A) w :
  defer cleanup m w = (fst (m w), snd (cleanup (snd (m w)))).
Proof. unfold defer. destruct (m w); reflexivity. Qed.

Lemma bind_ok A B (m : M A) (k : A -> M B) w a w' :
  m w = (inr a, w') -> bind m k w = k a w'.
Proof. intros H. unfold bind. rewrite H. reflexivity. Qed.

Lemma bind_err A B (m : M A) (k : A -> M B) w e w' :
  m w = (inl e, w') -> bind m k w = (inl e, w').
Proof. intros H. unfold bind. rewrite H. reflexivity. Qed.

Lemma emit_eq ev w : emit ev w = (inr tt, after_calls w [ev]).
Proof. reflexivity. Qed.

Lemma after_calls_app w a b : after_calls (after_calls w a) b = after_calls w (a ++ b).
Proof. unfold after_calls. simpl. rewrite app_assoc. reflexivity. Qed.

(** With the job loaded, the lock acquired and the job uploading, [Work]
    is the select and what follows it, inside the two deferred calls. *)
Lemma Work_uploading env data w d depl proj w1 f :
  loaded env data w d depl proj ->
  Lock env proj w = (inr true, w1) ->
  uploading env w d depl f ->
  Work env data w
  = defer (unlock_logged env proj)
      (defer (emit EvRemoveTemp)
         (bind (select_upload env proj (webroot_of depl) (tar f))
            (after_select env depl (deployment.PrefixID depl) (webroot_of depl)
               (publish env d depl proj (deployment.PrefixID depl)))))
      (after_calls w1 (fetch_calls d depl (db w))).
Proof.
  intros Hload Hlock Hup.
  destruct (uploading_locked proj Hlock Hup) as [Hup1 [_ [_ Hfetch]]].
  rewrite (Work_locked Hload Hlock). unfold defer at 1.
  rewrite (locked_uploading proj Hup1). rewrite Hfetch.
  rewrite (defer_eq (unlock_logged env proj)).
  destruct (defer (emit EvRemoveTemp) _ _). reflexivity.
Qed.

(** The deferred unlock of a project whose row is locked: when [Unlock]
    succeeds the row is unlocked; when it fails the failure is logged and
    the row stays locked. *)
Lemma unlock_logged_lock env proj w row :
  find_project (project.ID proj) (projects (db w)) = Some row ->
  project.Locked row = true ->
  exists tail,
    trace (snd (unlock_logged env proj w))
    = (trace w ++ EvUnlock (project.ID proj) :: tail)%list
    /\ Forall (fun e => is_log e = true) tail
    /\ deployments (db (snd (unlock_logged env proj w))) = deployments (db w)
    /\ match unlock_err env with
       | None =>
           tail = []
           /\ exists prow,
               find_project (project.ID proj)
                 (projects (db (snd (unlock_logged env proj w)))) = Some prow
               /\ project.Locked prow = false
       | Some e =>
           tail = [EvLog (LogUnlockFailed (project.ID proj) (External e))]
           /\ exists prow,
               find_project (project.ID proj)
                 (projects (db (snd (unlock_logged env proj w)))) = Some prow
               /\ project.Locked prow = true
       end.
Proof.
  intros Hrow Hlocked.
  unfold unlock_logged, catch, Unlock, bind, emit, check, write, get_db, put_db, log, emit.
  simpl. destruct (unlock_err env) as [f |]; simpl.
  - eexists. split; [rewrite <- app_assoc; reflexivity |].
    split; [repeat constructor |]. split; [reflexivity |].
    split; [reflexivity |]. exists row. split; assumption.
  - exists []. split; [reflexivity |]. split; [constructor |]. split; [reflexivity |].
    split; [reflexivity |].
    exists (project.with_Locked false row). split; [| reflexivity].
    apply find_project_update; [reflexivity | exact Hrow].
Qed.

(** C3 (amended).  When the timer wins the select of the upload phase,
    [Work] sets the deployment's error message to "Timed out due to too
    many files", asks the store for the transition to [deploy_failed],
    calls [Unlock] and returns [ErrTimeout]; it publishes no invalidation
    and opens no transaction.  If the store accepts the transition, the
    deployment is stored in state [deploy_failed] with that message; if
    the store refuses it, the refusal is only logged, the deployments are
    what they were, and [ErrTimeout] is returned all the same.  If
    [Unlock] succeeds, the lock of the project is released; if it fails,
    the failure is only logged, the project stays locked, and
    [ErrTimeout] is returned all the same. *)
Theorem C3_timeout env data w d depl proj w1 f k :
  loaded env data w d depl proj ->
  Lock env proj w = (inr true, w1) ->
  uploading env w d depl f ->
  upload_timer env = Some k ->
  fst (Work env data w) = inl ErrTimeout
  /\ exists loop_evs outcome tail evs,
      evs = (fetch_calls d depl (db w) ++ loop_evs
             ++ EvUpdateState OnDB (deployment.ID depl) StateDeployFailed :: outcome
             ++ [EvRemoveTemp; EvUnlock (project.ID proj)] ++ tail)%list
      /\ added w1 (snd (Work env data w)) evs
      /\ avoids is_publish evs
      /\ avoids is_tx_event evs
      /\ Forall (fun e => is_loop_event e = true) loop_evs
      /\ Forall (fun e => is_log e = true) tail
      /\ match UpdateState_err env OnDB StateDeployFailed with
         | None =>
             outcome = []
             /\ deployments (db (snd (Work env data w)))
                = update_deployment (deployment.ID depl) timed_out_row (deployments (db w))
             /\ exists row,
                 find_deployment (deployment.ID depl)
                   (deployments (db (snd (Work env data w)))) = Some row
                 /\ deployment.State_ row = StateDeployFailed
                 /\ deployment.ErrorMessage row = Some timeout_message
         | Some e =>
             outcome = [EvLog (LogUpdateStateFailed (deployment.PrefixID depl) (External e))]
             /\ deployments (db (snd (Work env data w))) = deployments (db w)
         end
      /\ match unlock_err env with
         | None =>
             tail = []
             /\ exists prow,
                 find_project (project.ID proj)
                   (projects (db (snd (Work env data w)))) = Some prow
                 /\ project.Locked prow = false
         | Some e =>
             tail = [EvLog (LogUnlockFailed (project.ID proj) (External e))]
             /\ exists prow,
                 find_project (project.ID proj)
                   (projects (db (snd (Work env data w)))) = Some prow
                 /\ project.Locked prow = true
         end.
Proof.
  intros Hload Hlock Hup Htimer.
  destruct (uploading_locked proj Hlock Hup) as [_ [Hdepl _]].
  assert (Hrow : find_project (project.ID proj) (projects (db w1))
                 = Some (project.with_Locked true proj)).
  { destruct Hload as [_ [_ [_ Hproj]]].
    pose proof (find_project_some _ _ Hproj) as Hpid.
    rewrite (Lock_acquired _ _ _ Hlock). cbn [db projects with_projects].
    apply find_project_update; [reflexivity |]. rewrite Hpid. exact Hproj. }
  rewrite (Work_uploading Hload Hlock Hup). rewrite !defer_eq.
  erewrite bind_ok by (apply select_timeout; exact Htimer).
  destruct (upload_loop_events env proj (webroot_of depl) (Some k) (tar f)
              (after_calls w1 (fetch_calls d depl (db w)))) as [loop_evs [Hw3 Hloop]].
  rewrite Hw3. clear Hw3.
  destruct Hload as [_ [_ [Hfind _]]].
  destruct (find_deployment_some _ _ Hfind) as [Hid _].
  destruct (UpdateState_err env OnDB StateDeployFailed) as [e |] eqn:Hupd.
  - rewrite (after_timeout_refused env _ _ _ _ _ Hupd). cbn [fst snd].
    match goal with
    | |- context [unlock_logged env proj ?wx] =>
        destruct (@unlock_logged_lock env proj wx _ Hrow eq_refl)
          as [tail [Ht [Hlog [Hd Hunlock]]]]
    end.
    split; [reflexivity |].
    exists loop_evs, [EvLog (LogUpdateStateFailed (deployment.PrefixID depl) (External e))],
      tail.
    eexists. split; [reflexivity |].
    split; [| split; [| split; [| split; [exact Hloop | split; [exact Hlog |]]]]].
    + unfold added. rewrite Ht. simpl.
      rewrite <- !app_assoc. reflexivity.
    + unfold avoids. rewrite !Forall_app. repeat split.
      * repeat constructor.
      * apply (loop_events_avoid is_publish loop_not_publish Hloop).
      * change (avoids is_publish
                  ([EvUpdateState OnDB (deployment.ID depl) StateDeployFailed;
                    EvLog (LogUpdateStateFailed (deployment.PrefixID depl) (External e));
                    EvRemoveTemp; EvUnlock (project.ID proj)] ++ tail)).
        unfold avoids. rewrite Forall_app. split; [repeat constructor |].
        apply (log_events_avoid is_publish log_not_publish Hlog).
    + unfold avoids. rewrite !Forall_app. repeat split.
      * repeat constructor.
      * apply (loop_events_avoid is_tx_event loop_not_tx Hloop).
      * change (avoids is_tx_event
                  ([EvUpdateState OnDB (deployment.ID depl) StateDeployFailed;
                    EvLog (LogUpdateStateFailed (deployment.PrefixID depl) (External e));
                    EvRemoveTemp; EvUnlock (project.ID proj)] ++ tail)).
        unfold avoids. rewrite Forall_app. split; [repeat constructor |].
        apply (log_events_avoid is_tx_event log_not_tx Hlog).
    + split; [| exact Hunlock].
      split; [reflexivity |]. rewrite Hd. exact Hdepl.
  - rewrite (after_timeout_stored env _ _ _ _ _ Hupd). cbn [fst snd].
    match goal with
    | |- context [unlock_logged env proj ?wx] =>
        destruct (@unlock_logged_lock env proj wx _ Hrow eq_refl)
          as [tail [Ht [Hlog [Hd Hunlock]]]]
    end.
    split; [reflexivity |].
    exists loop_evs, [], tail.
    eexists. split; [reflexivity |].
    split; [| split; [| split; [| split; [exact Hloop | split; [exact Hlog |]]]]].
    + unfold added. rewrite Ht. simpl.
      rewrite <- !app_assoc. reflexivity.
    + unfold avoids. rewrite !Forall_app. repeat split.
      * repeat constructor.
      * apply (loop_events_avoid is_publish loop_not_publish Hloop).
      * change (avoids is_publish
                  ([EvUpdateState OnDB (deployment.ID depl) StateDeployFailed;
                    EvRemoveTemp; EvUnlock (project.ID proj)] ++ tail)).
        unfold avoids. rewrite Forall_app. split; [repeat constructor |].
        apply (log_events_avoid is_publish log_not_publish Hlog).
    + unfold avoids. rewrite !Forall_app. repeat split.
      * repeat constructor.
      * apply (loop_events_avoid is_tx_event loop_not_tx Hloop).
      * change (avoids is_tx_event
                  ([EvUpdateState OnDB (deployment.ID depl) StateDeployFailed;
                    EvRemoveTemp; EvUnlock (project.ID proj)] ++ tail)).
        unfold avoids. rewrite Forall_app. split; [repeat constructor |].
        apply (log_events_avoid is_tx_event log_not_tx Hlog).
    + split; [| exact Hunlock].
      rewrite Hd. simpl. rewrite Hdepl.
      split; [reflexivity | split; [reflexivity |]].
      exists (timed_out_row depl).
      split; [| split; reflexivity].
      apply find_deployment_update; try reflexivity.
      rewrite Hid. exact Hfind.
Qed.

(** C3 at a job whose archive is not uploaded in time. *)
Lemma C3_witness :
  fst (Work Cases.timeout_only Fixture.payload (Cases.pending false)) = inl ErrTimeout.
Proof.
  refine (proj1 (@C3_timeout Cases.timeout_only Fixture.payload (Cases.pending false)
                   (Fixture.the_job false false)
                   (Fixture.the_deployment StatePendingDeploy "{}")
                   (Fixture.the_project false false 1)
                   (snd (Lock Cases.timeout_only (Fixture.the_project false false 1)
                           (Cases.pending false)))
                   Fixture.site 1 _ _ _ _)).
  - repeat split.
  - reflexivity.
  - unfold uploading. repeat split. left; reflexivity.
  - reflexivity.
Defined.

(** The claim as first stated fails: the timer wins, the store refuses the
    write of the state, and [Work] returns [ErrTimeout] while the
    deployment is still stored as [pending_deploy], with no error
    message. *)
Lemma C3_counterexample :
  upload_timer Cases.timeout_and_refusal = Some 1
  /\ fst (Work Cases.timeout_and_refusal Fixture.payload (Cases.pending false))
     = inl ErrTimeout
  /\ option_map deployment.State_
       (find_deployment 7
          (deployments
             (db (snd (Work Cases.timeout_and_refusal Fixture.payload (Cases.pending false))))))
     = Some StatePendingDeploy
  /\ option_map deployment.ErrorMessage
       (find_deployment 7
          (deployments
             (db (snd (Work Cases.timeout_and_refusal Fixture.payload (Cases.pending false))))))
     = Some None.
Proof. repeat split. Qed.

(** ** The js-env file *)

Lemma decode_members_saved members :
  forall e, snd (GoJSON.decode_members members (Some e)) = Some e.
Proof.
  induction members as [| [k v] rest IH]; intros e; simpl; [reflexivity |].
  specialize (IH e). destruct (GoJSON.decode_members rest (Some e)). exact IH.
Qed.

Lemma non_string_describe v :
  non_string v ->
  GoJSON.fits_string v = false
  /\ In (GoJSON.describe v) ["number"; "bool"; "array"; "object"].
Proof. destruct v; simpl; intros H; try destruct H; split; auto 6. Qed.

Lemma fits_string_not_non_string v : GoJSON.fits_string v = true -> ~ non_string v.
Proof. destruct v; simpl; intros H; try discriminate H; intros []. Qed.

Lemma decode_members_type_error members :
  (exists k v, In (k, v) members /\ non_string v) ->
  exists what,
    In what ["number"; "bool"; "array"; "object"]
    /\ snd (GoJSON.decode_members members None) = Some (UnmarshalTypeError what).
Proof.
  induction members as [| [k0 v0] rest IH]; intros [k [v [Hin Hv]]].
  - destruct Hin.
  - simpl. destruct (GoJSON.fits_string v0) eqn:Hfit.
    + destruct Hin as [Heq | Hin].
      * injection Heq as _ <-. destruct (fits_string_not_non_string _ Hfit Hv).
      * destruct IH as [what [Hw He]]; [exists k, v; split; assumption |].
        exists what. split; [exact Hw |].
        destruct (GoJSON.decode_members rest None). exact He.
    + exists (GoJSON.describe v0). split.
      * destruct v0; simpl in *; try discriminate Hfit; auto 6.
      * pose proof (decode_members_saved rest (UnmarshalTypeError (GoJSON.describe v0))) as Hs.
        destruct (GoJSON.decode_members rest (Some _)). exact Hs.
Qed.

Lemma Sprintf_jsenv (js : string) :
  GoString.Sprintf_s deployer.jsenvFormat js = jsenv_head ++ js ++ jsenv_tail.
Proof. reflexivity. Qed.

(** The template of the source is not the one the spec prints. *)
Lemma jsenv_not_as_printed :
  GoString.Sprintf_s deployer.jsenvFormat "{}" <> Spec.jsenv_template "{}".
Proof. intros H. vm_compute in H. discriminate H. Qed.

Lemma jsenv_key depl :
  webroot_of depl ++ "/jsenv.js" = webroot_key (deployment.PrefixID depl) "jsenv.js".
Proof. unfold webroot_of, webroot_key. rewrite !string_append_assoc. reflexivity. Qed.

(** After the loop has passed: the select takes [done]. *)
Lemma Work_after_loop env data w d depl proj w1 f :
  loaded env data w d depl proj ->
  Lock env proj w = (inr true, w1) ->
  uploading env w d depl f ->
  loop_passes env w depl proj f ->
  exists loop_evs,
    snd (upload_loop env proj (webroot_of depl) None (tar f)
           (after_calls w1 (fetch_calls d depl (db w))))
    = after_calls (after_calls w1 (fetch_calls d depl (db w))) loop_evs
    /\ Forall (fun e => is_loop_event e = true) loop_evs
    /\ Work env data w
       = defer (unlock_logged env proj)
           (defer (emit EvRemoveTemp)
              (after_select env depl (deployment.PrefixID depl) (webroot_of depl)
                 (publish env d depl proj (deployment.PrefixID depl)) SelDone))
           (after_calls w1 (fetch_calls d depl (db w) ++ loop_evs)).
Proof.
  intros Hload Hlock Hup [Htimer Hdone].
  destruct (upload_loop_events env proj (webroot_of depl) None (tar f)
              (after_calls w1 (fetch_calls d depl (db w)))) as [loop_evs [Hw3 Hloop]].
  exists loop_evs. split; [exact Hw3 |]. split; [exact Hloop |].
  rewrite (Work_uploading Hload Hlock Hup). rewrite !defer_eq.
  erewrite bind_ok by (eapply select_done; [exact Htimer | exact Hdone]).
  rewrite Hw3, after_calls_app. reflexivity.
Qed.

(** C10.  When the upload loop has passed and [js_env_vars] is a JSON
    object with a member whose value is a number, a boolean, an array or
    an object, [Work] returns the type error of [json.Unmarshal]; after
    the calls of the loop it only removes the temporary file and unlocks
    the project (no [jsenv.js] is written, no state is changed), and the
    deployments are what they were. *)
Theorem C10_env_vars_must_be_strings env data w d depl proj w1 f members :
  loaded env data w d depl proj ->
  Lock env proj w = (inr true, w1) ->
  uploading env w d depl f ->
  loop_passes env w depl proj f ->
  json_parse env (deployment.JsEnvVars depl) = Some (JObject members) ->
  (exists k v, In (k, v) members /\ non_string v) ->
  (exists what,
      In what ["number"; "bool"; "array"; "object"]
      /\ fst (Work env data w) = inl (UnmarshalTypeError what))
  /\ exists loop_evs tail,
      snd (upload_loop env proj (webroot_of depl) None (tar f)
             (after_calls w1 (fetch_calls d depl (db w))))
      = after_calls (after_calls w1 (fetch_calls d depl (db w))) loop_evs
      /\ added w1 (snd (Work env data w))
           (fetch_calls d depl (db w) ++ loop_evs
            ++ [EvRemoveTemp; EvUnlock (project.ID proj)] ++ tail)
      /\ Forall (fun e => is_log e = true) tail
      /\ deployments (db (snd (Work env data w))) = deployments (db w).
Proof.
  intros Hload Hlock Hup Hpass Hparse Hbad.
  destruct (uploading_locked proj Hlock Hup) as [_ [Hdepl _]].
  destruct (Work_after_loop Hload Hlock Hup Hpass) as [loop_evs [Hw3 [Hloop Hrun]]].
  destruct (decode_members_type_error members Hbad) as [what [Hwhat Herr]].
  assert (Hsel : forall w0,
             after_select env depl (deployment.PrefixID depl) (webroot_of depl)
               (publish env d depl proj (deployment.PrefixID depl)) SelDone w0
             = (inl (UnmarshalTypeError what), w0)).
  { intros w0. unfold after_select. apply bind_err.
    unfold GoJSON.Unmarshal_string_map. rewrite Hparse.
    destruct (GoJSON.decode_members members None) as [m err]. simpl in Herr.
    subst err. reflexivity. }
  rewrite Hrun, !defer_eq, Hsel. cbn [fst snd].
  match goal with
  | |- context [unlock_logged env proj ?wx] =>
      destruct (unlock_logged_run env proj wx) as [tail [Ht [Hlog [Hd _]]]]
  end.
  split; [exists what; split; [exact Hwhat | reflexivity] |].
  exists loop_evs, tail. split; [exact Hw3 |].
  split; [| split; [exact Hlog |]].
  - unfold added. rewrite Ht. simpl. rewrite <- !app_assoc. reflexivity.
  - rewrite Hd. exact Hdepl.
Qed.

(** C10 at a deployment whose [js_env_vars] is [{"a":1}]. *)
Lemma C10_witness :
  exists what,
    fst (Work (Fixture.healthy (Fixture.the_job false false) Fixture.site)
           Fixture.payload Cases.numeric_env_var)
    = inl (UnmarshalTypeError what).
Proof.
  destruct (@C10_env_vars_must_be_strings
              (Fixture.healthy (Fixture.the_job false false) Fixture.site)
              Fixture.payload Cases.numeric_env_var
              (Fixture.the_job false false)
              (Fixture.the_deployment StatePendingDeploy Fixture.object_a_1)
              (Fixture.the_project false false 1)
              (snd (Lock (Fixture.healthy (Fixture.the_job false false) Fixture.site)
                      (Fixture.the_project false false 1) Cases.numeric_env_var))
              Fixture.site [("a", JNumber "1")])
    as [[what [_ Hwhat]] _].
  - repeat split.
  - reflexivity.
  - unfold uploading. repeat split. left; reflexivity.
  - split; reflexivity.
  - reflexivity.
  - exists "a", (JNumber "1"). split; [left; reflexivity | exact I].
  - exists what. exact Hwhat.
Defined.

Lemma upload_then env key body contentType acl (rest : M unit) w :
  moves (steps (fun _ => True) K_top) rest ->
  exists post,
    trace (snd (bind (S3_Upload env key body contentType acl) (fun _ => rest) w))
    = (trace w ++ EvUpload key body contentType acl :: post)%list.
Proof.
  intros Hrest. unfold S3_Upload, bind, emit, check. simpl.
  destruct (S3_Upload_err env key); simpl.
  - exists []. reflexivity.
  - destruct (Hrest {| db := db w; tx := tx w;
                       trace := (trace w ++ [EvUpload key body contentType acl])%list |})
      as [[post [Ht _]] _].
    exists post. rewrite Ht. simpl. rewrite <- app_assoc. reflexivity.
Qed.

(** C7 (amended).  When the upload loop has passed and [js_env_vars]
    unmarshals into a map from strings to strings, the call that follows
    the loop is the upload of [deployments/<PrefixID>/webroot/jsenv.js],
    with content type [application/javascript] and ACL [public-read],
    whose content is the template of the source (indented with tabs and
    ended by a newline) with the bytes of [js_env_vars] in the place of
    the verb. *)
Theorem C7_jsenv_upload env data w d depl proj w1 f m :
  loaded env data w d depl proj ->
  Lock env proj w = (inr true, w1) ->
  uploading env w d depl f ->
  loop_passes env w depl proj f ->
  GoJSON.Unmarshal_string_map (json_parse env (deployment.JsEnvVars depl)) = inr m ->
  exists loop_evs post,
    snd (upload_loop env proj (webroot_of depl) None (tar f)
           (after_calls w1 (fetch_calls d depl (db w))))
    = after_calls (after_calls w1 (fetch_calls d depl (db w))) loop_evs
    /\ added w1 (snd (Work env data w))
         (fetch_calls d depl (db w) ++ loop_evs
          ++ EvUpload (webroot_key (deployment.PrefixID depl) "jsenv.js")
               (jsenv_head ++ deployment.JsEnvVars depl ++ jsenv_tail)
               "application/javascript" "public-read" :: post).
Proof.
  intros Hload Hlock Hup Hpass Hjson.
  destruct (Work_after_loop Hload Hlock Hup Hpass) as [loop_evs [Hw3 [Hloop Hrun]]].
  exists loop_evs.
  rewrite Hrun, !defer_eq. cbn [fst snd].
  unfold after_select.
  erewrite bind_ok by (rewrite Hjson; reflexivity).
  match goal with
  | |- context [unlock_logged env proj ?wx] =>
      destruct (unlock_logged_run env proj wx) as [tail [Ht [_ _]]]
  end.
  destruct (@upload_then env (webroot_of depl ++ "/jsenv.js")
              (GoString.Sprintf_s deployer.jsenvFormat (deployment.JsEnvVars depl))
              "application/javascript" "public-read"
              (publish env d depl proj (deployment.PrefixID depl))
              (after_calls w1 (fetch_calls d depl (db w) ++ loop_evs)))
    as [post Hpost].
  { apply moves_publish. intros; exact I. }
  eexists. split; [exact Hw3 |].
  unfold added. rewrite Ht. rewrite emit_eq. cbn [snd after_calls trace].
  rewrite Hpost. rewrite Sprintf_jsenv, jsenv_key. simpl.
  rewrite <- !app_assoc. simpl. reflexivity.
Qed.

(** C7 at a deployment whose [js_env_vars] is [{"a":"b"}]. *)
Lemma C7_witness :
  exists evs,
    added (snd (Lock (Fixture.healthy (Fixture.the_job false false) Fixture.site)
                  (Fixture.the_project false false 1) Cases.string_env_var))
      (snd (Work (Fixture.healthy (Fixture.the_job false false) Fixture.site)
              Fixture.payload Cases.string_env_var)) evs.
Proof.
  destruct (@C7_jsenv_upload
              (Fixture.healthy (Fixture.the_job false false) Fixture.site)
              Fixture.payload Cases.string_env_var
              (Fixture.the_job false false)
              (Fixture.the_deployment StatePendingDeploy Fixture.object_a_b)
              (Fixture.the_project false false 1)
              (snd (Lock (Fixture.healthy (Fixture.the_job false false) Fixture.site)
                      (Fixture.the_project false false 1) Cases.string_env_var))
              Fixture.site [("a", "b")])
    as [loop_evs [post [_ Hadd]]].
  - repeat split.
  - reflexivity.
  - unfold uploading. repeat split. left; reflexivity.
  - split; reflexivity.
  - reflexivity.
  - eexists. exact Hadd.
Defined.

(** The claim as first stated fails twice.  A job that uploads the
    webroot and passes the upload loop, for a deployment whose
    [js_env_vars] is the JSON object [{"a":1}], uploads no [jsenv.js].
    And where [jsenv.js] is uploaded, for [js_env_vars] [{}], its content
    is not the template that the spec prints with [{}] for [<JSON>]: the
    source indents with tabs and ends with a newline. *)
Lemma C7_counterexample :
  messages.SkipWebrootUpload (Fixture.the_job false false) = false
  /\ loop_passes (Fixture.healthy (Fixture.the_job false false) Fixture.site)
       Cases.numeric_env_var
       (Fixture.the_deployment StatePendingDeploy Fixture.object_a_1)
       (Fixture.the_project false false 1) Fixture.site
  /\ existsb (fun e => match upload_key e with
                       | Some key => String.eqb key "deployments/a1b2c3-7/webroot/jsenv.js"
                       | None => false
                       end)
       (trace (snd (Work (Fixture.healthy (Fixture.the_job false false) Fixture.site)
                      Fixture.payload Cases.numeric_env_var))) = false
  /\ In (EvUpload "deployments/a1b2c3-7/webroot/jsenv.js"
           (GoString.Sprintf_s deployer.jsenvFormat "{}")
           "application/javascript" "public-read")
       (trace (snd (Work (Fixture.healthy (Fixture.the_job false false) Fixture.site)
                      Fixture.payload (Cases.pending false))))
  /\ GoString.Sprintf_s deployer.jsenvFormat "{}" <> Spec.jsenv_template "{}".
Proof.
  split; [reflexivity |]. split; [split; reflexivity |]. split; [reflexivity |].
  split; [| exact jsenv_not_as_printed].
  vm_compute. do 5 right. left. reflexivity.
Qed.

(** ** Metadata, invalidation, commit *)

Section Tail.
Variable env : Env.

Lemma upload_meta_run metaJson domainNames w :
  exists evs,
    snd (upload_meta env metaJson domainNames w) = after_calls w evs
    /\ Forall (fun e => is_upload e = true) evs.
Proof.
  pose proof (@moves_upload_meta env (fun e => is_upload e = true) K_same
                K_same_refl K_same_trans metaJson domainNames (fun e H => H) w) as H.
  destruct H as [[evs [Ht Hf]] Hk].
  exists evs. split; [| exact Hf].
  unfold K_same, store in Hk. injection Hk as Hdb Htx.
  destruct (snd (upload_meta env metaJson domainNames w)) as [db1 tx1 trace1].
  simpl in *. subst. reflexivity.
Qed.

(** [publish], call by call. *)
Lemma publish_eq d depl proj prefixID w :
  publish env d depl proj prefixID w
  = match json_Marshal_meta env
            {| meta_prefix := prefixID;
               meta_force_https := project.ForceHTTPS proj;
               meta_basic_auth_username := project.BasicAuthUsername proj;
               meta_basic_auth_password := project.EncryptedBasicAuthPassword proj |} with
    | inl f => (inl (External f), w)
    | inr metaJson =>
        match DomainNames_result env with
        | inl f => (inl (External f), w)
        | inr doms =>
            match upload_meta env metaJson doms w with
            | (inl e, w') => (inl e, w')
            | (inr _, w') =>
                if messages.SkipInvalidation d then commit env depl proj w'
                else
                  match new_message_err env with
                  | Some f => (inl (External f), w')
                  | None =>
                      match publish_err env with
                      | Some f =>
                          (inl (External f),
                           after_calls w' [EvPublish exchanges.Edges
                                             exchanges.RouteV1Invalidation doms])
                      | None =>
                          commit env depl proj
                            (after_calls w' [EvPublish exchanges.Edges
                                               exchanges.RouteV1Invalidation doms])
                      end
                  end
            end
        end
    end.
Proof.
  unfold publish. unfold bind at 1.
  destruct (json_Marshal_meta env _) as [f | metaJson]; simpl; [reflexivity |].
  unfold bind at 1.
  destruct (DomainNames_result env) as [f | doms]; simpl; [reflexivity |].
  unfold bind at 1.
  destruct (upload_meta env metaJson doms w) as [[e | u] w']; [reflexivity |].
  destruct (messages.SkipInvalidation d); simpl; [reflexivity |].
  unfold Publish, bind, emit, check.
  destruct (new_message_err env) as [f |]; simpl; [reflexivity |].
  destruct (publish_err env) as [f |]; reflexivity.
Qed.

(** [publish] up to the invalidation. *)
Lemma publish_spine d depl proj prefixID w :
  exists evs,
    Forall (fun e => is_upload e = true) evs
    /\ ((fst (publish env d depl proj prefixID w) <> inr tt
         /\ snd (publish env d depl proj prefixID w) = after_calls w evs)
        \/ exists doms,
            DomainNames_result env = inr doms
            /\ if messages.SkipInvalidation d
               then publish env d depl proj prefixID w
                    = commit env depl proj (after_calls w evs)
               else match publish_err env with
                    | Some f =>
                        publish env d depl proj prefixID w
                        = (inl (External f),
                           after_calls w
                             (evs ++ [EvPublish exchanges.Edges
                                        exchanges.RouteV1Invalidation doms]))
                    | None =>
                        publish env d depl proj prefixID w
                        = commit env depl proj
                            (after_calls w
                               (evs ++ [EvPublish exchanges.Edges
                                          exchanges.RouteV1Invalidation doms]))
                    end).
Proof.
  assert (Hnil : w = after_calls w []).
  { unfold after_calls. rewrite app_nil_r. destruct w; reflexivity. }
  rewrite publish_eq.
  destruct (json_Marshal_meta env _) as [f | metaJson].
  { exists []. split; [constructor |]. left. split; [discriminate | exact Hnil]. }
  destruct (DomainNames_result env) as [f | doms].
  { exists []. split; [constructor |]. left. split; [discriminate | exact Hnil]. }
  destruct (upload_meta_run metaJson doms w) as [evs [Hw Hevs]].
  exists evs. split; [exact Hevs |].
  destruct (upload_meta env metaJson doms w) as [[e | u] wm]; simpl in Hw; subst wm.
  { left. split; [discriminate | reflexivity]. }
  destruct (messages.SkipInvalidation d).
  - right. exists doms. split; reflexivity.
  - destruct (new_message_err env) as [f |].
    + left. split; [discriminate | reflexivity].
    + right. exists doms. split; [reflexivity |].
      destruct (publish_err env) as [f |]; rewrite after_calls_app; reflexivity.
Qed.
End Tail.

(** ** The spine of [locked]: where a run stops before the metadata *)

Lemma after_calls_nil w : after_calls w [] = w.
Proof. unfold after_calls. rewrite app_nil_r. destruct w; reflexivity. Qed.

(** Proves that a list of events made of explicit calls and of the events
    of the upload loop avoids a class. *)
Ltac avoid :=
  unfold avoids; rewrite ?Forall_app; repeat split;
  first
    [ solve [repeat constructor]
    | solve [eapply loop_events_avoid;
             [first [exact loop_not_publish | exact loop_not_tx | exact loop_not_write]
             | eassumption]]
    | solve [eapply log_events_avoid;
             [first [exact log_not_publish | exact log_not_tx | exact log_not_write
                    | exact log_not_upload]
             | eassumption]]
    | assumption
    | idtac ].

Section Spine.
Variable env : Env.

Lemma timeout_stops depl prefixID webroot rest w0 w loop_evs :
  Forall (fun e => is_loop_event e = true) loop_evs ->
  w = after_calls w0 loop_evs ->
  exists evs,
    fst (after_select env depl prefixID webroot rest SelTimeout w) <> inr tt
    /\ trace (snd (after_select env depl prefixID webroot rest SelTimeout w))
       = (trace w0 ++ loop_evs ++ evs)%list
    /\ avoids is_publish evs
    /\ avoids is_tx_event evs.
Proof.
  intros Hloop ->.
  destruct (UpdateState_err env OnDB StateDeployFailed) as [e |] eqn:Hupd.
  - rewrite (after_timeout_refused env _ _ _ _ _ Hupd).
    eexists. split; [discriminate |].
    split; [simpl; rewrite <- app_assoc; reflexivity |]. split; avoid.
  - rewrite (after_timeout_stored env _ _ _ _ _ Hupd).
    eexists. split; [discriminate |].
    split; [simpl; rewrite <- app_assoc; reflexivity |]. split; avoid.
Qed.

Lemma quiet_of_loop evs :
  Forall (fun e => is_loop_event e = true) evs -> Forall (fun e => is_quiet e = true) evs.
Proof.
  apply Forall_impl. intros e H. destruct e; try discriminate H; reflexivity.
Qed.

(** The select and what follows it: the run stops, or goes on with
    [rest] after quiet calls only. *)
Lemma select_spine depl proj prefixID webroot tr rest w :
  stopped w (bind (select_upload env proj webroot tr)
               (after_select env depl prefixID webroot rest) w)
  \/ exists pre,
      Forall (fun e => is_quiet e = true) pre
      /\ bind (select_upload env proj webroot tr)
           (after_select env depl prefixID webroot rest) w
         = rest (after_calls w pre).
Proof.
  unfold bind at 1. unfold bind at 1. unfold select_upload.
  destruct (upload_timer env) as [k |].
  - left.
    destruct (upload_loop_events env proj webroot (Some k) tr w) as [loop_evs [Hw Hloop]].
    destruct (timeout_stops depl prefixID webroot rest (w0 := w) Hloop Hw)
      as [evs [Herr [Ht [Hp Hx]]]].
    split; [exact Herr |].
    exists (loop_evs ++ evs)%list. split; [exact Ht |]. split; avoid; assumption.
  - destruct (upload_loop_events env proj webroot None tr w) as [loop_evs [Hw Hloop]].
    destruct (upload_loop env proj webroot None tr w) as [[| e |] w3]; simpl in Hw.
    + unfold after_select. unfold bind at 1. unfold bind at 1.
      destruct (GoJSON.Unmarshal_string_map _) as [e | m]; simpl.
      * left. split; [discriminate |]. subst w3.
        exists loop_evs. split; [reflexivity |]. split; avoid.
      * unfold S3_Upload, bind, emit, check. simpl.
        destruct (S3_Upload_err env _) as [e |]; simpl.
        -- left. split; [discriminate |]. subst w3. simpl.
           eexists. split; [rewrite <- app_assoc; reflexivity |]. split; avoid.
        -- right. subst w3.
           eexists. split; [| unfold after_calls; simpl; rewrite <- app_assoc; reflexivity].
           apply Forall_app. split; [apply quiet_of_loop, Hloop | repeat constructor].
    + left. split; [discriminate |]. subst w3.
      exists loop_evs. split; [reflexivity |]. split; avoid.
    + left.
      destruct (timeout_stops depl prefixID webroot rest (w0 := w) Hloop Hw)
        as [evs [Herr [Ht [Hp Hx]]]].
      split; [exact Herr |].
      exists (loop_evs ++ evs)%list. split; [exact Ht |]. split; avoid; assumption.
Qed.

(** [upload_webroot], up to the select. *)
Lemma upload_webroot_eq d depl proj prefixID rest w :
  upload_webroot env d depl proj prefixID rest w
  = if State_eqb (deployment.State_ depl) StateDeployed
    then (inl errUnexpectedState, w)
    else
      let tmp := EvTempFile (prefixID ++ "-optimized-bundle.tar.gz") in
      let get := EvDownload (bundle_path d depl prefixID (db w)) in
      match tempfile_err env with
      | Some f => (inl (External f), after_calls w [tmp])
      | None =>
          match S3_Download_result env (bundle_path d depl prefixID (db w)) with
          | inl f => (inl (External f), after_calls w [tmp; get; EvRemoveTemp])
          | inr b =>
              match gzip_err b with
              | Some f => (inl (External f), after_calls w [tmp; get; EvRemoveTemp])
              | None =>
                  defer (emit EvRemoveTemp)
                    (bind (select_upload env proj ("deployments/" ++ prefixID ++ "/webroot")
                             (tar b))
                       (after_select env depl prefixID
                          ("deployments/" ++ prefixID ++ "/webroot") rest))
                    (after_calls w [tmp; get])
              end
          end
      end.
Proof.
  unfold upload_webroot.
  destruct (State_eqb (deployment.State_ depl) StateDeployed); [reflexivity |].
  unfold bind at 1. unfold get_db. simpl.
  unfold bind at 1. unfold emit at 1. simpl.
  unfold bind at 1.
  destruct (tempfile_err env) as [f |]; simpl; [reflexivity |].
  unfold defer at 1. unfold bind at 1. unfold S3_Download.
  unfold bind at 1. unfold emit at 1. simpl.
  destruct (S3_Download_result env _) as [f | b]; simpl.
  { unfold after_calls. simpl. rewrite <- !app_assoc. reflexivity. }
  unfold bind at 1.
  destruct (gzip_err b) as [f |]; simpl.
  { unfold after_calls. simpl. rewrite <- !app_assoc. reflexivity. }
  unfold defer, after_calls. simpl. rewrite <- !app_assoc. reflexivity.
Qed.

(** [locked]: the run stops before the metadata, or it is the run of
    [publish] after quiet calls, closed by the removal of the temporary
    file when there is one. *)
Lemma locked_spine d depl proj w :
  stopped w (locked env d depl proj w)
  \/ exists pre closing,
      Forall (fun e => is_quiet e = true) pre
      /\ (closing = [] \/ closing = [EvRemoveTemp])
      /\ locked env d depl proj w
         = (fst (publish env d depl proj (deployment.PrefixID depl) (after_calls w pre)),
            after_calls
              (snd (publish env d depl proj (deployment.PrefixID depl) (after_calls w pre)))
              closing).
Proof.
  assert (Hstop0 : forall e, stopped w (@inl error unit e, w)).
  { intros e. split; [discriminate |]. exists [].
    split; [symmetry; apply app_nil_r |]. split; constructor. }
  unfold locked.
  destruct (State_eqb (deployment.State_ depl) StateUploaded
            || State_eqb (deployment.State_ depl) StatePendingUpload).
  { left. apply Hstop0. }
  destruct (messages.SkipWebrootUpload d); simpl.
  { right. exists [], []. split; [constructor |]. split; [left; reflexivity |].
    rewrite !after_calls_nil. destruct (publish _ _ _ _ _ w); reflexivity. }
  rewrite upload_webroot_eq.
  destruct (State_eqb (deployment.State_ depl) StateDeployed).
  { left. apply Hstop0. }
  cbv zeta.
  destruct (tempfile_err env) as [f |].
  { left. split; [discriminate |]. eexists. split; [reflexivity |]. split; avoid. }
  destruct (S3_Download_result env _) as [f | b].
  { left. split; [discriminate |]. eexists. split; [reflexivity |]. split; avoid. }
  destruct (gzip_err b) as [f |].
  { left. split; [discriminate |]. eexists. split; [reflexivity |]. split; avoid. }
  rewrite defer_eq.
  match goal with
  | |- context [bind (select_upload env proj ?wr ?tr) (after_select env depl ?p ?wr ?rest) ?w2] =>
      destruct (select_spine depl proj p wr tr rest w2) as [[Herr [evs [Ht [Hp Hx]]]] | [pre [Hpre Heq]]]
  end.
  - left. split; [exact Herr |]. cbn [snd]. rewrite emit_eq. cbn [snd].
    eexists. split.
    + unfold after_calls at 1. cbn [trace]. rewrite Ht.
      unfold after_calls. cbn [trace]. rewrite <- !app_assoc. reflexivity.
    + split; avoid; assumption.
  - right. rewrite Heq. rewrite emit_eq. cbn [fst snd].
    eexists. exists [EvRemoveTemp]. split; [| split; [right; reflexivity |]].
    2: { rewrite after_calls_app. reflexivity. }
    apply Forall_app. split; [repeat constructor | exact Hpre].
Qed.
End Spine.

(** ** The commit transaction *)

Section Commit.
Variable env : Env.

Ltac run_commit :=
  unfold commit, defer, Begin, Rollback, UpdateState, UpdateActive, DeleteExceptLastN,
    Commit, track, write, bind, emit, check, call, get_db, get_tx, put_db, put_tx,
    ret, fail, log, emit;
  simpl.

(** An error in the transaction: nothing of it is stored, and once the
    transaction is open the last call is the rollback. *)
Lemma commit_failure depl proj w e :
  fst (commit env depl proj w) = inl e ->
  db (snd (commit env depl proj w)) = db w
  /\ (begin_err env = None ->
      tx (snd (commit env depl proj w)) = None
      /\ exists evs,
          trace (snd (commit env depl proj w))
          = (trace w ++ EvBegin :: evs ++ [EvRollback])%list).
Proof.
  run_commit.
  destruct (begin_err env) as [f |]; simpl.
  { intros _. split; [reflexivity | discriminate]. }
  destruct (UpdateState_err env OnTx StateDeployed) as [f |]; simpl.
  { intros _. split; [reflexivity |]. intros _. split; [reflexivity |].
    exists [EvUpdateState OnTx (deployment.ID depl) StateDeployed].
    rewrite <- !app_assoc. reflexivity. }
  destruct (update_active_err env) as [f |]; simpl.
  { intros _. split; [reflexivity |]. intros _. split; [reflexivity |].
    exists [EvUpdateState OnTx (deployment.ID depl) StateDeployed;
            EvUpdateActive (project.ID proj) (deployment.ID depl)].
    rewrite <- !app_assoc. reflexivity. }
  destruct (0 <? project.MaxDeploysKept proj)%nat; simpl.
  - destruct (DeleteExceptLastN_rows env _ _ _ _) as [f | rows]; simpl.
    { intros _. split; [reflexivity |]. intros _. split; [reflexivity |].
      exists [EvUpdateState OnTx (deployment.ID depl) StateDeployed;
              EvUpdateActive (project.ID proj) (deployment.ID depl);
              EvDeleteExceptLastN (project.ID proj) (project.MaxDeploysKept proj)].
      rewrite <- !app_assoc. reflexivity. }
    destruct (commit_err env) as [f |]; simpl.
    { intros _. split; [reflexivity |]. intros _. split; [reflexivity |].
      exists [EvUpdateState OnTx (deployment.ID depl) StateDeployed;
              EvUpdateActive (project.ID proj) (deployment.ID depl);
              EvDeleteExceptLastN (project.ID proj) (project.MaxDeploysKept proj);
              EvCommit].
      rewrite <- !app_assoc. reflexivity. }
    destruct (existsb _ _); [destruct (track_err env) |]; simpl; discriminate.
  - destruct (commit_err env) as [f |]; simpl.
    { intros _. split; [reflexivity |]. intros _. split; [reflexivity |].
      exists [EvUpdateState OnTx (deployment.ID depl) StateDeployed;
              EvUpdateActive (project.ID proj) (deployment.ID depl);
              EvCommit].
      rewrite <- !app_assoc. reflexivity. }
    destruct (existsb _ _); [destruct (track_err env) |]; simpl; discriminate.
Qed.

(** A commit that returns [nil]: the three changes are stored, by one
    transaction. *)
Lemma commit_success depl proj w :
  fst (commit env depl proj w) = inr tt ->
  exists rows post,
    trace (snd (commit env depl proj w)) = (trace w ++ tx_calls depl proj ++ post)%list
    /\ avoids is_tx_event post
    /\ (if (0 <? project.MaxDeploysKept proj)%nat
        then DeleteExceptLastN_rows env (project.ID proj) (project.MaxDeploysKept proj)
               (now env)
               (update_deployment (deployment.ID depl) (deployed_row env depl)
                  (deployments (db w)))
             = inr rows
        else rows = update_deployment (deployment.ID depl) (deployed_row env depl)
                      (deployments (db w)))
    /\ deployments (db (snd (commit env depl proj w))) = rows
    /\ projects (db (snd (commit env depl proj w)))
       = update_project (project.ID proj)
           (project.with_ActiveDeploymentID (Some (deployment.ID depl)))
           (projects (db w))
    /\ tx (snd (commit env depl proj w)) = None.
Proof.
  unfold tx_calls. run_commit.
  destruct (begin_err env) as [f |]; simpl; [discriminate |].
  destruct (UpdateState_err env OnTx StateDeployed) as [f |]; simpl; [discriminate |].
  destruct (update_active_err env) as [f |]; simpl; [discriminate |].
  destruct (0 <? project.MaxDeploysKept proj)%nat; simpl.
  - destruct (DeleteExceptLastN_rows env _ _ _ _) as [f | rows] eqn:Hrows; simpl;
      [discriminate |].
    destruct (commit_err env) as [f |]; simpl; [discriminate |].
    intros _. exists rows.
    destruct (existsb _ _); [destruct (track_err env) |]; simpl;
      (eexists; split; [rewrite <- !app_assoc; simpl; reflexivity |]);
      (split; [unfold avoids; repeat constructor |]); repeat split.
  - destruct (commit_err env) as [f |]; simpl; [discriminate |].
    intros _. eexists.
    destruct (existsb _ _); [destruct (track_err env) |]; simpl;
      (eexists; split; [rewrite <- !app_assoc; simpl; reflexivity |]);
      (split; [unfold avoids; repeat constructor |]); repeat split.
Qed.

(** The calls of the commit: no upload, no publication, no unlock. *)
Lemma commit_calls depl proj w :
  exists evs,
    trace (snd (commit env depl proj w)) = (trace w ++ evs)%list
    /\ avoids is_upload evs
    /\ avoids is_publish evs
    /\ avoids is_unlock evs.
Proof.
  pose proof (@moves_commit env
                (fun e => is_upload e = false /\ is_publish e = false /\ is_unlock e = false)
                depl proj) as H.
  destruct (H (fun e Ht Hu =>
                 match orb_false_elim _ _ Ht with
                 | conj Ha Hb => conj Ha (conj Hb Hu)
                 end) w) as [[evs [Ht Hf]] _].
  exists evs. split; [exact Ht |].
  unfold avoids. repeat split; eapply Forall_impl; try exact Hf; cbv beta; tauto.
Qed.
End Commit.

(** ** Classes of events, compared (continued) *)

Lemma quiet_avoid (c : Event -> bool) evs :
  (forall e, is_quiet e = true -> c e = false) ->
  Forall (fun e => is_quiet e = true) evs -> avoids c evs.
Proof. intros Hc H. unfold avoids. eapply Forall_impl; [exact Hc | exact H]. Qed.

Lemma uploads_avoid (c : Event -> bool) evs :
  (forall e, is_upload e = true -> c e = false) ->
  Forall (fun e => is_upload e = true) evs -> avoids c evs.
Proof. intros Hc H. unfold avoids. eapply Forall_impl; [exact Hc | exact H]. Qed.

Lemma quiet_not_publish e : is_quiet e = true -> is_publish e = false.
Proof. destruct e; intros H; try discriminate H; reflexivity. Qed.

Lemma quiet_not_tx e : is_quiet e = true -> is_tx_event e = false.
Proof. destruct e; intros H; try discriminate H; reflexivity. Qed.

Lemma quiet_not_write e : is_quiet e = true -> is_store_write e = false.
Proof. destruct e; intros H; try discriminate H; reflexivity. Qed.

Lemma upload_not_publish e : is_upload e = true -> is_publish e = false.
Proof. destruct e; intros H; try discriminate H; reflexivity. Qed.

Lemma upload_not_tx e : is_upload e = true -> is_tx_event e = false.
Proof. destruct e; intros H; try discriminate H; reflexivity. Qed.

Lemma upload_not_write e : is_upload e = true -> is_store_write e = false.
Proof. destruct e; intros H; try discriminate H; reflexivity. Qed.

Lemma closing_avoid (c : Event -> bool) closing :
  c EvRemoveTemp = false ->
  closing = [] \/ closing = [EvRemoveTemp] -> avoids c closing.
Proof. intros Hc [-> | ->]; repeat constructor. exact Hc. Qed.

(** ** The runs of [Work] once the lock is held *)

(** The three ways a run goes: it stops before the metadata; it stops in
    the metadata or at the making of the invalidation message; it gets to
    the invalidation, or to the commit when the invalidation is skipped. *)
Lemma Work_cases env data w d depl proj w1 :
  loaded env data w d depl proj ->
  Lock env proj w = (inr true, w1) ->
  exists body tail,
    Forall (fun e => is_log e = true) tail
    /\ trace (snd (Work env data w))
       = (trace w1 ++ body ++ EvUnlock (project.ID proj) :: tail)%list
    /\ deployments (db (snd (Work env data w)))
       = deployments (db (snd (locked env d depl proj w1)))
    /\ projects (db (snd (Work env data w)))
       = projects (db (snd (unlock_logged env proj (snd (locked env d depl proj w1)))))
    /\ fst (Work env data w) = fst (locked env d depl proj w1)
    /\ trace (snd (locked env d depl proj w1)) = (trace w1 ++ body)%list.
Proof.
  intros Hload Hlock. rewrite (Work_locked Hload Hlock), defer_eq. cbn [fst snd].
  pose proof (@moves_locked env (fun _ => True) d depl proj (fun _ _ => I) w1) as Hbody.
  destruct Hbody as [[body [Hb _]] _].
  destruct (unlock_logged_run env proj (snd (locked env d depl proj w1)))
    as [tail [Ht [Hlog [Hd _]]]].
  exists body, tail. split; [exact Hlog |]. split.
  - rewrite Ht, Hb, <- app_assoc. reflexivity.
  - split; [exact Hd |]. split; [reflexivity |]. split; [reflexivity | exact Hb].
Qed.

(** A job that does not skip the invalidation and holds the lock: the
    run stops before the invalidation, or publishes it once. *)
Lemma invalidation_or_stop env data w d depl proj w1 :
  loaded env data w d depl proj ->
  Lock env proj w = (inr true, w1) ->
  messages.SkipInvalidation d = false ->
  exists evs,
    added w1 (snd (Work env data w)) evs
    /\ ((fst (Work env data w) <> inr tt
         /\ avoids is_publish evs
         /\ avoids is_tx_event evs)
        \/ exists pre post doms,
            DomainNames_result env = inr doms
            /\ evs = (pre ++ EvPublish exchanges.Edges exchanges.RouteV1Invalidation doms
                          :: post)%list
            /\ avoids is_publish pre
            /\ avoids is_store_write pre
            /\ avoids is_upload post
            /\ avoids is_publish post
            /\ forall f,
                publish_err env = Some f ->
                fst (Work env data w) = inl (External f)
                /\ avoids is_store_write post
                /\ deployments (db (snd (Work env data w))) = deployments (db w)).
Proof.
  intros Hload Hlock Hskip.
  assert (Hdepl : deployments (db w1) = deployments (db w))
    by (apply Lock_acquired in Hlock; subst w1; reflexivity).
  rewrite (Work_locked Hload Hlock), defer_eq.
  destruct (locked_spine env d depl proj w1)
    as [[Herr [evs_l [Ht [Hp Hx]]]] | [pre [closing [Hpre [Hclosing Heq]]]]].
  - (* stopped in the webroot phase *)
    destruct (unlock_logged_run env proj (snd (locked env d depl proj w1)))
      as [tail [Hu [Hlog _]]].
    exists (evs_l ++ EvUnlock (project.ID proj) :: tail)%list. split.
    + unfold added. cbn [snd]. rewrite Hu, Ht, <- app_assoc. reflexivity.
    + left. cbn [fst]. split; [exact Herr |]. split.
      * unfold avoids. rewrite Forall_app. split; [exact Hp |].
        constructor; [reflexivity |].
        apply (log_events_avoid is_publish log_not_publish Hlog).
      * unfold avoids. rewrite Forall_app. split; [exact Hx |].
        constructor; [reflexivity |].
        apply (log_events_avoid is_tx_event log_not_tx Hlog).
  - rewrite Heq. cbn [fst snd].
    destruct (publish_spine env d depl proj (deployment.PrefixID depl) (after_calls w1 pre))
      as [evs_u [Hup [[Herr Hw] | [doms [Hdoms Hrun]]]]].
    + (* stopped in the metadata *)
      rewrite Hw.
      match goal with
      | |- context [unlock_logged env proj ?wx] =>
          destruct (unlock_logged_run env proj wx) as [tail [Hu [Hlog _]]]
      end.
      exists (pre ++ evs_u ++ closing ++ EvUnlock (project.ID proj) :: tail)%list. split.
      * unfold added. rewrite Hu. simpl. rewrite <- !app_assoc. reflexivity.
      * left. split; [exact Herr |]. split.
        -- unfold avoids. rewrite !Forall_app. repeat split.
           ++ apply (quiet_avoid is_publish quiet_not_publish Hpre).
           ++ apply (uploads_avoid is_publish upload_not_publish Hup).
           ++ apply closing_avoid; [reflexivity | exact Hclosing].
           ++ constructor; [reflexivity |].
              apply (log_events_avoid is_publish log_not_publish Hlog).
        -- unfold avoids. rewrite !Forall_app. repeat split.
           ++ apply (quiet_avoid is_tx_event quiet_not_tx Hpre).
           ++ apply (uploads_avoid is_tx_event upload_not_tx Hup).
           ++ apply closing_avoid; [reflexivity | exact Hclosing].
           ++ constructor; [reflexivity |].
              apply (log_events_avoid is_tx_event log_not_tx Hlog).
    + rewrite Hskip in Hrun.
      assert (Hpre_p : avoids is_publish (pre ++ evs_u)).
      { unfold avoids. rewrite Forall_app. split.
        - apply (quiet_avoid is_publish quiet_not_publish Hpre).
        - apply (uploads_avoid is_publish upload_not_publish Hup). }
      assert (Hpre_w : avoids is_store_write (pre ++ evs_u)).
      { unfold avoids. rewrite Forall_app. split.
        - apply (quiet_avoid is_store_write quiet_not_write Hpre).
        - apply (uploads_avoid is_store_write upload_not_write Hup). }
      destruct (publish_err env) as [f |] eqn:Hpub.
      * (* the publication fails *)
        rewrite Hrun. cbn [fst snd].
        match goal with
        | |- context [unlock_logged env proj ?wx] =>
            destruct (unlock_logged_run env proj wx) as [tail [Hu [Hlog [Hd _]]]]
        end.
        eexists. split.
        -- unfold added. rewrite Hu. simpl. rewrite <- !app_assoc. simpl. reflexivity.
        -- right. exists (pre ++ evs_u)%list,
             (closing ++ EvUnlock (project.ID proj) :: tail)%list, doms.
           split; [exact Hdoms |].
           split; [rewrite <- !app_assoc; reflexivity |].
           split; [exact Hpre_p |]. split; [exact Hpre_w |].
           split; [| split].
           ++ unfold avoids. rewrite Forall_app. split.
              ** apply closing_avoid; [reflexivity | exact Hclosing].
              ** constructor; [reflexivity |].
                 apply (log_events_avoid is_upload log_not_upload Hlog).
           ++ unfold avoids. rewrite Forall_app. split.
              ** apply closing_avoid; [reflexivity | exact Hclosing].
              ** constructor; [reflexivity |].
                 apply (log_events_avoid is_publish log_not_publish Hlog).
           ++ intros f0 Hf0. injection Hf0 as <-.
              split; [reflexivity |]. split.
              ** unfold avoids. rewrite Forall_app. split.
                 --- apply closing_avoid; [reflexivity | exact Hclosing].
                 --- constructor; [reflexivity |].
                     apply (log_events_avoid is_store_write log_not_write Hlog).
              ** rewrite Hd. simpl. exact Hdepl.
      * (* the publication succeeds, the commit follows *)
        rewrite Hrun.
        destruct (commit_calls env depl proj
                    (after_calls (after_calls w1 pre)
                       (evs_u ++ [EvPublish exchanges.Edges
                                    exchanges.RouteV1Invalidation doms])))
          as [evs_c [Hc [Hc_up [Hc_pub _]]]].
        match goal with
        | |- context [unlock_logged env proj ?wx] =>
            destruct (unlock_logged_run env proj wx) as [tail [Hu [Hlog _]]]
        end.
        eexists. split.
        -- unfold added. rewrite Hu. unfold after_calls at 1. cbn [trace].
           rewrite Hc. simpl. rewrite <- !app_assoc. simpl. reflexivity.
        -- right. exists (pre ++ evs_u)%list,
             (evs_c ++ closing ++ EvUnlock (project.ID proj) :: tail)%list, doms.
           split; [exact Hdoms |].
           split; [rewrite <- !app_assoc; reflexivity |].
           split; [exact Hpre_p |]. split; [exact Hpre_w |].
           split; [| split].
           ++ unfold avoids. rewrite !Forall_app. repeat split.
              ** exact Hc_up.
              ** apply closing_avoid; [reflexivity | exact Hclosing].
              ** constructor; [reflexivity |].
                 apply (log_events_avoid is_upload log_not_upload Hlog).
           ++ unfold avoids. rewrite !Forall_app. repeat split.
              ** exact Hc_pub.
              ** apply closing_avoid; [reflexivity | exact Hclosing].
              ** constructor; [reflexivity |].
                 apply (log_events_avoid is_publish log_not_publish Hlog).
           ++ intros f Hf. discriminate Hf.
Qed.

(** C5 (amended).  For a job that does not skip the invalidation and
    holds the lock, either [Work] returns an error before it gets to the
    invalidation, having published nothing and opened no transaction, or
    it publishes one message, to the exchange [edges] with the routing
    key [v1.invalidation], carrying the project's domain names: no
    publication and no write to the store comes before it, no upload and
    no publication comes after it.  A run that returns [nil] is of the
    second kind.  If the publication fails, [Work] returns its error,
    writes nothing to the store afterwards, and the deployments are what
    they were. *)
Theorem C5_invalidation env data w d depl proj w1 :
  loaded env data w d depl proj ->
  Lock env proj w = (inr true, w1) ->
  messages.SkipInvalidation d = false ->
  exists evs,
    added w1 (snd (Work env data w)) evs
    /\ ((fst (Work env data w) <> inr tt
         /\ avoids is_publish evs
         /\ avoids is_tx_event evs)
        \/ exists pre post doms,
            DomainNames_result env = inr doms
            /\ evs = (pre ++ EvPublish exchanges.Edges exchanges.RouteV1Invalidation doms
                          :: post)%list
            /\ avoids is_publish pre
            /\ avoids is_store_write pre
            /\ avoids is_upload post
            /\ avoids is_publish post
            /\ forall f,
                publish_err env = Some f ->
                fst (Work env data w) = inl (External f)
                /\ avoids is_store_write post
                /\ deployments (db (snd (Work env data w))) = deployments (db w))
    /\ (fst (Work env data w) = inr tt ->
        exists doms,
          DomainNames_result env = inr doms
          /\ filter is_publish evs
             = [EvPublish exchanges.Edges exchanges.RouteV1Invalidation doms]).
Proof.
  intros Hload Hlock Hskip.
  destruct (invalidation_or_stop Hload Hlock Hskip) as [evs [Hadd Hcases]].
  exists evs. split; [exact Hadd |]. split; [exact Hcases |].
  intros Hnil.
  destruct Hcases as [[Herr _] | [pre [post [doms [Hdoms [Hevs [Hp [_ [_ [Hq _]]]]]]]]]];
    [exfalso; exact (Herr Hnil) |].
  exists doms. split; [exact Hdoms |].
  assert (Hnone : forall l, avoids is_publish l -> filter is_publish l = []).
  { unfold avoids. induction 1 as [| e l He _ IH]; simpl; [reflexivity |].
    rewrite He. exact IH. }
  rewrite Hevs, filter_app. cbn [filter is_publish].
  rewrite (Hnone pre Hp), (Hnone post Hq). reflexivity.
Qed.

(** C5 (amended) at the happy path: the message is published once, after
    the uploads and before the transaction. *)
Lemma C5_witness :
  exists pre post,
    skipn 1 (trace (snd (Work (Fixture.healthy (Fixture.the_job false false) Fixture.site)
                           Fixture.payload (Cases.pending false))))
    = (pre ++ EvPublish "edges" "v1.invalidation" ["foo-bar-express.rise.cloud"]
           :: post)%list
    /\ avoids is_publish pre
    /\ avoids is_store_write pre
    /\ avoids is_upload post
    /\ avoids is_publish post.
Proof.
  destruct (@C5_invalidation
              (Fixture.healthy (Fixture.the_job false false) Fixture.site)
              Fixture.payload (Cases.pending false)
              (Fixture.the_job false false)
              (Fixture.the_deployment StatePendingDeploy "{}")
              (Fixture.the_project false false 1)
              (snd (Lock (Fixture.healthy (Fixture.the_job false false) Fixture.site)
                      (Fixture.the_project false false 1) (Cases.pending false))))
    as [evs [Hadd [[[Herr _] | [pre [post [doms [Hdoms [Hevs [Hp [Hw [Hu [Hq _]]]]]]]]]] _]]].
  - repeat split.
  - reflexivity.
  - reflexivity.
  - exfalso. apply Herr. reflexivity.
  - injection Hdoms as <-. unfold added in Hadd. rewrite Hadd.
    exists pre, post. split; [exact Hevs |].
    split; [exact Hp |]. split; [exact Hw |]. split; [exact Hu | exact Hq].
Defined.

(** The claim as first stated fails: a job that does not skip the
    invalidation holds the lock, its [js_env_vars] holds a number, and
    [Work] returns the error of the decoding without having published
    anything. *)
Lemma C5_counterexample :
  messages.SkipInvalidation (Fixture.the_job false false) = false
  /\ fst (Lock (Fixture.healthy (Fixture.the_job false false) Fixture.site)
            (Fixture.the_project false false 1) Cases.numeric_env_var) = inr true
  /\ fst (Work (Fixture.healthy (Fixture.the_job false false) Fixture.site)
            Fixture.payload Cases.numeric_env_var)
     = inl (UnmarshalTypeError "number")
  /\ filter is_publish
       (trace (snd (Work (Fixture.healthy (Fixture.the_job false false) Fixture.site)
                      Fixture.payload Cases.numeric_env_var))) = [].
Proof. repeat split. Qed.

(** ** From [Work] to the commit *)

Lemma avoids_not_in (c : Event -> bool) evs e :
  avoids c evs -> c e = true -> ~ In e evs.
Proof.
  intros Ha Hc Hin. unfold avoids in Ha. rewrite Forall_forall in Ha.
  rewrite (Ha e Hin) in Hc. discriminate Hc.
Qed.

Lemma unlock_logged_projects env proj w :
  projects (db (snd (unlock_logged env proj w))) = projects (db w)
  \/ projects (db (snd (unlock_logged env proj w)))
     = update_project (project.ID proj) (project.with_Locked false) (projects (db w)).
Proof.
  unfold unlock_logged, catch, Unlock, bind, emit, check, write, get_db, put_db, log, emit.
  simpl. destruct (unlock_err env); simpl; [left | right]; reflexivity.
Qed.

(** Either the run never gets to the commit (it returns an error and
    calls nothing of a transaction), or it is the run of the commit, after
    calls that are not of a transaction and before the deferred calls. *)
Lemma Work_commit_or_not env data w d depl proj w1 :
  loaded env data w d depl proj ->
  Lock env proj w = (inr true, w1) ->
  (fst (Work env data w) <> inr tt
   /\ exists evs, added w1 (snd (Work env data w)) evs /\ avoids is_tx_event evs)
  \/ exists pre closing tail,
      avoids is_tx_event pre
      /\ avoids is_tx_event (closing ++ EvUnlock (project.ID proj) :: tail)
      /\ fst (Work env data w) = fst (commit env depl proj (after_calls w1 pre))
      /\ trace (snd (Work env data w))
         = (trace (snd (commit env depl proj (after_calls w1 pre)))
            ++ closing ++ EvUnlock (project.ID proj) :: tail)%list
      /\ deployments (db (snd (Work env data w)))
         = deployments (db (snd (commit env depl proj (after_calls w1 pre))))
      /\ (projects (db (snd (Work env data w)))
          = projects (db (snd (commit env depl proj (after_calls w1 pre))))
          \/ projects (db (snd (Work env data w)))
             = update_project (project.ID proj) (project.with_Locked false)
                 (projects (db (snd (commit env depl proj (after_calls w1 pre)))))).
Proof.
  intros Hload Hlock.
  rewrite (Work_locked Hload Hlock), defer_eq.
  destruct (locked_spine env d depl proj w1)
    as [[Herr [evs_l [Ht [Hp Hx]]]] | [pre [closing [Hpre [Hclosing Heq]]]]].
  - left. cbn [fst snd]. split; [exact Herr |].
    destruct (unlock_logged_run env proj (snd (locked env d depl proj w1)))
      as [tail [Hu [Hlog _]]].
    exists (evs_l ++ EvUnlock (project.ID proj) :: tail)%list. split.
    + unfold added. rewrite Hu, Ht, <- app_assoc. reflexivity.
    + unfold avoids. rewrite Forall_app. split; [exact Hx |].
      constructor; [reflexivity |].
      apply (log_events_avoid is_tx_event log_not_tx Hlog).
  - rewrite Heq. cbn [fst snd].
    assert (Hreach : forall extra,
               avoids is_tx_event extra ->
               publish env d depl proj (deployment.PrefixID depl) (after_calls w1 pre)
               = commit env depl proj (after_calls w1 (pre ++ extra)) ->
               exists pre0 closing0 tail,
                 avoids is_tx_event pre0
                 /\ avoids is_tx_event (closing0 ++ EvUnlock (project.ID proj) :: tail)
                 /\ fst (publish env d depl proj (deployment.PrefixID depl)
                           (after_calls w1 pre))
                    = fst (commit env depl proj (after_calls w1 pre0))
                 /\ trace (snd (unlock_logged env proj
                                  (after_calls
                                     (snd (publish env d depl proj (deployment.PrefixID depl)
                                             (after_calls w1 pre))) closing)))
                    = (trace (snd (commit env depl proj (after_calls w1 pre0)))
                       ++ closing0 ++ EvUnlock (project.ID proj) :: tail)%list
                 /\ deployments (db (snd (unlock_logged env proj
                                            (after_calls
                                               (snd (publish env d depl proj
                                                       (deployment.PrefixID depl)
                                                       (after_calls w1 pre))) closing))))
                    = deployments (db (snd (commit env depl proj (after_calls w1 pre0))))
                 /\ (projects (db (snd (unlock_logged env proj
                                          (after_calls
                                             (snd (publish env d depl proj
                                                     (deployment.PrefixID depl)
                                                     (after_calls w1 pre))) closing))))
                     = projects (db (snd (commit env depl proj (after_calls w1 pre0))))
                     \/ projects (db (snd (unlock_logged env proj
                                             (after_calls
                                                (snd (publish env d depl proj
                                                        (deployment.PrefixID depl)
                                                        (after_calls w1 pre))) closing))))
                        = update_project (project.ID proj) (project.with_Locked false)
                            (projects (db (snd (commit env depl proj
                                                  (after_calls w1 pre0))))))).
    { intros extra Hextra Hrun. rewrite Hrun.
      match goal with
      | |- context [unlock_logged env proj ?wx] =>
          destruct (unlock_logged_run env proj wx) as [tail [Hu [Hlog [Hd _]]]];
          pose proof (unlock_logged_projects env proj wx) as Hprojects
      end.
      exists (pre ++ extra)%list, closing, tail.
      split; [| split; [| split; [reflexivity | split; [| split]]]].
      - unfold avoids. rewrite Forall_app. split; [| exact Hextra].
        apply (quiet_avoid is_tx_event quiet_not_tx Hpre).
      - unfold avoids. rewrite Forall_app. split.
        + apply closing_avoid; [reflexivity | exact Hclosing].
        + constructor; [reflexivity |].
          apply (log_events_avoid is_tx_event log_not_tx Hlog).
      - rewrite Hu. simpl. rewrite <- !app_assoc. reflexivity.
      - rewrite Hd. reflexivity.
      - exact Hprojects. }
    destruct (publish_spine env d depl proj (deployment.PrefixID depl) (after_calls w1 pre))
      as [evs_u [Hup [[Herr Hw] | [doms [Hdoms Hrun]]]]].
    + left. split; [exact Herr |]. rewrite Hw.
      match goal with
      | |- context [unlock_logged env proj ?wx] =>
          destruct (unlock_logged_run env proj wx) as [tail [Hu [Hlog _]]]
      end.
      exists (pre ++ evs_u ++ closing ++ EvUnlock (project.ID proj) :: tail)%list. split.
      * unfold added. rewrite Hu. simpl. rewrite <- !app_assoc. reflexivity.
      * unfold avoids. rewrite !Forall_app. repeat split.
        -- apply (quiet_avoid is_tx_event quiet_not_tx Hpre).
        -- apply (uploads_avoid is_tx_event upload_not_tx Hup).
        -- apply closing_avoid; [reflexivity | exact Hclosing].
        -- constructor; [reflexivity |].
           apply (log_events_avoid is_tx_event log_not_tx Hlog).
    + destruct (messages.SkipInvalidation d).
      * right. apply (Hreach evs_u).
        -- apply (uploads_avoid is_tx_event upload_not_tx Hup).
        -- rewrite Hrun, after_calls_app. reflexivity.
      * destruct (publish_err env) as [f |].
        -- left. rewrite Hrun. cbn [fst snd]. split; [discriminate |].
           match goal with
           | |- context [unlock_logged env proj ?wx] =>
               destruct (unlock_logged_run env proj wx) as [tail [Hu [Hlog _]]]
           end.
           eexists. split.
           ++ unfold added. rewrite Hu. simpl. rewrite <- !app_assoc. simpl. reflexivity.
           ++ unfold avoids. rewrite !Forall_app. repeat split.
              ** apply (quiet_avoid is_tx_event quiet_not_tx Hpre).
              ** apply (uploads_avoid is_tx_event upload_not_tx Hup).
              ** change (avoids is_tx_event
                           ([EvPublish exchanges.Edges exchanges.RouteV1Invalidation doms]
                            ++ closing ++ EvUnlock (project.ID proj) :: tail)).
                 unfold avoids. rewrite !Forall_app. repeat split.
                 --- repeat constructor.
                 --- apply closing_avoid; [reflexivity | exact Hclosing].
                 --- constructor; [reflexivity |].
                     apply (log_events_avoid is_tx_event log_not_tx Hlog).
        -- right.
           apply (Hreach (evs_u ++ [EvPublish exchanges.Edges
                                      exchanges.RouteV1Invalidation doms])%list).
           ++ unfold avoids. rewrite Forall_app. split; [| repeat constructor].
              apply (uploads_avoid is_tx_event upload_not_tx Hup).
           ++ rewrite Hrun, after_calls_app. reflexivity.
Qed.

Lemma active_after_lock b (p : project.Project) :
  project.ActiveDeploymentID (project.with_Locked b p) = project.ActiveDeploymentID p.
Proof. reflexivity. Qed.

Lemma project_of_load env data w d depl proj :
  loaded env data w d depl proj ->
  deployment.ID depl = messages.DeploymentID d
  /\ find_deployment (deployment.ID depl) (deployments (db w)) = Some depl
  /\ find_project (project.ID proj) (projects (db w)) = Some proj.
Proof.
  intros [_ [_ [Hd Hp]]].
  destruct (find_deployment_some _ _ Hd) as [Hid _].
  pose proof (find_project_some _ _ Hp) as Hpid.
  rewrite Hid, Hpid. repeat split; assumption.
Qed.

(** C1.  When [Work] returns [nil], the calls it made after the lock
    contain one transaction: [Begin], the transition of the deployment to
    [deployed], the update of the project's [active_deployment_id], the
    soft deletion when [max_deploys_kept > 0], [Commit], in that order,
    and no other call of a transaction before or after.  The stored
    deployments are those of the transaction: the deployment is in state
    [deployed] with [deployed_at] set, older rows removed by
    [DeleteExceptLastN] when it applies, and the project's
    [active_deployment_id] is the deployment's id.  When [Work] returns an
    error after the transaction was opened, the transaction is rolled
    back: the deployments are what they were and the project's
    [active_deployment_id] is what it was. *)
Theorem C1_commit_transaction env data w d depl proj w1 :
  loaded env data w d depl proj ->
  Lock env proj w = (inr true, w1) ->
  (fst (Work env data w) = inr tt ->
   exists pre post rows,
     added w1 (snd (Work env data w)) (pre ++ tx_calls depl proj ++ post)
     /\ avoids is_tx_event pre
     /\ avoids is_tx_event post
     /\ (if (0 <? project.MaxDeploysKept proj)%nat
         then DeleteExceptLastN_rows env (project.ID proj) (project.MaxDeploysKept proj)
                (now env)
                (update_deployment (deployment.ID depl) (deployed_row env depl)
                   (deployments (db w)))
              = inr rows
         else rows = update_deployment (deployment.ID depl) (deployed_row env depl)
                       (deployments (db w)))
     /\ deployments (db (snd (Work env data w))) = rows
     /\ (exists row,
            find_deployment (deployment.ID depl)
              (update_deployment (deployment.ID depl) (deployed_row env depl)
                 (deployments (db w))) = Some row
            /\ deployment.State_ row = StateDeployed
            /\ deployment.DeployedAt row = Some (now env))
     /\ exists prow,
         find_project (project.ID proj) (projects (db (snd (Work env data w)))) = Some prow
         /\ project.ActiveDeploymentID prow = Some (deployment.ID depl))
  /\ (forall e evs,
         fst (Work env data w) = inl e ->
         added w1 (snd (Work env data w)) evs ->
         In EvBegin evs ->
         begin_err env = None ->
         In EvRollback evs
         /\ deployments (db (snd (Work env data w))) = deployments (db w)
         /\ forall prow,
             find_project (project.ID proj) (projects (db (snd (Work env data w)))) = Some prow ->
             project.ActiveDeploymentID prow = project.ActiveDeploymentID proj).
Proof.
  intros Hload Hlock.
  destruct (project_of_load Hload) as [Hid [Hfind Hproj]].
  pose proof (Lock_acquired _ _ _ Hlock) as Hw1.
  assert (Hdepl : deployments (db w1) = deployments (db w)) by (subst w1; reflexivity).
  assert (Hprojects : projects (db w1)
                      = update_project (project.ID proj) (project.with_Locked true)
                          (projects (db w))) by (subst w1; reflexivity).
  destruct (Work_commit_or_not Hload Hlock)
    as [[Herr [evs0 [Hadd0 Hav0]]]
       | [pre [closing [tail [Hpre [Hpost [Hfst [Htrace [Hrows Hprows]]]]]]]]].
  - split.
    + intros Hok. destruct (Herr Hok).
    + intros e evs _ Hadd Hin _. exfalso.
      unfold added in *. rewrite Hadd0 in Hadd. apply app_inv_head in Hadd. subst evs0.
      exact (@avoids_not_in is_tx_event _ EvBegin Hav0 eq_refl Hin).
  - split.
    + intros Hok. rewrite Hfst in Hok.
      destruct (commit_success env depl proj (after_calls w1 pre) Hok)
        as [rows [post [Ht [Hpc [Hcond [Hdb [Hpr _]]]]]]].
      exists pre, (post ++ closing ++ EvUnlock (project.ID proj) :: tail)%list, rows.
      split; [| split; [exact Hpre | split; [| split; [| split; [| split]]]]].
      * unfold added. rewrite Htrace, Ht. cbn [trace after_calls].
        rewrite <- !app_assoc. reflexivity.
      * unfold avoids. rewrite Forall_app. split; [exact Hpc | exact Hpost].
      * simpl in Hcond. rewrite Hdepl in Hcond. exact Hcond.
      * rewrite Hrows. exact Hdb.
      * exists (deployed_row env depl depl). split; [| split; reflexivity].
        apply find_deployment_update; try reflexivity. exact Hfind.
      * simpl in Hpr. rewrite Hprojects in Hpr.
        assert (Hcommitted :
                  find_project (project.ID proj)
                    (projects (db (snd (commit env depl proj (after_calls w1 pre)))))
                  = Some (project.with_ActiveDeploymentID (Some (deployment.ID depl))
                            (project.with_Locked true proj))).
        { rewrite Hpr.
          apply find_project_update; [reflexivity |].
          apply find_project_update; [reflexivity | exact Hproj]. }
        destruct Hprows as [Hsame | Hunlocked].
        -- eexists. rewrite Hsame. split; [exact Hcommitted | reflexivity].
        -- eexists. rewrite Hunlocked. split.
           ++ apply find_project_update; [reflexivity | exact Hcommitted].
           ++ reflexivity.
    + intros e evs Hfail Hadd _ Hbegin. rewrite Hfst in Hfail.
      destruct (commit_failure env depl proj (after_calls w1 pre) Hfail) as [Hdb Hopen].
      destruct (Hopen Hbegin) as [_ [evs_c Ht]].
      split; [| split].
      * unfold added in Hadd. rewrite Htrace, Ht in Hadd. simpl in Hadd.
        rewrite <- !app_assoc in Hadd. apply app_inv_head in Hadd. subst evs.
        apply in_or_app. right. simpl. right.
        apply in_or_app. left. apply in_or_app. right. left. reflexivity.
      * rewrite Hrows, Hdb. simpl. exact Hdepl.
      * intros prow Hprow.
        assert (Hlocked :
                  find_project (project.ID proj)
                    (projects (db (snd (commit env depl proj (after_calls w1 pre)))))
                  = Some (project.with_Locked true proj)).
        { rewrite Hdb. simpl. rewrite Hprojects.
          apply find_project_update; [reflexivity | exact Hproj]. }
        destruct Hprows as [Hsame | Hunlocked].
        -- rewrite Hsame, Hlocked in Hprow. injection Hprow as <-. reflexivity.
        -- rewrite Hunlocked in Hprow.
           assert (Hfound :
                     find_project (project.ID proj)
                       (update_project (project.ID proj) (project.with_Locked false)
                          (projects (db (snd (commit env depl proj (after_calls w1 pre))))))
                     = Some (project.with_Locked false (project.with_Locked true proj)))
             by (apply find_project_update; [reflexivity | exact Hlocked]).
           rewrite Hfound in Hprow. injection Hprow as <-. reflexivity.
Qed.

(** C1 at the happy path: the project's active deployment is deployment 7. *)
Lemma C1_witness :
  exists prow,
    find_project 1
      (projects (db (snd (Work (Fixture.healthy (Fixture.the_job false false) Fixture.site)
                            Fixture.payload (Cases.pending false))))) = Some prow
    /\ project.ActiveDeploymentID prow = Some 7.
Proof.
  destruct (@C1_commit_transaction
              (Fixture.healthy (Fixture.the_job false false) Fixture.site)
              Fixture.payload (Cases.pending false)
              (Fixture.the_job false false)
              (Fixture.the_deployment StatePendingDeploy "{}")
              (Fixture.the_project false false 1)
              (snd (Lock (Fixture.healthy (Fixture.the_job false false) Fixture.site)
                      (Fixture.the_project false false 1) (Cases.pending false))))
    as [Hok _].
  - repeat split.
  - reflexivity.
  - destruct (Hok eq_refl) as [pre [post [rows [_ [_ [_ [_ [_ [_ Hp]]]]]]]]].
    exact Hp.
Defined.

(** * More of [deployer.go] *)

(** ** File names and content types *)

Lemma Split_cons (sep : ascii) (s : string) :
  exists piece pieces, GoString.Split sep s = piece :: pieces.
Proof.
  destruct s as [| c rest]; simpl.
  - eexists; eexists; reflexivity.
  - destruct (Ascii.eqb c sep); [eexists; eexists; reflexivity |].
    destruct (GoString.Split sep rest); eexists; eexists; reflexivity.
Qed.

(** X1.  A file name passes the filter of lines 183-190 exactly when each
    of its bytes is in the class [0-9A-Za-z,!_'().*-] or is the
    separator [/]: cutting the name into path elements changes nothing
    to the test, and empty path elements are accepted. *)
Theorem isValidFileName_bytes (fileName : string) :
  deployer.isValidFileName fileName
  = forallb safe_or_slash (list_ascii_of_string fileName).
Proof.
  unfold deployer.isValidFileName.
  induction fileName as [| c rest IH]; [reflexivity |].
  simpl. unfold safe_or_slash at 1.
  destruct (Ascii.eqb c "/") eqn:Hc.
  - simpl. rewrite IH, orb_true_r. reflexivity.
  - rewrite orb_false_r.
    destruct (Split_cons "/" rest) as [piece [pieces Hs]].
    rewrite Hs in *. simpl in *. rewrite <- IH.
    unfold deployer.MatchString. simpl.
    destruct (deployer.key_safe c); reflexivity.
Qed.

(** X2.  The content type of an entry (lines 197-200) is the part of
    the registered type that precedes its first [;]: what is cut off is
    empty or begins with [;], and no [;] is left in the content type. *)
Theorem content_type_without_parameters (env : Env) (fileName : string) :
  exists parameters,
    mime_TypeByExtension env (GoPath.Ext fileName)
    = content_type_of env fileName ++ parameters
    /\ (parameters = "" \/ exists p, parameters = String ";" p)
    /\ ~ In ";"%char (list_ascii_of_string (content_type_of env fileName)).
Proof.
  unfold content_type_of.
  induction (mime_TypeByExtension env (GoPath.Ext fileName)) as [| c s IH]; simpl.
  - exists "". repeat split; [left; reflexivity | intros []].
  - destruct (Ascii.eqb c ";") eqn:Hc.
    + apply Ascii.eqb_eq in Hc. subst c.
      exists (String ";" s). repeat split; [right; eexists; reflexivity | intros []].
    + destruct IH as [parameters [Heq [Hpar Hno]]].
      exists parameters. split; [simpl; rewrite <- Heq; reflexivity |].
      split; [exact Hpar |].
      simpl. intros [Hin | Hin]; [| exact (Hno Hin)].
      subst c. rewrite Ascii.eqb_refl in Hc. discriminate Hc.
Qed.

(** ** The metadata of the domains *)

Lemma upload_meta_cons env metaJson domain rest w :
  upload_meta env metaJson (domain :: rest) w
  = match S3_Upload_err env (meta_key domain) with
    | Some f => (inl (External f), after_calls w [meta_upload metaJson domain])
    | None => upload_meta env metaJson rest (after_calls w [meta_upload metaJson domain])
    end.
Proof.
  simpl. unfold S3_Upload, bind, emit, check, meta_key. simpl.
  destruct (S3_Upload_err env _); reflexivity.
Qed.

(** X3.  The loop of lines 282-287 uploads the same document once per
    domain, in the order of the domain names, to
    [domains/<domain>/meta.json] with content type [application/json]
    and ACL [public-read].  It stops at the first upload that fails and
    returns its error: the domains after that one get no metadata. *)
Theorem meta_uploads_in_order (env : Env) (metaJson : string) :
  (forall doms w,
      (forall d, In d doms -> S3_Upload_err env (meta_key d) = None) ->
      upload_meta env metaJson doms w
      = (inr tt, after_calls w (map (meta_upload metaJson) doms)))
  /\ (forall before dom after f w,
         (forall d, In d before -> S3_Upload_err env (meta_key d) = None) ->
         S3_Upload_err env (meta_key dom) = Some f ->
         upload_meta env metaJson (before ++ dom :: after) w
         = (inl (External f),
            after_calls w (map (meta_upload metaJson) (before ++ [dom])))).
Proof.
  split.
  - induction doms as [| d rest IH]; intros w Hok.
    + simpl. rewrite after_calls_nil. reflexivity.
    + rewrite upload_meta_cons, (Hok d (or_introl eq_refl)).
      rewrite IH by (intros d' Hd'; apply Hok; right; exact Hd').
      rewrite after_calls_app. reflexivity.
  - induction before as [| d rest IH]; intros dom after f w Hok Hfail.
    + simpl app. rewrite upload_meta_cons, Hfail. reflexivity.
    + simpl app. rewrite upload_meta_cons, (Hok d (or_introl eq_refl)).
      rewrite (IH dom after f) by
        (first [exact Hfail | intros d' Hd'; apply Hok; right; exact Hd']).
      rewrite after_calls_app. reflexivity.
Qed.

(** The metadata loop where the object store refuses the second domain. *)
Lemma meta_uploads_in_order_witness :
  upload_meta MoreCases.second_domain_refused "{}" ["a.example"; "b.example"; "c.example"] blank
  = (inl (External (Failure "s3: access denied")),
     after_calls blank [meta_upload "{}" "a.example"; meta_upload "{}" "b.example"]).
Proof.
  apply (proj2 (meta_uploads_in_order MoreCases.second_domain_refused "{}")
           ["a.example"] "b.example" ["c.example"] (Failure "s3: access denied") blank).
  - intros d [<- | []]. reflexivity.
  - reflexivity.
Defined.

(** ** The upload goroutine *)



(** ** Before the lock *)

(** X5.  [Work] touches nothing before it has decoded the job, got the
    connection and loaded the deployment and its project (lines 76-94):
    when one of these fails it returns the error of that step, the
    first in this order, having called no collaborator and changed
    nothing in the store; a deployment or a project that is not found
    gives the store's record-not-found error. *)
Theorem Work_needs_its_inputs (env : Env) (data : string) (w : World) :
  (forall d depl proj, ~ loaded env data w d depl proj) ->
  snd (Work env data w) = w
  /\ fst (Work env data w)
     = match json_Unmarshal_job env data with
       | inl f => inl (External f)
       | inr d =>
           match dbconn_err env with
           | Some f => inl (External f)
           | None => inl ErrRecordNotFound
           end
       end.
Proof.
  intros Hnot. unfold Work, bind, call, check, First_deployment, First_project, get_db, bind.
  destruct (json_Unmarshal_job env data) as [f | d] eqn:Hjob; simpl; [split; reflexivity |].
  destruct (dbconn_err env) as [f |] eqn:Hconn; simpl; [split; reflexivity |].
  destruct (find_deployment (messages.DeploymentID d) (deployments (db w)))
    as [depl |] eqn:Hdepl; simpl; [| split; reflexivity].
  destruct (find_project (deployment.ProjectID depl) (projects (db w)))
    as [proj |] eqn:Hproj; simpl; [| split; reflexivity].
  exfalso. apply (Hnot d depl proj). repeat split; assumption.
Qed.

(** A job for deployment 7 when the store has no deployment. *)
Lemma Work_needs_its_inputs_witness :
  Work (Fixture.healthy (Fixture.the_job false false) Fixture.site) Fixture.payload blank
  = (inl ErrRecordNotFound, blank).
Proof.
  destruct (@Work_needs_its_inputs
              (Fixture.healthy (Fixture.the_job false false) Fixture.site)
              Fixture.payload blank) as [Hw He].
  - intros d depl proj [_ [_ [Hd _]]]. simpl in Hd. discriminate Hd.
  - rewrite (surjective_pairing
               (Work (Fixture.healthy (Fixture.the_job false false) Fixture.site)
                  Fixture.payload blank)).
    rewrite Hw, He. reflexivity.
Defined.

(** X6.  When the attempt at the lock itself fails (lines 96-99), [Work]
    returns that error: the attempt is the only call it has made, the
    store is what it was, and [Unlock] is not called. *)
Theorem Work_lock_error (env : Env) (data : string) (w : World)
    (d : messages.DeployJobData) (depl : deployment.Deployment) (proj : project.Project)
    (f : failure) :
  loaded env data w d depl proj ->
  lock_err env = Some f ->
  Work env data w = (inl (External f), after_calls w [EvLock (project.ID proj)]).
Proof.
  intros Hload Hlock. rewrite (Work_after_load Hload).
  unfold bind at 1. unfold Lock, bind, emit, check. simpl. rewrite Hlock. reflexivity.
Qed.

(** The store fails when the lock is asked for. *)
Lemma Work_lock_error_witness :
  Work MoreCases.lock_fails Fixture.payload (Cases.pending false)
  = (inl (External (Failure "pq: connection refused")),
     after_calls (Cases.pending false) [EvLock 1]).
Proof.
  apply (@Work_lock_error MoreCases.lock_fails Fixture.payload (Cases.pending false)
           (Fixture.the_job false false)
           (Fixture.the_deployment StatePendingDeploy "{}")
           (Fixture.the_project false false 1)).
  - repeat split.
  - reflexivity.
Defined.

(** ** The commit and the analytics event *)

(** X7.  The block of lines 302-350 returns [nil] exactly when the
    transaction could be opened, the three writes (the two updates, and
    the soft deletion when [max_deploys_kept > 0]) and the commit
    succeeded: neither a missing user nor a failure of the analytics
    call makes it return an error. *)
Theorem commit_nil_iff (env : Env) (depl : deployment.Deployment) (proj : project.Project)
    (w : World) :
  fst (commit env depl proj w) = inr tt
  <-> begin_err env = None
      /\ UpdateState_err env OnTx StateDeployed = None
      /\ update_active_err env = None
      /\ ((0 < project.MaxDeploysKept proj)%nat ->
          exists rows,
            DeleteExceptLastN_rows env (project.ID proj) (project.MaxDeploysKept proj)
              (now env)
              (update_deployment (deployment.ID depl) (deployed_row env depl)
                 (deployments (db w)))
            = inr rows)
      /\ commit_err env = None.
Proof.
  unfold commit, defer, Begin, Rollback, UpdateState, UpdateActive, DeleteExceptLastN,
    Commit, track, write, bind, emit, check, call, get_db, get_tx, put_db, put_tx,
    ret, fail, log, emit, deployed_row.
  simpl.
  destruct (begin_err env) as [f |]; simpl.
  { split; [discriminate | intros [H _]; discriminate H]. }
  destruct (UpdateState_err env OnTx StateDeployed) as [f |]; simpl.
  { split; [discriminate | intros [_ [H _]]; discriminate H]. }
  destruct (update_active_err env) as [f |]; simpl.
  { split; [discriminate | intros [_ [_ [H _]]]; discriminate H]. }
  destruct (0 <? project.MaxDeploysKept proj)%nat eqn:Hmax; simpl.
  - apply Nat.ltb_lt in Hmax.
    destruct (DeleteExceptLastN_rows env _ _ _ _) as [f | rows] eqn:Hrows; simpl.
    { split; [discriminate |]. intros [_ [_ [_ [H _]]]].
      destruct (H Hmax) as [rows Hr]. discriminate Hr. }
    destruct (commit_err env) as [f |]; simpl.
    { split; [discriminate | intros [_ [_ [_ [_ H]]]]; discriminate H]. }
    split; [| destruct (existsb _ _); [destruct (track_err env) |]; reflexivity].
    intros _. repeat split. intros _. exists rows. reflexivity.
  - apply Nat.ltb_ge in Hmax.
    destruct (commit_err env) as [f |]; simpl.
    { split; [discriminate | intros [_ [_ [_ [_ H]]]]; discriminate H]. }
    split; [| destruct (existsb _ _); [destruct (track_err env) |]; reflexivity].
    intros _. repeat split. intros Hlt. lia.
Qed.

(** ** After the bundle is fetched *)

Section Late.
Variable env : Env.
Variable P : Event -> Prop.
Hypothesis HP : forall e, is_late e = true -> P e.

Lemma late_of_loop e : is_loop_event e = true -> P e.
Proof. intros H. apply HP. destruct e; try discriminate H; reflexivity. Qed.

Lemma late_of_upload e : is_upload e = true -> P e.
Proof. intros H. apply HP. destruct e; try discriminate H; reflexivity. Qed.

Lemma moves_publish_late d depl proj prefixID :
  moves (steps P K_top) (publish env d depl proj prefixID).
Proof.
  unfold publish, Publish, commit, Begin, Rollback, UpdateState, UpdateActive,
    DeleteExceptLastN, Commit, track.
  repeat moves_step.
  apply moves_upload_meta; [side | side | exact late_of_upload].
Qed.

Lemma moves_after_fetch d depl proj prefixID webroot tr :
  moves (steps P K_top)
    (bind (select_upload env proj webroot tr)
       (after_select env depl prefixID webroot (publish env d depl proj prefixID))).
Proof.
  apply moves_bind; [apply steps_trans; side | | intros sel].
  - apply moves_select_upload; [side | side | exact late_of_loop].
  - unfold after_select, S3_Upload, UpdateState.
    repeat moves_step. apply moves_publish_late.
Qed.
End Late.

Lemma avoids_filter (c : Event -> bool) evs : avoids c evs -> filter c evs = [].
Proof.
  unfold avoids. induction 1 as [| e l He _ IH]; simpl; [reflexivity |].
  rewrite He. exact IH.
Qed.

Lemma late_avoid (c : Event -> bool) evs :
  (forall e, is_late e = true -> c e = false) ->
  Forall (fun e => is_late e = true) evs -> avoids c evs.
Proof. intros Hc H. unfold avoids. eapply Forall_impl; [exact Hc | exact H]. Qed.

Lemma late_not_download e : is_late e = true -> is_download e = false.
Proof. destruct e; intros H; try discriminate H; reflexivity. Qed.


Lemma late_not_unlock e : is_late e = true -> is_unlock e = false.
Proof. destruct e; intros H; try discriminate H; reflexivity. Qed.

Lemma log_not_download e : is_log e = true -> is_download e = false.
Proof. destruct e; intros H; try discriminate H; reflexivity. Qed.


Lemma not_rejected_states d depl :
  messages.SkipWebrootUpload d = false ->
  ~ rejected d depl ->
  State_eqb (deployment.State_ depl) StateUploaded
  || State_eqb (deployment.State_ depl) StatePendingUpload = false
  /\ State_eqb (deployment.State_ depl) StateDeployed = false.
Proof.
  intros Hskip Hn. unfold rejected in Hn. rewrite Hskip in Hn.
  destruct (deployment.State_ depl); simpl; split; try reflexivity;
    exfalso; apply Hn; tauto.
Qed.

(** The calls of a run that holds the lock, around the fetch of the
    bundle: no fetch at all; a temporary file that could not be created;
    or the temporary file, the download, the later calls, the removal of
    the file and the unlock. *)
Lemma Work_fetch_shape env data w d depl proj w1 :
  loaded env data w d depl proj ->
  Lock env proj w = (inr true, w1) ->
  exists tail,
    Forall (fun e => is_log e = true) tail
    /\ ((exists late,
            Forall (fun e => is_late e = true) late
            /\ added w1 (snd (Work env data w))
                 (late ++ EvUnlock (project.ID proj) :: tail)
            /\ (messages.SkipWebrootUpload d = true \/ rejected d depl))
        \/ (exists f,
               messages.SkipWebrootUpload d = false
               /\ ~ rejected d depl
               /\ tempfile_err env = Some f
               /\ fst (Work env data w) = inl (External f)
               /\ added w1 (snd (Work env data w))
                    (EvTempFile (deployment.PrefixID depl ++ "-optimized-bundle.tar.gz")
                     :: EvUnlock (project.ID proj) :: tail))
        \/ (exists late,
               messages.SkipWebrootUpload d = false
               /\ ~ rejected d depl
               /\ tempfile_err env = None
               /\ Forall (fun e => is_late e = true) late
               /\ added w1 (snd (Work env data w))
                    (fetch_calls d depl (db w) ++ late
                     ++ EvRemoveTemp :: EvUnlock (project.ID proj) :: tail))).
Proof.
  intros Hload Hlock.
  assert (Hfetch : fetch_calls d depl (db w1) = fetch_calls d depl (db w))
    by (apply Lock_acquired in Hlock; subst w1; reflexivity).
  rewrite (Work_locked Hload Hlock), defer_eq. cbn [fst snd].
  destruct (rejected_dec d depl) as [Hrej | Hacc].
  { rewrite (locked_rejects env proj w1 Hrej). cbn [fst snd].
    destruct (unlock_logged_run env proj w1) as [tail [Hu [Hlog _]]].
    exists tail. split; [exact Hlog |]. left. exists [].
    split; [constructor |]. split; [exact Hu | right; exact Hrej]. }
  destruct (messages.SkipWebrootUpload d) eqn:Hskip.
  { pose proof (@moves_publish_late env (fun e => is_late e = true) (fun e H => H)
                  d depl proj (deployment.PrefixID depl) w1) as [[late [Ht Hlate]] _].
    assert (Hrun : locked env d depl proj w1
                   = publish env d depl proj (deployment.PrefixID depl) w1).
    { unfold locked. rewrite Hskip.
      destruct (State_eqb (deployment.State_ depl) StateUploaded
                || State_eqb (deployment.State_ depl) StatePendingUpload) eqn:Hgate;
        [| reflexivity].
      exfalso. apply Hacc. unfold rejected.
      destruct (deployment.State_ depl); simpl in Hgate; try discriminate Hgate; tauto. }
    rewrite Hrun.
    destruct (unlock_logged_run env proj
                (snd (publish env d depl proj (deployment.PrefixID depl) w1)))
      as [tail [Hu [Hlog _]]].
    exists tail. split; [exact Hlog |]. left. exists late.
    split; [exact Hlate |]. split; [| left; reflexivity].
    unfold added. rewrite Hu, Ht, <- app_assoc. reflexivity. }
  destruct (not_rejected_states Hskip Hacc) as [Hgate Hdeployed].
  assert (Hrun : locked env d depl proj w1
                 = upload_webroot env d depl proj (deployment.PrefixID depl)
                     (publish env d depl proj (deployment.PrefixID depl)) w1).
  { unfold locked. rewrite Hgate, Hskip. reflexivity. }
  rewrite Hrun, upload_webroot_eq, Hdeployed. cbv zeta.
  change [EvTempFile (deployment.PrefixID depl ++ "-optimized-bundle.tar.gz");
          EvDownload (bundle_path d depl (deployment.PrefixID depl) (db w1))]
    with (fetch_calls d depl (db w1)).
  destruct (tempfile_err env) as [f |].
  { cbn [fst snd].
    destruct (unlock_logged_run env proj
                (after_calls w1
                   [EvTempFile (deployment.PrefixID depl ++ "-optimized-bundle.tar.gz")]))
      as [tail [Hu [Hlog _]]].
    exists tail. split; [exact Hlog |]. right. left. exists f.
    split; [reflexivity |]. split; [exact Hacc |]. split; [reflexivity |].
    split; [reflexivity |]. unfold added. rewrite Hu. cbn [trace after_calls].
    rewrite <- app_assoc. reflexivity. }
  assert (Hstopped : forall x,
    exists tail,
      Forall (fun e => is_log e = true) tail
      /\ added w1
           (snd (unlock_logged env proj
              (after_calls w1
                 [EvTempFile (deployment.PrefixID depl ++ "-optimized-bundle.tar.gz");
                  EvDownload x; EvRemoveTemp])))
           ([EvTempFile (deployment.PrefixID depl ++ "-optimized-bundle.tar.gz");
             EvDownload x] ++ [] ++ EvRemoveTemp :: EvUnlock (project.ID proj) :: tail)).
  { intros x.
    match goal with
    | |- context [unlock_logged env proj ?wx] =>
        destruct (unlock_logged_run env proj wx) as [tail [Hu [Hlog _]]]
    end.
    exists tail. split; [exact Hlog |]. unfold added. rewrite Hu.
    cbn [trace after_calls]. rewrite <- app_assoc. reflexivity. }
  destruct (S3_Download_result env _) as [f | b].
  { cbn [fst snd]. rewrite <- Hfetch.
    destruct (Hstopped (bundle_path d depl (deployment.PrefixID depl) (db w1)))
      as [tail [Hlog Hadd]].
    exists tail. split; [exact Hlog |]. right. right. exists [].
    split; [reflexivity |]. split; [exact Hacc |]. split; [reflexivity |].
    split; [constructor | exact Hadd]. }
  destruct (gzip_err b) as [f |].
  { cbn [fst snd]. rewrite <- Hfetch.
    destruct (Hstopped (bundle_path d depl (deployment.PrefixID depl) (db w1)))
      as [tail [Hlog Hadd]].
    exists tail. split; [exact Hlog |]. right. right. exists [].
    split; [reflexivity |]. split; [exact Hacc |]. split; [reflexivity |].
    split; [constructor | exact Hadd]. }
  rewrite defer_eq. cbn [fst snd].
  pose proof (@moves_after_fetch env (fun e => is_late e = true) (fun e H => H)
                d depl proj (deployment.PrefixID depl)
                ("deployments/" ++ deployment.PrefixID depl ++ "/webroot") (tar b)
                (after_calls w1 (fetch_calls d depl (db w1)))) as [[late [Ht Hlate]] _].
  match goal with
  | |- context [unlock_logged env proj ?wx] =>
      destruct (unlock_logged_run env proj wx) as [tail [Hu [Hlog _]]]
  end.
  exists tail. split; [exact Hlog |]. right. right. exists late.
  split; [reflexivity |]. split; [exact Hacc |]. split; [reflexivity |].
  split; [exact Hlate |].
  unfold added. rewrite Hu. cbn [emit snd trace]. rewrite Ht.
  cbn [trace after_calls]. rewrite Hfetch, <- !app_assoc. reflexivity.
Qed.

Lemma added_inj w w' a b : added w w' a -> added w w' b -> a = b.
Proof.
  unfold added. intros Ha Hb. rewrite Ha in Hb.
  exact (app_inv_head _ _ _ Hb).
Qed.



(** X9.  The download of lines 124-148.  A run that holds the lock
    downloads at most one bundle, and exactly one when it uploads the
    webroot, its state is accepted and the temporary file was created.
    The key is the optimized bundle of the deployment unless the job asks
    for the raw bundle; then it is the raw bundle of the deployment when
    the deployment names no raw-bundle row, the uploaded path of the row
    it names when that row is found, and the optimized bundle again when
    the row is not found. *)
Theorem bundle_download env data w d depl proj w1 evs :
  loaded env data w d depl proj ->
  Lock env proj w = (inr true, w1) ->
  added w1 (snd (Work env data w)) evs ->
  (filter is_download evs = []
   /\ (messages.SkipWebrootUpload d = true \/ rejected d depl \/ tempfile_err env <> None))
  \/ (exists key,
         filter is_download evs = [EvDownload key]
         /\ messages.SkipWebrootUpload d = false
         /\ ~ rejected d depl
         /\ tempfile_err env = None
         /\ (messages.UseRawBundle d = false ->
             key = optimized_bundle (deployment.PrefixID depl))
         /\ (messages.UseRawBundle d = true -> deployment.RawBundleID depl = None ->
             key = raw_bundle (deployment.PrefixID depl))
         /\ (forall id, messages.UseRawBundle d = true ->
               deployment.RawBundleID depl = Some id ->
               match find_rawbundle id (rawbundles (db w)) with
               | Some bun => key = rawbundle.UploadedPath bun
               | None => key = optimized_bundle (deployment.PrefixID depl)
               end)).
Proof.
  intros Hload Hlock Hadd.
  destruct (Work_fetch_shape Hload Hlock) as [tail [Hlog Hshape]].
  assert (Htail : filter is_download tail = []).
  { apply avoids_filter. unfold avoids.
    eapply Forall_impl; [exact log_not_download | exact Hlog]. }
  destruct Hshape as [[late [Hlate [Hev Hwhy]]]
                     | [[f [Hskip [Hacc [Htmp [Hret Hev]]]]]
                       | [late [Hskip [Hacc [Htmp [Hlate Hev]]]]]]];
    pose proof (added_inj Hadd Hev) as ->; clear Hadd.
  - left. split; [| tauto].
    rewrite filter_app. cbn [filter is_download]. rewrite Htail, app_nil_r.
    apply avoids_filter. exact (late_avoid is_download late_not_download Hlate).
  - left. split; [| right; right; congruence].
    cbn [filter is_download]. exact Htail.
  - right. exists (bundle_path d depl (deployment.PrefixID depl) (db w)).
    split; [| split; [exact Hskip | split; [exact Hacc | split; [exact Htmp |]]]].
    + unfold fetch_calls. cbn [app filter is_download].
      rewrite filter_app.
      rewrite (avoids_filter (late_avoid is_download late_not_download Hlate)).
      cbn [app filter is_download]. rewrite Htail. reflexivity.
    + unfold bundle_path, optimized_bundle, raw_bundle.
      split; [intros -> ; reflexivity |].
      split; [intros -> ->; reflexivity |].
      intros id -> ->. destruct (find_rawbundle id (rawbundles (db w))); reflexivity.
Qed.

(** A deployment from the raw bundle of row 4. *)
Lemma bundle_download_witness :
  filter is_download
    (skipn 1 (trace (snd (Work (Fixture.healthy MoreCases.raw_job Fixture.site)
                            Fixture.payload MoreCases.raw_world))))
  = [EvDownload "raw-bundles/1f3870be.tar.gz"].
Proof.
  destruct (@bundle_download (Fixture.healthy MoreCases.raw_job Fixture.site)
              Fixture.payload MoreCases.raw_world MoreCases.raw_job
              MoreCases.raw_deployment (Fixture.the_project false false 1)
              (snd (Lock (Fixture.healthy MoreCases.raw_job Fixture.site)
                      (Fixture.the_project false false 1) MoreCases.raw_world))
              (skipn 1 (trace (snd (Work (Fixture.healthy MoreCases.raw_job Fixture.site)
                                      Fixture.payload MoreCases.raw_world)))))
    as [[_ [H | [H | H]]] | [key [Hf [_ [_ [_ [_ [_ Hk]]]]]]]].
  - repeat split.
  - reflexivity.
  - reflexivity.
  - discriminate H.
  - destruct H as [H | [H | [_ H]]]; discriminate H.
  - exfalso. apply H. reflexivity.
  - rewrite Hf. rewrite (Hk 4 eq_refl eq_refl). reflexivity.
Defined.

(** ** The metadata within a run *)

Lemma upload_meta_prefix env metaJson doms :
  forall w,
  exists n,
    n <= List.length doms
    /\ snd (upload_meta env metaJson doms w)
       = after_calls w (map (meta_upload metaJson) (firstn n doms))
    /\ (fst (upload_meta env metaJson doms w) = inr tt -> n = List.length doms).
Proof.
  induction doms as [| dom rest IH]; intros w.
  - exists 0. simpl. rewrite after_calls_nil. repeat split; lia.
  - rewrite upload_meta_cons.
    destruct (S3_Upload_err env (meta_key dom)) as [f |].
    + exists 1. simpl. split; [lia |]. split; [reflexivity | discriminate].
    + destruct (IH (after_calls w [meta_upload metaJson dom])) as [n [Hn [Hs Hok]]].
      exists (S n). simpl. split; [lia |]. split.
      * rewrite Hs, after_calls_app. reflexivity.
      * intros H. rewrite (Hok H). reflexivity.
Qed.

Lemma meta_uploads_are_uploads metaJson doms :
  filter is_upload (map (meta_upload metaJson) doms) = map (meta_upload metaJson) doms.
Proof. induction doms as [| dom rest IH]; simpl; [| rewrite IH]; reflexivity. Qed.

(** What [publish] uploads: the metadata of the first [n] domains, all
    of them when it returns [nil], and nothing after them. *)
Lemma publish_uploads env d depl proj w :
  exists evs,
    added w (snd (publish env d depl proj (deployment.PrefixID depl) w)) evs
    /\ match json_Marshal_meta env (meta_of depl proj), DomainNames_result env with
       | inr metaJson, inr doms =>
           exists n post,
             n <= List.length doms
             /\ evs = (map (meta_upload metaJson) (firstn n doms) ++ post)%list
             /\ avoids is_upload post
             /\ (fst (publish env d depl proj (deployment.PrefixID depl) w) = inr tt ->
                 n = List.length doms)
       | _, _ =>
           evs = []
           /\ fst (publish env d depl proj (deployment.PrefixID depl) w) <> inr tt
       end.
Proof.
  rewrite publish_eq. unfold meta_of.
  destruct (json_Marshal_meta env _) as [f | metaJson].
  { exists []. split; [unfold added; rewrite app_nil_r; reflexivity |].
    split; [reflexivity | discriminate]. }
  destruct (DomainNames_result env) as [f | doms].
  { exists []. split; [unfold added; rewrite app_nil_r; reflexivity |].
    split; [reflexivity | discriminate]. }
  destruct (upload_meta_prefix env metaJson doms w) as [n [Hn [Hs Hall]]].
  destruct (upload_meta env metaJson doms w) as [[e | u] wm]; cbn [fst snd] in Hs, Hall;
    subst wm.
  { exists (map (meta_upload metaJson) (firstn n doms)).
    split; [reflexivity |]. exists n, [].
    split; [exact Hn |]. split; [rewrite app_nil_r; reflexivity |].
    split; [constructor | discriminate]. }
  destruct u. specialize (Hall eq_refl).
  assert (Hcommit : forall wc extra,
    trace wc = (trace w ++ map (meta_upload metaJson) (firstn n doms) ++ extra)%list ->
    avoids is_upload extra ->
    exists evs,
      added w (snd (commit env depl proj wc)) evs
      /\ exists n0 post,
          n0 <= List.length doms
          /\ evs = (map (meta_upload metaJson) (firstn n0 doms) ++ post)%list
          /\ avoids is_upload post
          /\ (fst (commit env depl proj wc) = inr tt -> n0 = List.length doms)).
  { intros wc extra Hwc Hextra.
    destruct (commit_calls env depl proj wc) as [cevs [Hc [Hcu _]]].
    exists (map (meta_upload metaJson) (firstn n doms) ++ extra ++ cevs)%list.
    split; [unfold added; rewrite Hc, Hwc, <- !app_assoc; reflexivity |].
    exists n, (extra ++ cevs)%list.
    split; [exact Hn |]. split; [reflexivity |].
    split; [unfold avoids in *; apply Forall_app; split; assumption |].
    intros _. exact Hall. }
  destruct (messages.SkipInvalidation d).
  { apply (Hcommit _ []); [cbn [trace after_calls]; rewrite app_nil_r; reflexivity
                          | constructor]. }
  destruct (new_message_err env) as [f |].
  { exists (map (meta_upload metaJson) (firstn n doms)).
    split; [reflexivity |]. exists n, [].
    split; [exact Hn |]. split; [rewrite app_nil_r; reflexivity |].
    split; [constructor | discriminate]. }
  destruct (publish_err env) as [f |].
  { exists (map (meta_upload metaJson) (firstn n doms)
            ++ [EvPublish exchanges.Edges exchanges.RouteV1Invalidation doms])%list.
    split; [unfold added; cbn [snd trace after_calls]; rewrite <- app_assoc; reflexivity |].
    exists n, [EvPublish exchanges.Edges exchanges.RouteV1Invalidation doms].
    split; [exact Hn |]. split; [reflexivity |].
    split; [repeat constructor | discriminate]. }
  apply (Hcommit _ [EvPublish exchanges.Edges exchanges.RouteV1Invalidation doms]);
    [cbn [trace after_calls]; rewrite <- app_assoc; reflexivity | repeat constructor].
Qed.

Lemma locked_skipping env d depl proj w :
  messages.SkipWebrootUpload d = true ->
  ~ rejected d depl ->
  locked env d depl proj w = publish env d depl proj (deployment.PrefixID depl) w.
Proof.
  intros Hskip Hacc. unfold locked. rewrite Hskip.
  destruct (State_eqb (deployment.State_ depl) StateUploaded
            || State_eqb (deployment.State_ depl) StatePendingUpload) eqn:Hgate;
    [| reflexivity].
  exfalso. apply Hacc. unfold rejected.
  destruct (deployment.State_ depl); simpl in Hgate; try discriminate Hgate; tauto.
Qed.

Lemma logs_avoid_upload tail :
  Forall (fun e => is_log e = true) tail -> avoids is_upload tail.
Proof.
  unfold avoids. apply Forall_impl. intros e H. destruct e; try discriminate H; reflexivity.
Qed.

(** X10.  A job with [skip_webroot_upload] that holds the lock writes
    nothing to the object store but metadata: its uploads are the
    metadata of the first [n] domain names of the project, in their
    order, each once, and of all of them when [Work] returns [nil]; when
    the document cannot be built, the domain names cannot be read, or the
    state is rejected, it uploads nothing. *)
Theorem republish_uploads_metadata_only env data w d depl proj w1 evs :
  loaded env data w d depl proj ->
  Lock env proj w = (inr true, w1) ->
  messages.SkipWebrootUpload d = true ->
  added w1 (snd (Work env data w)) evs ->
  match json_Marshal_meta env (meta_of depl proj), DomainNames_result env with
  | inr metaJson, inr doms =>
      exists n,
        n <= List.length doms
        /\ filter is_upload evs = map (meta_upload metaJson) (firstn n doms)
        /\ (fst (Work env data w) = inr tt -> n = List.length doms)
        /\ (rejected d depl -> n = 0)
  | _, _ => filter is_upload evs = []
  end.
Proof.
  intros Hload Hlock Hskip Hadd.
  rewrite (Work_locked Hload Hlock), defer_eq in *. cbn [fst snd] in *.
  destruct (rejected_dec d depl) as [Hrej | Hacc].
  { rewrite (locked_rejects env proj w1 Hrej) in *. cbn [fst snd] in *.
    destruct (unlock_logged_run env proj w1) as [tail [Hu [Hlog _]]].
    pose proof (added_inj Hadd Hu) as ->.
    assert (Hnone : filter is_upload (EvUnlock (project.ID proj) :: tail) = []).
    { apply avoids_filter. unfold avoids. constructor; [reflexivity |].
      exact (logs_avoid_upload Hlog). }
    destruct (json_Marshal_meta env _) as [f | metaJson]; [exact Hnone |].
    destruct (DomainNames_result env) as [f | doms]; [exact Hnone |].
    exists 0. split; [lia |]. split; [exact Hnone |].
    split; [discriminate | reflexivity]. }
  rewrite (locked_skipping env proj w1 Hskip Hacc) in *.
  destruct (publish_uploads env d depl proj w1) as [pevs [Hp Hcases]].
  destruct (unlock_logged_run env proj
              (snd (publish env d depl proj (deployment.PrefixID depl) w1)))
    as [tail [Hu [Hlog _]]].
  assert (Hevs : evs = (pevs ++ EvUnlock (project.ID proj) :: tail)%list).
  { apply (added_inj Hadd). unfold added. rewrite Hu, Hp, <- app_assoc. reflexivity. }
  assert (Hnone : filter is_upload (EvUnlock (project.ID proj) :: tail) = []).
  { apply avoids_filter. unfold avoids. constructor; [reflexivity |].
    exact (logs_avoid_upload Hlog). }
  subst evs. rewrite filter_app, Hnone, app_nil_r.
  destruct (json_Marshal_meta env _) as [f | metaJson];
    [destruct Hcases as [-> _]; reflexivity |].
  destruct (DomainNames_result env) as [f | doms];
    [destruct Hcases as [-> _]; reflexivity |].
  destruct Hcases as [n [post [Hn [-> [Hpost Hall]]]]].
  exists n. split; [exact Hn |]. split.
  - rewrite filter_app, meta_uploads_are_uploads, (avoids_filter Hpost), app_nil_r.
    reflexivity.
  - split; [exact Hall | intros Hrej; exfalso; exact (Hacc Hrej)].
Qed.

(** The republish of a deployed deployment. *)
Lemma republish_uploads_metadata_only_witness :
  exists n,
    n <= 1
    /\ filter is_upload
         (skipn 1 (trace (snd (Work Cases.republish Fixture.payload Cases.already_deployed))))
       = map (meta_upload ("{" ++ GoString.DQ ++ "prefix" ++ GoString.DQ ++ ":"
                           ++ GoString.DQ ++ "a1b2c3-7" ++ GoString.DQ ++ "}"))
           (firstn n ["foo-bar-express.rise.cloud"])
    /\ (fst (Work Cases.republish Fixture.payload Cases.already_deployed) = inr tt -> n = 1)
    /\ (rejected (Fixture.the_job true false) (Fixture.the_deployment StateDeployed "{}") ->
        n = 0).
Proof.
  refine (@republish_uploads_metadata_only Cases.republish Fixture.payload
            Cases.already_deployed (Fixture.the_job true false)
            (Fixture.the_deployment StateDeployed "{}")
            (Fixture.the_project false false 0)
            (snd (Lock Cases.republish (Fixture.the_project false false 0)
                    Cases.already_deployed))
            (skipn 1 (trace (snd (Work Cases.republish Fixture.payload
                                    Cases.already_deployed))))
            _ _ eq_refl _).
  - repeat split.
  - reflexivity.
  - reflexivity.
Defined.

(** X11.  When [Work] returns [nil], the metadata of every domain of the
    project was uploaded, in the order of the domain names and each
    once, after every upload of the webroot and before anything else:
    the calls before the metadata neither write to the store nor publish
    nor unlock, and no upload follows the metadata.  So the invalidation
    is published and the deployment is made the active one only when
    every domain has its metadata. *)
Theorem metadata_precedes_deployed env data w d depl proj w1 evs :
  loaded env data w d depl proj ->
  Lock env proj w = (inr true, w1) ->
  fst (Work env data w) = inr tt ->
  added w1 (snd (Work env data w)) evs ->
  exists metaJson doms pre post,
    json_Marshal_meta env (meta_of depl proj) = inr metaJson
    /\ DomainNames_result env = inr doms
    /\ evs = (pre ++ map (meta_upload metaJson) doms ++ post)%list
    /\ Forall (fun e => is_quiet e = true) pre
    /\ avoids is_upload post.
Proof.
  intros Hload Hlock Hnil Hadd.
  rewrite (Work_locked Hload Hlock), defer_eq in *. cbn [fst snd] in *.
  destruct (locked_spine env d depl proj w1)
    as [[Herr _] | [pre [closing [Hpre [Hclosing Heq]]]]];
    [exfalso; exact (Herr Hnil) |].
  rewrite Heq in *. cbn [fst snd] in *.
  destruct (publish_uploads env d depl proj (after_calls w1 pre)) as [pevs [Hp Hcases]].
  match type of Hadd with
  | context [unlock_logged env proj ?wx] =>
      destruct (unlock_logged_run env proj wx) as [tail [Hu [Hlog _]]]
  end.
  assert (Hevs : evs = (pre ++ pevs ++ closing ++ EvUnlock (project.ID proj) :: tail)%list).
  { apply (added_inj Hadd). unfold added. rewrite Hu. cbn [trace after_calls].
    rewrite Hp. cbn [trace after_calls]. rewrite <- !app_assoc. reflexivity. }
  destruct (json_Marshal_meta env (meta_of depl proj)) as [f | metaJson];
    [exfalso; exact (proj2 Hcases Hnil) |].
  destruct (DomainNames_result env) as [f | doms];
    [exfalso; exact (proj2 Hcases Hnil) |].
  destruct Hcases as [n [post [Hn [-> [Hpost Hall]]]]].
  rewrite (Hall Hnil), firstn_all in Hevs.
  exists metaJson, doms, pre, (post ++ closing ++ EvUnlock (project.ID proj) :: tail)%list.
  split; [reflexivity |]. split; [reflexivity |].
  split; [rewrite Hevs, <- !app_assoc; reflexivity |].
  split; [exact Hpre |].
  unfold avoids in *. rewrite !Forall_app. split; [exact Hpost |]. split.
  - destruct Hclosing as [-> | ->]; repeat constructor.
  - constructor; [reflexivity | exact (logs_avoid_upload Hlog)].
Qed.

(** The happy path: two files, the js-env file, then the metadata. *)
Lemma metadata_precedes_deployed_witness :
  exists metaJson doms pre post,
    Fixture.marshal (meta_of (Fixture.the_deployment StatePendingDeploy "{}")
                       (Fixture.the_project false false 1)) = inr metaJson
    /\ inr ["foo-bar-express.rise.cloud"] = @inr failure (list string) doms
    /\ skipn 1 (trace (snd (Work (Fixture.healthy (Fixture.the_job false false) Fixture.site)
                              Fixture.payload (Cases.pending false))))
       = (pre ++ map (meta_upload metaJson) doms ++ post)%list
    /\ Forall (fun e => is_quiet e = true) pre
    /\ avoids is_upload post.
Proof.
  refine (@metadata_precedes_deployed
            (Fixture.healthy (Fixture.the_job false false) Fixture.site)
            Fixture.payload (Cases.pending false) (Fixture.the_job false false)
            (Fixture.the_deployment StatePendingDeploy "{}")
            (Fixture.the_project false false 1)
            (snd (Lock (Fixture.healthy (Fixture.the_job false false) Fixture.site)
                    (Fixture.the_project false false 1) (Cases.pending false)))
            (skipn 1 (trace (snd (Work (Fixture.healthy (Fixture.the_job false false)
                                          Fixture.site)
                                    Fixture.payload (Cases.pending false)))))
            _ _ _ _).
  - repeat split.
  - reflexivity.
  - reflexivity.
  - reflexivity.
Defined.

(** ** What a failed run leaves in the store *)

Section Failures.
Variable env : Env.

Lemma no_timeout_upload_meta metaJson domainNames :
  raises not_timeout (upload_meta env metaJson domainNames).
Proof.
  unfold not_timeout.
  induction domainNames as [| domain rest IH]; simpl.
  - apply raises_ret.
  - unfold S3_Upload. repeat raises_step. exact IH.
Qed.

Lemma no_timeout_publish d depl proj prefixID :
  raises not_timeout (publish env d depl proj prefixID).
Proof.
  pose proof no_timeout_upload_meta as Hmeta.
  unfold publish, Publish, commit, Begin, Rollback, UpdateState, UpdateActive,
    DeleteExceptLastN, Commit, track, not_timeout in *.
  repeat raises_step; apply Hmeta.
Qed.

Lemma publish_failure d depl proj prefixID w e :
  fst (publish env d depl proj prefixID w) = inl e ->
  db (snd (publish env d depl proj prefixID w)) = db w.
Proof.
  rewrite publish_eq.
  destruct (json_Marshal_meta env _) as [f | metaJson]; [reflexivity |].
  destruct (DomainNames_result env) as [f | doms]; [reflexivity |].
  destruct (upload_meta_run env metaJson doms w) as [evs [Hw _]].
  destruct (upload_meta env metaJson doms w) as [[e0 | u] wm]; simpl in Hw; subst wm;
    [reflexivity |].
  destruct (messages.SkipInvalidation d).
  { intros H. rewrite (proj1 (commit_failure env depl proj _ H)). reflexivity. }
  destruct (new_message_err env) as [f |]; [reflexivity |].
  destruct (publish_err env) as [f |]; [reflexivity |].
  intros H. rewrite (proj1 (commit_failure env depl proj _ H)). reflexivity.
Qed.

Lemma upload_loop_ends proj webroot tr :
  forall w, fst (upload_loop env proj webroot None tr w) <> LoopRunning.
Proof.
  induction tr as [| f | hdr content rest IH]; intros w; simpl; try discriminate.
  destruct (upload_entry env proj webroot hdr content w) as [[e | u] w'];
    [discriminate | apply IH].
Qed.

Lemma select_failed proj webroot tr w e :
  upload_timer env = None ->
  fst (upload_loop env proj webroot None tr w) = LoopError e ->
  select_upload env proj webroot tr w
  = (inl e, snd (upload_loop env proj webroot None tr w)).
Proof.
  intros Htimer Hloop. unfold select_upload. rewrite Htimer.
  destruct (upload_loop env proj webroot None tr w) as [sig w']; simpl in *.
  subst sig. reflexivity.
Qed.

(** The [done] case of the select, call by call. *)
Lemma after_done_eq depl prefixID webroot (rest : M unit) w :
  after_select env depl prefixID webroot rest SelDone w
  = match GoJSON.Unmarshal_string_map (json_parse env (deployment.JsEnvVars depl)) with
    | inl e => (inl e, w)
    | inr _ =>
        let up := EvUpload (webroot ++ "/jsenv.js")
                    (GoString.Sprintf_s deployer.jsenvFormat (deployment.JsEnvVars depl))
                    "application/javascript" "public-read" in
        match S3_Upload_err env (webroot ++ "/jsenv.js") with
        | Some f => (inl (External f), after_calls w [up])
        | None => rest (after_calls w [up])
        end
    end.
Proof.
  unfold after_select, S3_Upload, bind, lift, emit, check.
  destruct (GoJSON.Unmarshal_string_map _) as [e | m]; simpl; [reflexivity |].
  destruct (S3_Upload_err env _) as [f |]; simpl; [reflexivity |].
  destruct (rest _); reflexivity.
Qed.

(** The select and what follows it, when it fails: the timer won, or
    the store is what it was. *)
Lemma after_fetch_failure d depl proj webroot tr w e :
  fst (bind (select_upload env proj webroot tr)
         (after_select env depl (deployment.PrefixID depl) webroot
            (publish env d depl proj (deployment.PrefixID depl))) w) = inl e ->
  (e = ErrTimeout /\ exists k, upload_timer env = Some k)
  \/ (e <> ErrTimeout
      /\ db (snd (bind (select_upload env proj webroot tr)
                    (after_select env depl (deployment.PrefixID depl) webroot
                       (publish env d depl proj (deployment.PrefixID depl))) w)) = db w).
Proof.
  destruct (upload_timer env) as [k |] eqn:Htimer.
  - erewrite bind_ok by (apply select_timeout; exact Htimer).
    destruct (upload_loop_events env proj webroot (Some k) tr w) as [evs [Hw _]].
    rewrite Hw.
    destruct (UpdateState_err env OnDB StateDeployFailed) as [f |] eqn:Hupd.
    + rewrite (after_timeout_refused env _ _ _ _ _ Hupd). cbn [fst snd].
      intros H. injection H as <-. left. split; [reflexivity | exists k; reflexivity].
    + rewrite (after_timeout_stored env _ _ _ _ _ Hupd). cbn [fst snd].
      intros H. injection H as <-. left. split; [reflexivity | exists k; reflexivity].
  - pose proof (upload_loop_ends proj webroot tr w) as Hends.
    pose proof (@upload_loop_error env proj webroot tr None w) as Hext.
    destruct (upload_loop_events env proj webroot None tr w) as [evs [Hw _]].
    destruct (fst (upload_loop env proj webroot None tr w)) as [| e0 |] eqn:Hsig.
    + erewrite bind_ok by (eapply select_done; [exact Htimer | exact Hsig]).
      rewrite Hw, after_done_eq. cbv zeta.
      destruct (GoJSON.Unmarshal_string_map _) as [e1 | m] eqn:Hun.
      * cbn [fst snd]. intros H. injection H as <-. right.
        split; [| reflexivity].
        assert (Hl : fst (lift (GoJSON.Unmarshal_string_map
                                  (json_parse env (deployment.JsEnvVars depl))) w)
                     = inl e1) by (rewrite Hun; reflexivity).
        destruct (@Unmarshal_error _ _ _ Hl) as [-> | [what ->]]; discriminate.
      * destruct (S3_Upload_err env _) as [f |]; cbn [fst snd].
        -- intros H. injection H as <-. right. split; [discriminate | reflexivity].
        -- intros H. right. split.
           ++ exact (@no_timeout_publish d depl proj _ _ e H).
           ++ rewrite (publish_failure _ _ _ _ _ H). reflexivity.
    + erewrite bind_err by (apply select_failed; [exact Htimer | exact Hsig]).
      rewrite Hw. cbn [fst snd]. intros H. injection H as <-. right.
      split; [| reflexivity].
      destruct (Hext e0 eq_refl) as [f ->]. discriminate.
    + exfalso. apply Hends. reflexivity.
Qed.
(** A failure while the lock is held: the timer won the select of a job
    that was uploading, or the store is what it was. *)
Lemma locked_failure d depl proj w e :
  fst (locked env d depl proj w) = inl e ->
  (e = ErrTimeout
   /\ exists f k, uploading env w d depl f /\ upload_timer env = Some k)
  \/ (e <> ErrTimeout /\ db (snd (locked env d depl proj w)) = db w).
Proof.
  destruct (rejected_dec d depl) as [Hrej | Hacc].
  { rewrite (locked_rejects env proj w Hrej). cbn [fst snd].
    intros H. injection H as <-. right. split; [discriminate | reflexivity]. }
  destruct (messages.SkipWebrootUpload d) eqn:Hskip.
  { rewrite (locked_skipping env proj w Hskip Hacc). intros H. right. split.
    - exact (@no_timeout_publish d depl proj _ _ e H).
    - exact (publish_failure _ _ _ _ _ H). }
  destruct (not_rejected_states Hskip Hacc) as [Hgate Hdeployed].
  assert (Hstate : deployment.State_ depl = StatePendingDeploy
                   \/ deployment.State_ depl = StateDeployFailed).
  { destruct (deployment.State_ depl); simpl in Hgate, Hdeployed;
      try discriminate; tauto. }
  assert (Hrun : locked env d depl proj w
                 = upload_webroot env d depl proj (deployment.PrefixID depl)
                     (publish env d depl proj (deployment.PrefixID depl)) w).
  { unfold locked. rewrite Hgate, Hskip. reflexivity. }
  rewrite Hrun, upload_webroot_eq, Hdeployed. cbv zeta.
  destruct (tempfile_err env) as [f |] eqn:Htmp.
  { cbn [fst snd]. intros H. injection H as <-. right.
    split; [discriminate | reflexivity]. }
  destruct (S3_Download_result env _) as [f | b] eqn:Hget.
  { cbn [fst snd]. intros H. injection H as <-. right.
    split; [discriminate | reflexivity]. }
  destruct (gzip_err b) as [f |] eqn:Hgzip.
  { cbn [fst snd]. intros H. injection H as <-. right.
    split; [discriminate | reflexivity]. }
  rewrite defer_eq. cbn [fst snd emit db]. intros H.
  destruct (after_fetch_failure _ _ _ _ _ _ H) as [[-> [k Hk]] | [Hne Hdb]].
  - left. split; [reflexivity |]. exists b, k. split; [| exact Hk].
    unfold uploading. repeat split; assumption.
  - right. split; [exact Hne |]. rewrite Hdb. reflexivity.
Qed.
End Failures.

Lemma loaded_or_not env data w :
  (exists d depl proj, loaded env data w d depl proj)
  \/ (forall d depl proj, ~ loaded env data w d depl proj).
Proof.
  unfold loaded.
  destruct (json_Unmarshal_job env data) as [f | d] eqn:Hjob;
    [right; intros d depl proj [H _]; discriminate H |].
  destruct (dbconn_err env) as [f |] eqn:Hconn;
    [right; intros d0 depl proj [_ [H _]]; discriminate H |].
  destruct (find_deployment (messages.DeploymentID d) (deployments (db w)))
    as [depl |] eqn:Hdepl.
  - destruct (find_project (deployment.ProjectID depl) (projects (db w)))
      as [proj |] eqn:Hproj.
    + left. exists d, depl, proj. repeat split; assumption.
    + right. intros d0 depl0 proj0 [Hd [_ [Hf Hp]]].
      injection Hd as <-. rewrite Hdepl in Hf. injection Hf as <-.
      rewrite Hproj in Hp. discriminate Hp.
  - right. intros d0 depl0 proj0 [Hd [_ [Hf _]]].
    injection Hd as <-. rewrite Hdepl in Hf. discriminate Hf.
Qed.

Lemma lock_flag_keeps_active id b rows :
  map project.ActiveDeploymentID (update_project id (project.with_Locked b) rows)
  = map project.ActiveDeploymentID rows.
Proof.
  unfold update_project. rewrite map_map. apply map_ext.
  intros r. destruct (Nat.eqb (project.ID r) id); reflexivity.
Qed.

Lemma Lock_store env proj w :
  deployments (db (snd (Lock env proj w))) = deployments (db w)
  /\ active_deployments (db (snd (Lock env proj w))) = active_deployments (db w).
Proof.
  unfold Lock, bind, emit, check, get_db, put_db, ret, fail, active_deployments. simpl.
  destruct (lock_err env); simpl; [split; reflexivity |].
  destruct (find_project _ _) as [row |]; simpl; [| split; reflexivity].
  destruct (project.Locked row); simpl; [split; reflexivity |].
  split; [reflexivity | apply lock_flag_keeps_active].
Qed.

Lemma unlock_store env proj w :
  deployments (db (snd (unlock_logged env proj w))) = deployments (db w)
  /\ active_deployments (db (snd (unlock_logged env proj w))) = active_deployments (db w).
Proof.
  destruct (unlock_logged_run env proj w) as [tail [_ [_ [Hd _]]]].
  split; [exact Hd |]. unfold active_deployments.
  destruct (unlock_logged_projects env proj w) as [-> | ->];
    [reflexivity | apply lock_flag_keeps_active].
Qed.

Lemma Work_unloaded env data w :
  (forall d depl proj, ~ loaded env data w d depl proj) ->
  snd (Work env data w) = w
  /\ exists e, fst (Work env data w) = inl e /\ e <> ErrTimeout.
Proof.
  intros Hnot. unfold Work, bind, call, check, First_deployment, First_project, get_db, bind.
  destruct (json_Unmarshal_job env data) as [f | d] eqn:Hjob; simpl;
    [split; [reflexivity | eexists; split; [reflexivity | discriminate]] |].
  destruct (dbconn_err env) as [f |] eqn:Hconn; simpl;
    [split; [reflexivity | eexists; split; [reflexivity | discriminate]] |].
  destruct (find_deployment (messages.DeploymentID d) (deployments (db w)))
    as [depl |] eqn:Hdepl; simpl;
    [| split; [reflexivity | eexists; split; [reflexivity | discriminate]]].
  destruct (find_project (deployment.ProjectID depl) (projects (db w)))
    as [proj |] eqn:Hproj; simpl;
    [| split; [reflexivity | eexists; split; [reflexivity | discriminate]]].
  exfalso. apply (Hnot d depl proj). repeat split; assumption.
Qed.

(** What a run that returns an error leaves in the store, and when the
    error is the timeout. *)
Lemma Work_failure env data w e :
  fst (Work env data w) = inl e ->
  (e = ErrTimeout
   /\ exists d depl proj f k,
       loaded env data w d depl proj
       /\ fst (Lock env proj w) = inr true
       /\ uploading env w d depl f
       /\ upload_timer env = Some k)
  \/ (e <> ErrTimeout
      /\ deployments (db (snd (Work env data w))) = deployments (db w)
      /\ active_deployments (db (snd (Work env data w))) = active_deployments (db w)).
Proof.
  intros Herr.
  destruct (loaded_or_not env data w) as [[d [depl [proj Hload]]] | Hnot].
  2: { destruct (Work_unloaded Hnot) as [Hw [e0 [He Hne]]].
       right. rewrite Hw. split; [| split; reflexivity].
       rewrite He in Herr. injection Herr as <-. exact Hne. }
  pose proof (Lock_store env proj w) as [Hld Hla].
  destruct (Lock env proj w) as [[e0 | acquired] w1] eqn:Hlock; cbn [snd] in Hld, Hla.
  { rewrite (Work_after_load Hload) in *. unfold bind in *. rewrite Hlock in *.
    cbn [fst snd] in *. injection Herr as <-. right.
    split; [| split; assumption].
    unfold Lock, bind, emit, check, get_db, put_db, ret, fail in Hlock. simpl in Hlock.
    destruct (lock_err env); simpl in Hlock; [injection Hlock as <- _; discriminate |].
    destruct (find_project _ _) as [row |]; simpl in Hlock; [| discriminate Hlock].
    destruct (project.Locked row); discriminate Hlock. }
  destruct acquired.
  2: { rewrite (Work_after_load Hload) in *. unfold bind in *. rewrite Hlock in *.
       cbn [fst snd negb] in *. injection Herr as <-. right.
       split; [discriminate | split; assumption]. }
  rewrite (Work_locked Hload Hlock), defer_eq in *. cbn [fst snd] in *.
  pose proof (unlock_store env proj (snd (locked env d depl proj w1))) as [Hud Hua].
  destruct (locked_failure env d depl proj w1 Herr) as [[-> [f [k [Hup Hk]]]] | [Hne Hdb]].
  - left. split; [reflexivity |]. exists d, depl, proj, f, k.
    split; [exact Hload |]. split; [rewrite Hlock; reflexivity |]. split; [| exact Hk].
    apply Lock_acquired in Hlock. subst w1. exact Hup.
  - right. split; [exact Hne |].
    rewrite Hud, Hua, Hdb. split; assumption.
Qed.

(** X12.  Whatever error [Work] returns other than [ErrTimeout] (a job
    that cannot be decoded, a record that is not found, a lock that is
    held or cannot be asked for, a rejected state, a failed download,
    upload, publication or commit), the deployments are stored as they
    were before the run and every project has the active deployment it
    had: only the lock flag of the project may have changed. *)
Theorem failure_keeps_store (env : Env) (data : string) (w : World) (e : error) :
  fst (Work env data w) = inl e ->
  e <> ErrTimeout ->
  deployments (db (snd (Work env data w))) = deployments (db w)
  /\ active_deployments (db (snd (Work env data w))) = active_deployments (db w).
Proof.
  intros Herr Hne.
  destruct (Work_failure env data w Herr) as [[Ht _] | [_ Hstore]];
    [exfalso; exact (Hne Ht) | exact Hstore].
Qed.

(** The store refuses the commit. *)
Lemma failure_keeps_store_witness :
  deployments (db (snd (Work Cases.commit_refused Fixture.payload (Cases.pending false))))
  = deployments (db (Cases.pending false))
  /\ active_deployments
       (db (snd (Work Cases.commit_refused Fixture.payload (Cases.pending false))))
     = active_deployments (db (Cases.pending false)).
Proof.
  apply (@failure_keeps_store Cases.commit_refused Fixture.payload (Cases.pending false)
           (External (Failure "pq: deadlock detected"))).
  - reflexivity.
  - discriminate.
Defined.

(** X13.  [Work] returns [ErrTimeout] exactly when the job was decoded
    and its records loaded, the lock was acquired, the job uploads the
    webroot of a deployment in an accepted state, the temporary file was
    created, the bundle was downloaded and is a gzip stream, and the
    timer wins the select: no failure of a collaborator is reported as a
    timeout, and a timer that wins is never reported as anything else. *)
Theorem timeout_iff (env : Env) (data : string) (w : World) :
  fst (Work env data w) = inl ErrTimeout
  <-> exists d depl proj f k,
        loaded env data w d depl proj
        /\ fst (Lock env proj w) = inr true
        /\ uploading env w d depl f
        /\ upload_timer env = Some k.
Proof.
  split.
  - intros Herr.
    destruct (Work_failure env data w Herr) as [[_ H] | [Hne _]];
      [exact H | exfalso; apply Hne; reflexivity].
  - intros [d [depl [proj [f [k [Hload [Hacq [Hup Htimer]]]]]]]].
    assert (Hlock : Lock env proj w = (inr true, snd (Lock env proj w)))
      by (rewrite <- Hacq; apply surjective_pairing).
    rewrite (Work_uploading Hload Hlock Hup). rewrite !defer_eq. cbn [fst].
    erewrite bind_ok by (apply select_timeout; exact Htimer).
    destruct (UpdateState_err env OnDB StateDeployFailed) as [e |] eqn:Hupd.
    + rewrite (after_timeout_refused env _ _ _ _ _ Hupd). reflexivity.
    + rewrite (after_timeout_stored env _ _ _ _ _ Hupd). reflexivity.
Qed.

(** * Start-up *)

Lemma Getenv_Setenv_other key value environ k :
  k <> key -> os.Getenv (os.Setenv key value environ) k = os.Getenv environ k.
Proof.
  intros Hk. unfold os.Getenv, os.Setenv.
  destruct (String.eqb k key) eqn:E; [apply String.eqb_eq in E; contradiction | reflexivity].
Qed.

Lemma Getenv_Setenv_same key value environ :
  os.Getenv (os.Setenv key value environ) key = value.
Proof. unfold os.Getenv, os.Setenv. rewrite String.eqb_refl. reflexivity. Qed.

Ltac string_prop H :=
  match type of H with
  | String.eqb _ _ = true => apply String.eqb_eq in H
  | String.eqb _ _ = false => apply String.eqb_neq in H
  end.

(** The name of the environment [init] works with. *)
Lemma deployer_init_environ environ :
  fst (deployer_init environ)
  = if String.eqb (os.Getenv environ "RISE_ENV") ""
    then os.Setenv "RISE_ENV" "development" environ
    else environ.
Proof.
  unfold deployer_init.
  destruct (String.eqb (os.Getenv environ "RISE_ENV") "");
    match goal with |- context [if ?b then _ else _] => destruct b end; reflexivity.
Qed.

Lemma deployer_init_outcome environ :
  snd (deployer_init environ)
  = if String.eqb (os.Getenv environ "RISE_ENV") "test"
       || negb (String.eqb (os.Getenv environ "AWS_ACCESS_KEY_ID") ""
                || String.eqb (os.Getenv environ "AWS_SECRET_ACCESS_KEY") "")
    then Registered
    else Fatal "AWS_ACCESS_KEY_ID and AWS_SECRET_ACCESS_KEY environment variables are required!".
Proof.
  unfold deployer_init.
  destruct (String.eqb (os.Getenv environ "RISE_ENV") "") eqn:Hunset.
  - apply String.eqb_eq in Hunset. rewrite Hunset.
    rewrite !Getenv_Setenv_other by discriminate.
    cbn [String.eqb Ascii.eqb negb andb orb].
    destruct (String.eqb (os.Getenv environ "AWS_ACCESS_KEY_ID") "");
      destruct (String.eqb (os.Getenv environ "AWS_SECRET_ACCESS_KEY") ""); reflexivity.
  - destruct (String.eqb (os.Getenv environ "RISE_ENV") "test");
      destruct (String.eqb (os.Getenv environ "AWS_ACCESS_KEY_ID") "");
      destruct (String.eqb (os.Getenv environ "AWS_SECRET_ACCESS_KEY") ""); reflexivity.
Qed.

(** X14.  [init] of package [deployer] leaves [RISE_ENV] non-empty: a
    value that was set is kept, an unset or empty one becomes
    [development]; no other variable is changed.  Running it again
    changes nothing and ends the same way. *)
Theorem deployer_init_settles (environ : os.Environ) :
  os.Getenv (fst (deployer_init environ)) "RISE_ENV"
  = (if String.eqb (os.Getenv environ "RISE_ENV") "" then "development"
     else os.Getenv environ "RISE_ENV")
  /\ os.Getenv (fst (deployer_init environ)) "RISE_ENV" <> ""
  /\ (forall k, k <> "RISE_ENV" -> fst (deployer_init environ) k = environ k)
  /\ fst (deployer_init (fst (deployer_init environ))) = fst (deployer_init environ)
  /\ snd (deployer_init (fst (deployer_init environ))) = snd (deployer_init environ).
Proof.
  assert (Hname : os.Getenv (fst (deployer_init environ)) "RISE_ENV"
                  = (if String.eqb (os.Getenv environ "RISE_ENV") "" then "development"
                     else os.Getenv environ "RISE_ENV")).
  { rewrite deployer_init_environ.
    destruct (String.eqb (os.Getenv environ "RISE_ENV") "");
      [apply Getenv_Setenv_same | reflexivity]. }
  assert (Hset : os.Getenv (fst (deployer_init environ)) "RISE_ENV" <> "").
  { rewrite Hname.
    destruct (String.eqb (os.Getenv environ "RISE_ENV") "") eqn:E;
      [discriminate | apply String.eqb_neq; exact E]. }
  split; [exact Hname |]. split; [exact Hset |]. split; [| split].
  - intros k Hk. rewrite deployer_init_environ.
    destruct (String.eqb (os.Getenv environ "RISE_ENV") ""); [| reflexivity].
    unfold os.Setenv. apply String.eqb_neq in Hk. rewrite Hk. reflexivity.
  - rewrite (deployer_init_environ (fst (deployer_init environ))).
    apply String.eqb_neq in Hset. rewrite Hset. reflexivity.
  - rewrite (deployer_init_outcome (fst (deployer_init environ))), Hname.
    rewrite (deployer_init_outcome environ), deployer_init_environ.
    destruct (String.eqb (os.Getenv environ "RISE_ENV") "") eqn:Hunset; [| reflexivity].
    rewrite !Getenv_Setenv_other by discriminate.
    apply String.eqb_eq in Hunset. rewrite Hunset. reflexivity.
Qed.

(** X15.  [init] of package [deployer] reaches the registration of the
    mime types exactly when [RISE_ENV] is [test] or both credentials of
    the object store are set and non-empty; otherwise it ends the
    process with [log.Fatal].  An unset [RISE_ENV] counts as
    [development], which needs the credentials. *)
Theorem deployer_init_needs_credentials (environ : os.Environ) :
  snd (deployer_init environ) = Registered
  <-> os.Getenv environ "RISE_ENV" = "test"
      \/ (os.Getenv environ "AWS_ACCESS_KEY_ID" <> ""
          /\ os.Getenv environ "AWS_SECRET_ACCESS_KEY" <> "").
Proof.
  rewrite deployer_init_outcome.
  destruct (String.eqb (os.Getenv environ "RISE_ENV") "test") eqn:Htest;
    destruct (String.eqb (os.Getenv environ "AWS_ACCESS_KEY_ID") "") eqn:Hkey;
    destruct (String.eqb (os.Getenv environ "AWS_SECRET_ACCESS_KEY") "") eqn:Hsecret;
    cbn [orb negb];
    string_prop Htest; string_prop Hkey; string_prop Hsecret;
    split; intros H; try reflexivity; try discriminate H; try tauto;
    destruct H as [H | [H1 H2]]; contradiction.
Qed.

(** X16.  The two [init] functions agree on the name of the
    environment: [init] of package [common] gives the same mailer
    address and the same logger whether it reads the environment before
    or after [init] of package [deployer] has set [RISE_ENV]. *)
Theorem common_init_after_deployer_init (ParseLevel : string -> option logrus.Level)
    (environ : os.Environ) (logger : logrus.Logger) :
  common.init ParseLevel (fst (deployer_init environ)) logger
  = common.init ParseLevel environ logger.
Proof.
  rewrite deployer_init_environ.
  destruct (String.eqb (os.Getenv environ "RISE_ENV") "") eqn:Hunset; [| reflexivity].
  unfold common.init.
  rewrite !Getenv_Setenv_other by discriminate.
  rewrite Getenv_Setenv_same, Hunset. reflexivity.
Qed.

(** X17.  [init] of package [common]: the mailer address is never
    empty, and is the one of [MAILER_EMAIL] when that is set.  A valid
    [RISE_LOG_LEVEL] sets the level and leaves the output of the logger
    alone, whatever [RISE_ENV] is, so that the output is not discarded
    even under [test].  Without a valid level, the output is discarded
    exactly when [RISE_ENV] is [test], and the level is [debug] for every
    name but [production] and [test], an unset name included. *)
Theorem common_init_logger (ParseLevel : string -> option logrus.Level)
    (environ : os.Environ) (logger : logrus.Logger) :
  fst (common.init ParseLevel environ logger) <> ""
  /\ (os.Getenv environ "MAILER_EMAIL" <> "" ->
      fst (common.init ParseLevel environ logger) = os.Getenv environ "MAILER_EMAIL")
  /\ (forall level,
         ParseLevel (os.Getenv environ "RISE_LOG_LEVEL") = Some level ->
         snd (common.init ParseLevel environ logger)
         = {| logrus.Level_ := level; logrus.Out := logrus.Out logger |})
  /\ (ParseLevel (os.Getenv environ "RISE_LOG_LEVEL") = None ->
      (logrus.Out (snd (common.init ParseLevel environ logger)) = logrus.Discard
       <-> os.Getenv environ "RISE_ENV" = "test")
      /\ (os.Getenv environ "RISE_ENV" <> "production" ->
          os.Getenv environ "RISE_ENV" <> "test" ->
          logrus.Level_ (snd (common.init ParseLevel environ logger)) = logrus.DebugLevel)).
Proof.
  unfold common.init.
  split; [| split; [| split]].
  - destruct (String.eqb (os.Getenv environ "MAILER_EMAIL") "") eqn:Hmail;
      destruct (ParseLevel _);
      repeat match goal with |- context [if ?b then _ else _] => destruct b end;
      cbn [fst]; try discriminate; apply String.eqb_neq; exact Hmail.
  - intros Hmail. apply String.eqb_neq in Hmail. rewrite Hmail.
    destruct (ParseLevel _);
      repeat match goal with |- context [if ?b then _ else _] => destruct b end;
      reflexivity.
  - intros level ->. reflexivity.
  - intros ->.
    destruct (String.eqb (os.Getenv environ "RISE_ENV") "") eqn:Hunset.
    + apply String.eqb_eq in Hunset. rewrite Hunset.
      cbn [String.eqb Ascii.eqb snd fst logrus.Out logrus.Level_ logrus.SetOutput
             logrus.SetLevel].
      split; [split; discriminate | reflexivity].
    + destruct (String.eqb (os.Getenv environ "RISE_ENV") "production") eqn:Hprod.
      * apply String.eqb_eq in Hprod. rewrite Hprod. cbn.
        split; [split; discriminate | intros H; contradiction H; reflexivity].
      * destruct (String.eqb (os.Getenv environ "RISE_ENV") "test") eqn:Htest.
        -- apply String.eqb_eq in Htest. cbn.
           split; [split; [intros _; exact Htest | reflexivity] |].
           intros _ H. contradiction.
        -- apply String.eqb_neq in Htest. cbn.
           split; [split; [discriminate | intros H; contradiction] | reflexivity].
Qed.

(** * The helpers of the controllers *)

Section Principals.
Variables OauthToken User : Type.

Let any := gin.any OauthToken User.
Let Context := gin.Context OauthToken User.

(** X18.  What a middleware stores with [c.Set] under [current_token]
    and [current_user] is what [CurrentToken] and [CurrentUser] return:
    a non-nil pointer of the right type is returned as it is; anything
    else under the key (the nil interface, a nil pointer, a value of
    another type, such as a user under the token key) gives nil and no
    panic; and the two keys do not interfere. *)
Theorem current_principals (c : Context) :
  (forall t, controllers.CurrentToken
               (gin.Set_ controllers.CurrentTokenKey (gin.TokenPtr User (Some t)) c)
             = Some t)
  /\ (forall u, controllers.CurrentUser
                  (gin.Set_ controllers.CurrentUserKey (gin.UserPtr OauthToken (Some u)) c)
                = Some u)
  /\ (forall v : any,
         (forall t, v <> gin.TokenPtr User (Some t)) ->
         controllers.CurrentToken (gin.Set_ controllers.CurrentTokenKey v c) = None)
  /\ (forall v : any,
         (forall u, v <> gin.UserPtr OauthToken (Some u)) ->
         controllers.CurrentUser (gin.Set_ controllers.CurrentUserKey v c) = None)
  /\ (forall v : any,
         controllers.CurrentUser (gin.Set_ controllers.CurrentTokenKey v c)
         = controllers.CurrentUser c)
  /\ (forall v : any,
         controllers.CurrentToken (gin.Set_ controllers.CurrentUserKey v c)
         = controllers.CurrentToken c).
Proof.
  repeat split; try reflexivity.
  - intros v Hv. destruct v as [| [t |] | u | description]; try reflexivity.
    exfalso. exact (Hv t eq_refl).
  - intros v Hv. destruct v as [| t | [u |] | description]; try reflexivity.
    exfalso. exact (Hv u eq_refl).
Qed.
End Principals.

Lemma hex_length (bytes : list ascii) :
  List.length (List.concat (map controllers.hex_byte bytes)) = 2 * List.length bytes.
Proof. induction bytes as [| b rest IH]; simpl; [reflexivity | rewrite IH; lia]. Qed.

Lemma string_of_list_length (l : list ascii) :
  String.length (string_of_list_ascii l) = List.length l.
Proof. induction l as [| c rest IH]; simpl; [reflexivity | rewrite IH; reflexivity]. Qed.

Lemma Sprintf_x_length (sum : controllers.Digest) :
  String.length (controllers.Sprintf_x sum) = 40.
Proof.
  unfold controllers.Sprintf_x. rewrite string_of_list_length, hex_length.
  destruct sum as [bytes Hlen]. simpl. rewrite Hlen. reflexivity.
Qed.

Lemma Sprintf_x_not_empty (sum : controllers.Digest) :
  String.eqb (controllers.Sprintf_x sum) "" = false.
Proof.
  apply String.eqb_neq. intros H.
  pose proof (Sprintf_x_length sum) as Hlen. rewrite H in Hlen. discriminate Hlen.
Qed.

Section Errors.
Variables OauthToken User : Type.
Variable sha1_Sum : string -> controllers.Digest.

(** X19.  [InternalServerError] always answers with status 500 and
    [error: internal_server_error].  The answer carries an [error_hash]
    exactly when an error was given, an error with an empty message
    included, and nothing else: the hash is the 40 hexadecimal digits
    of the SHA-1 sum of the message, and the same hash is logged, with
    the message, which is not part of the answer.  The answer depends on
    the error only, not on the request. *)
Theorem InternalServerError_answer (c : gin.Context OauthToken User) (err : option string) :
  let entry := fst (controllers.InternalServerError sha1_Sum c err) in
  let answer := snd (controllers.InternalServerError sha1_Sum c err) in
  controllers.status answer = 500
  /\ gin.get "error" (controllers.body answer) = Some "internal_server_error"
  /\ gin.get "error_hash" (controllers.body answer)
     = option_map (fun msg => controllers.Sprintf_x (sha1_Sum msg)) err
  /\ (forall key, key <> "error" -> key <> "error_hash" ->
      gin.get key (controllers.body answer) = None)
  /\ gin.get "hash" (controllers.entry_fields entry)
     = gin.get "error_hash" (controllers.body answer)
  /\ (forall hash,
         gin.get "error_hash" (controllers.body answer) = Some hash ->
         String.length hash = 40)
  /\ controllers.entry_message entry
     = match err with
       | Some msg => msg
       | None => "internal server error"
       end
  /\ forall c' : gin.Context OauthToken User,
       snd (controllers.InternalServerError sha1_Sum c' err) = answer.
Proof.
  assert (Hother : forall key value (m : gin.H),
             key <> "error" -> key <> "error_hash" ->
             gin.get key m = None ->
             gin.get key (("error_hash", value) :: ("error", "internal_server_error") :: m)
             = None
             /\ gin.get key (("error", "internal_server_error") :: m) = None).
  { intros key value m H1 H2 Hm.
    assert (E1 : String.eqb "error" key = false) by (apply String.eqb_neq; congruence).
    assert (E2 : String.eqb "error_hash" key = false) by (apply String.eqb_neq; congruence).
    cbn [gin.get]. rewrite E2, E1. split; exact Hm. }
  unfold controllers.InternalServerError.
  destruct err as [msg |].
  - rewrite Sprintf_x_not_empty. cbn [negb].
    repeat match goal with |- context [if ?b then _ else _] => destruct b end;
      repeat match goal with |- context [match ?x with inl _ => _ | inr _ => _ end] =>
               destruct x end;
      cbn [fst snd controllers.status controllers.body controllers.entry_fields
             controllers.entry_message option_map gin.set];
      (repeat split; try reflexivity;
       try (intros key H1 H2; exact (proj1 (Hother key _ [] H1 H2 eq_refl)));
       try (intros hash H; injection H as <-; apply Sprintf_x_length));
      intros c';
      rewrite Sprintf_x_not_empty; reflexivity.
  - cbn [String.eqb negb].
    repeat match goal with |- context [if ?b then _ else _] => destruct b end;
      repeat match goal with |- context [match ?x with inl _ => _ | inr _ => _ end] =>
               destruct x end;
      cbn [fst snd controllers.status controllers.body controllers.entry_fields
             controllers.entry_message option_map gin.set];
      repeat split; try reflexivity;
      try (intros key H1 H2; exact (proj2 (Hother key "" [] H1 H2 eq_refl)));
      intros hash H; discriminate H.
Qed.

(** X20.  The log entry of [InternalServerError] names the request and
    the client, and holds the form of the request exactly when the
    method is POST, PUT or PATCH (in capitals), the content type
    contains [application/x-www-form-urlencoded] and the form could be
    parsed: the form of any other request is not logged. *)
Theorem InternalServerError_log (c : gin.Context OauthToken User) (err : option string) :
  let fields :=
    controllers.entry_fields (fst (controllers.InternalServerError sha1_Sum c err)) in
  gin.get "req" fields
  = Some (gin.Method (gin.Request_ c) ++ " " ++ gin.URL (gin.Request_ c))
  /\ gin.get "ip" fields = Some (gin.ClientIP c)
  /\ forall form,
       gin.get "form" fields = Some form
       <-> (gin.Method (gin.Request_ c) = "POST" \/ gin.Method (gin.Request_ c) = "PUT"
            \/ gin.Method (gin.Request_ c) = "PATCH")
           /\ controllers.Contains (gin.ContentType c) "application/x-www-form-urlencoded"
              = true
           /\ gin.ParseForm (gin.Request_ c) = inr form.
Proof.
  unfold controllers.InternalServerError.
  assert (Hhash : forall msg, negb (String.eqb (controllers.Sprintf_x (sha1_Sum msg)) "")
                              = true)
    by (intros msg; rewrite Sprintf_x_not_empty; reflexivity).
  destruct (String.eqb (gin.Method (gin.Request_ c)) "POST") eqn:Hpost;
    destruct (String.eqb (gin.Method (gin.Request_ c)) "PUT") eqn:Hput;
    destruct (String.eqb (gin.Method (gin.Request_ c)) "PATCH") eqn:Hpatch;
    string_prop Hpost; string_prop Hput; string_prop Hpatch;
    destruct (controllers.Contains (gin.ContentType c) "application/x-www-form-urlencoded");
    destruct (gin.ParseForm (gin.Request_ c)) as [f | posted];
    destruct err as [msg |]; rewrite ?Hhash; cbn;
    (split; [reflexivity |]); (split; [reflexivity |]);
    intros form; split;
    try (intros H; discriminate H);
    try (intros [_ [H _]]; discriminate H);
    try (intros [_ [_ H]]; discriminate H);
    try (intros [[H | [H | H]] _]; contradiction);
    try (intros H; injection H as <-; repeat split; tauto);
    try (intros [_ [_ H]]; injection H as <-; reflexivity).
Qed.
End Errors.

(** ** Examples *)

Module StartTests.
Import StartCases.

(** With the credentials only, [RISE_ENV] becomes [development] and the
    mime types are registered. *)
Example credentials_suffice :
  os.Getenv (fst (deployer_init credentials_only)) "RISE_ENV" = "development"
  /\ snd (deployer_init credentials_only) = Registered.
Proof. split; reflexivity. Qed.

(** Without them the process ends. *)
Example no_credentials :
  snd (deployer_init (fun _ => None))
  = Fatal "AWS_ACCESS_KEY_ID and AWS_SECRET_ACCESS_KEY environment variables are required!".
Proof. reflexivity. Qed.

(** The tests run with [RISE_LOG_LEVEL=debug] log to the standard error. *)
Example verbose_tests_are_heard :
  common.init ParseLevel verbose_test standard
  = ("Rise.sh <support@rise.sh>",
     {| logrus.Level_ := logrus.DebugLevel; logrus.Out := logrus.Stderr |}).
Proof. reflexivity. Qed.

(** A failed POST of a form: the form and the hash are logged, the hash
    is answered. *)
Example failed_post :
  let run := controllers.InternalServerError digest posted_form (Some "boom") in
  gin.get "form" (controllers.entry_fields (fst run)) = Some "name=foo"
  /\ gin.get "req" (controllers.entry_fields (fst run)) = Some "POST /projects"
  /\ gin.get "error_hash" (controllers.body (snd run))
     = Some "6262626262626262626262626262626262626262"
  /\ controllers.entry_message (fst run) = "boom".
Proof. repeat split. Qed.

(** A user stored under the token key is not a token. *)
Example user_is_no_token :
  controllers.CurrentToken
    (gin.Set_ controllers.CurrentTokenKey (gin.UserPtr nat (Some 3)) posted_form) = None
  /\ controllers.CurrentUser
       (gin.Set_ controllers.CurrentUserKey (gin.UserPtr nat (Some 3)) posted_form) = Some 3.
Proof. split; reflexivity. Qed.
End StartTests.
